(** * Dialogue engine of the airline chat agent (backend_app.py)

    A shallow embedding of [backend_app.py]: the entity extractors
    ([_extract_city_tokens], [_extract_date_tokens]), the session-keyed
    stores ([search_contexts], [booking_contexts], [chat_histories]), the
    search flow ([search_flights_tool]), the booking flow
    ([book_flight_tool]), the booking status ([check_booking_status_tool]),
    the policy answers ([rag_tool]), the intent router without a client
    ([tool_picker], [fallback_rules] of [pick_tool_with_agent],
    [execute_tool]), the chat endpoint ([chat_endpoint]), the document store
    ([FaissVectorDB]) and the fallback embedder ([FallbackEmbedder]).

    Conventions of the embedding.
    - Text is a [string] of 8-bit characters.  Character classes, [lower]
      and [strip] follow Python on the ASCII range (code points below 128);
      a character above that range is kept as it is and belongs to no class.
    - The standard-library [re] module is embedded as a small backtracking
      matcher with Python's priorities (leftmost start, greedy and lazy
      repetition, ordered alternation, numbered groups).
    - The module-level dicts are [gmap string _]; a dict read through
      [.get(key, default)] and then mutated is written back to the store at
      the point where the mutation happens, which is what aliasing does.
    - What the module gets from outside is a parameter: the sqlite
      collaborator ([db], [bookings_db]), the wall clock ([datetime.now()]),
      the rendering of a fare ([f"{price:,.0f}"]), the built-in [hash], the
      embedder and the faiss index of the document store, the verification
      of a token and [uuid.uuid4()]. *)

From Stdlib Require Import Ascii String Decimal DecimalFacts DecimalPos
  DecimalString.
From stdpp Require Import gmap strings list fin_maps.

Local Open Scope string_scope.

(** ** Characters *)

Definition code (c : ascii) : nat := nat_of_ascii c.

Definition between (lo hi : nat) (c : ascii) : bool :=
  (lo <=? code c)%nat && (code c <=? hi)%nat.

(** [\d] *)
Definition is_digit (c : ascii) : bool := between 48 57 c.
(** [[a-z]], [[A-Z]], [[a-zA-Z]] *)
Definition is_lower_letter (c : ascii) : bool := between 97 122 c.
Definition is_upper_letter (c : ascii) : bool := between 65 90 c.
Definition is_alpha (c : ascii) : bool := is_lower_letter c || is_upper_letter c.
(** [[a-zA-Z ]] *)
Definition is_alpha_or_blank (c : ascii) : bool := is_alpha c || (code c =? 32)%nat.
(** [[A-F]] *)
Definition is_A_to_F (c : ascii) : bool := between 65 70 c.
(** [\s] and [str.isspace]: tab, LF, VT, FF, CR, FS, GS, RS, US, space *)
Definition is_space (c : ascii) : bool :=
  between 9 13 c || between 28 31 c || (code c =? 32)%nat.
(** [\w] *)
Definition is_word (c : ascii) : bool :=
  is_alpha c || is_digit c || (code c =? 95)%nat.

Definition lower_char (c : ascii) : ascii :=
  if is_upper_letter c then ascii_of_nat (code c + 32) else c.
Definition upper_char (c : ascii) : ascii :=
  if is_lower_letter c then ascii_of_nat (code c - 32) else c.

(** ** Strings *)

Fixpoint smap (f : ascii -> ascii) (s : string) : string :=
  match s with
  | EmptyString => EmptyString
  | String c t => String (f c) (smap f t)
  end.

(** [str.lower()], [str.upper()] *)
Definition lower (s : string) : string := smap lower_char s.
Definition upper (s : string) : string := smap upper_char s.

Fixpoint lstrip (s : string) : string :=
  match s with
  | String c t => if is_space c then lstrip t else s
  | EmptyString => EmptyString
  end.

Fixpoint rstrip (s : string) : string :=
  match s with
  | EmptyString => EmptyString
  | String c t =>
      match rstrip t with
      | EmptyString => if is_space c then EmptyString else String c EmptyString
      | t' => String c t'
      end
  end.

(** [str.strip()] *)
Definition strip (s : string) : string := rstrip (lstrip s).

(** [needle in hay] *)
Fixpoint str_in (needle hay : string) : bool :=
  String.prefix needle hay ||
  match hay with
  | EmptyString => false
  | String _ t => str_in needle t
  end.

(** [hay.find(needle)], for a needle that occurs ([None] stands for -1) *)
Fixpoint find (needle hay : string) : option nat :=
  if String.prefix needle hay then Some 0%nat
  else match hay with
       | EmptyString => None
       | String _ t => S <$> find needle t
       end.

(** [any(w in txt for w in words)] *)
Definition any_in (words : list string) (txt : string) : bool :=
  existsb (fun w => str_in w txt) words.

(** [next((c for c in l if p c), None)] *)
Definition first_such {A} (p : A -> bool) (l : list A) : option A :=
  List.find p l.

(** truth value of [d.get(key)] for a slot that holds a string *)
Definition truthy (o : option string) : bool :=
  match o with
  | Some s => negb (String.eqb s "")
  | None => false
  end.

Definition nl : string := String (ascii_of_nat 10) EmptyString.

(** [sep.join(lines)] *)
Fixpoint join (sep : string) (lines : list string) : string :=
  match lines with
  | [] => ""
  | [l] => l
  | l :: rest => l +:+ sep +:+ join sep rest
  end.

(** [str(n)] for an int, [f"{n:02d}"] and [f"{n:04d}"] for a natural number *)
Definition str_of_Z (z : Z) : string := NilZero.string_of_int (Z.to_int z).
Definition str_of_nat (n : nat) : string := NilZero.string_of_uint (Nat.to_uint n).

Fixpoint zeros (n : nat) : string :=
  match n with O => "" | S k => "0" +:+ zeros k end.

Definition pad0 (width : nat) (s : string) : string :=
  zeros (width - String.length s) +:+ s.

(** [int(s)] for a string of decimal digits *)
Definition int_of_digits (s : string) : nat :=
  (fix go (acc : nat) (s : string) : nat :=
     match s with
     | EmptyString => acc
     | String c t => go (10 * acc + (code c - 48))%nat t
     end) 0%nat s.

(** ** The [re] module: a backtracking matcher *)

Module Re.

Inductive regex : Type :=
| Lit (s : string)                     (* literal text *)
| Cls (p : ascii -> bool)              (* one character of a class *)
| Rep (p : ascii -> bool) (lo : nat) (hi : option nat) (greedy : bool)
                                       (* class{lo,hi}, class+ and class+? *)
| Seq (r1 r2 : regex)
| Alt (r1 r2 : regex)
| Grp (i : nat) (r : regex)            (* capturing group number i *)
| WordB.                               (* \b *)

(** Where the matcher stands: the character before, the offset, what is left. *)
Record cursor : Type := Cursor {
  c_prev : option ascii;
  c_pos : nat;
  c_rest : string
}.

Definition caps : Type := list (nat * (nat * nat)).
Definition kont : Type := cursor -> caps -> option (nat * caps).

Definition step (c : ascii) (t : string) (cur : cursor) : cursor :=
  Cursor (Some c) (S (c_pos cur)) t.

Definition word_before (cur : cursor) : bool :=
  match c_prev cur with Some c => is_word c | None => false end.
Definition word_after (cur : cursor) : bool :=
  match c_rest cur with String c _ => is_word c | EmptyString => false end.
Definition at_boundary (cur : cursor) : bool :=
  xorb (word_before cur) (word_after cur).

Fixpoint lit_go (l : string) (cur : cursor) : option cursor :=
  match l with
  | EmptyString => Some cur
  | String a l' =>
      match c_rest cur with
      | String b t => if Ascii.eqb a b then lit_go l' (step b t cur) else None
      | EmptyString => None
      end
  end.

Definition below (hi : option nat) (n : nat) : bool :=
  match hi with Some h => (n <? h)%nat | None => true end.

(** [n] characters of the class are taken already. A greedy repetition takes
    one more first and gives it back when the rest fails; a lazy one tries
    the rest first. *)
Fixpoint rep_go (p : ascii -> bool) (lo : nat) (hi : option nat) (greedy : bool)
    (n : nat) (prev : option ascii) (pos : nat) (rest : string)
    (cs : caps) (k : kont) {struct rest} : option (nat * caps) :=
  if greedy then
    match
      match rest with
      | String c t =>
          if p c && below hi n
          then rep_go p lo hi greedy (S n) (Some c) (S pos) t cs k
          else None
      | EmptyString => None
      end
    with
    | Some r => Some r
    | None => if (lo <=? n)%nat then k (Cursor prev pos rest) cs else None
    end
  else
    match (if (lo <=? n)%nat then k (Cursor prev pos rest) cs else None) with
    | Some r => Some r
    | None =>
        match rest with
        | String c t =>
            if p c && below hi n
            then rep_go p lo hi greedy (S n) (Some c) (S pos) t cs k
            else None
        | EmptyString => None
        end
    end.

Fixpoint rmatch (r : regex) (cur : cursor) (cs : caps) (k : kont)
    : option (nat * caps) :=
  match r with
  | Lit s =>
      match lit_go s cur with
      | Some cur' => k cur' cs
      | None => None
      end
  | Cls p =>
      match c_rest cur with
      | String c t => if p c then k (step c t cur) cs else None
      | EmptyString => None
      end
  | Rep p lo hi greedy =>
      rep_go p lo hi greedy 0 (c_prev cur) (c_pos cur) (c_rest cur) cs k
  | Seq r1 r2 => rmatch r1 cur cs (fun cur' cs' => rmatch r2 cur' cs' k)
  | Alt r1 r2 =>
      match rmatch r1 cur cs k with
      | Some x => Some x
      | None => rmatch r2 cur cs k
      end
  | Grp i r1 =>
      rmatch r1 cur cs
        (fun cur' cs' => k cur' ((i, (c_pos cur, c_pos cur')) :: cs'))
  | WordB => if at_boundary cur then k cur cs else None
  end.

(** A match object: the text searched and the spans of the groups. *)
Record rmatch_obj : Type := MatchObj {
  m_text : string;
  m_start : nat;
  m_end : nat;
  m_caps : caps
}.

Definition accept : kont := fun cur cs => Some (c_pos cur, cs).

Fixpoint search_from (r : regex) (text : string)
    (prev : option ascii) (pos : nat) (rest : string) {struct rest}
    : option rmatch_obj :=
  match rmatch r (Cursor prev pos rest) [] accept with
  | Some (e, cs) => Some (MatchObj text pos e cs)
  | None =>
      match rest with
      | String c t => search_from r text (Some c) (S pos) t
      | EmptyString => None
      end
  end.

(** [re.search(r, text)] *)
Definition search (r : regex) (text : string) : option rmatch_obj :=
  search_from r text None 0 text.

Fixpoint span_of (i : nat) (cs : caps) : option (nat * nat) :=
  match cs with
  | [] => None
  | (j, sp) :: rest => if (i =? j)%nat then Some sp else span_of i rest
  end.

(** [m.group(i)], for a group that took part in the match *)
Definition group (m : rmatch_obj) (i : nat) : string :=
  match span_of i (m_caps m) with
  | Some (s, e) => String.substring s (e - s) (m_text m)
  | None => ""
  end.

Definition plus (p : ascii -> bool) : regex := Rep p 1 None true.
Definition plus_lazy (p : ascii -> bool) : regex := Rep p 1 None false.

Fixpoint seqs (rs : list regex) : regex :=
  match rs with
  | [] => Lit ""
  | [r] => r
  | r :: rest => Seq r (seqs rest)
  end.

Fixpoint alts (r : regex) (rs : list regex) : regex :=
  match rs with
  | [] => r
  | r' :: rest => Alt r (alts r' rest)
  end.

End Re.

Import Re.

(** ** Results of fallible steps *)

Inductive result (A : Type) : Type :=
| Ok (a : A)
| Raise (msg : string).
Arguments Ok {A} a.
Arguments Raise {A} msg.

(** [l[i]]: an [IndexError] out of range *)
Definition index_list {A} (l : list A) (i : nat) : result A :=
  match l !! i with
  | Some x => Ok x
  | None => Raise "list index out of range"
  end.

(** [d[key]] for an optional slot of a context: a [KeyError] when absent *)
Definition getitem {A} (slot : option A) (key : string) : result A :=
  match slot with
  | Some v => Ok v
  | None => Raise ("'" +:+ key +:+ "'")
  end.

(** ** Entity extractor *)

Definition cities : list string :=
  [ "delhi"; "del"; "mumbai"; "bom"; "bengaluru"; "bangalore"; "blr";
    "hyderabad"; "hyd"; "chennai"; "maa"; "kolkata"; "ccu";
    "dubai"; "dxb"; "singapore"; "sin"; "london"; "lhr"; "new york"; "jfk";
    "pune" ].

Record city_pair : Type := CityPair {
  cp_origin : option string;
  cp_destination : option string
}.

(** [from\s+([a-zA-Z ]+?)\s+to\s+([a-zA-Z ]+)] *)
Definition re_from_to : regex :=
  seqs [ Lit "from"; plus is_space; Grp 1 (plus_lazy is_alpha_or_blank);
         plus is_space; Lit "to"; plus is_space;
         Grp 2 (plus is_alpha_or_blank) ].

(** [([a-zA-Z]+)\s+to\s+([a-zA-Z]+)] *)
Definition re_x_to_y : regex :=
  seqs [ Grp 1 (plus is_alpha); plus is_space; Lit "to"; plus is_space;
         Grp 2 (plus is_alpha) ].

(** [(?:need to go|going to|go to|visit|fly to|travel to)\s+([a-zA-Z]+)] *)
Definition re_going : regex :=
  seqs [ alts (Lit "need to go")
           [ Lit "going to"; Lit "go to"; Lit "visit"; Lit "fly to";
             Lit "travel to" ];
         plus is_space; Grp 1 (plus is_alpha) ].

(** [to\s+([a-zA-Z]+)] *)
Definition re_to : regex :=
  seqs [ Lit "to"; plus is_space; Grp 1 (plus is_alpha) ].

(** [from\s+([a-zA-Z]+)] *)
Definition re_from : regex :=
  seqs [ Lit "from"; plus is_space; Grp 1 (plus is_alpha) ].

(** [c in f]: the vocabulary name occurs inside the captured phrase *)
Definition phrase_has_name (f c : string) : bool := str_in c f.

(** [c == f or f in c]: the captured token is the name or occurs inside it *)
Definition name_has_token (f c : string) : bool :=
  String.eqb c f || str_in f c.

(** [hay.find(needle)] as Python returns it *)
Definition find_index (needle hay : string) : Z :=
  match find needle hay with
  | Some i => Z.of_nat i
  | None => (-1)%Z
  end.

(** [list.sort(key=lambda x: x[0])]: stable, ascending *)
Fixpoint insert_by_idx (x : Z * string) (l : list (Z * string))
    : list (Z * string) :=
  match l with
  | [] => [x]
  | y :: t => if (fst y <=? fst x)%Z then y :: insert_by_idx x t
              else x :: y :: t
  end.

Definition sort_by_idx (l : list (Z * string)) : list (Z * string) :=
  fold_left (fun acc x => insert_by_idx x acc) l [].

(** The [for c in cities: if c in txt: ...] loop followed by the sort. *)
Definition city_occurrences (txt : string) : list (Z * string) :=
  sort_by_idx
    (map (fun c => (find_index c txt, c))
         (List.filter (fun c => str_in c txt) cities)).

(** The fallback block at the end of [_extract_city_tokens]. *)
Definition city_fallback (txt : string) (origin destination : option string)
    : result city_pair :=
  if negb (truthy origin) || negb (truthy destination) then
    let occurrences := city_occurrences txt in
    if (2 <=? length occurrences)%nat then
      if negb (truthy origin) && negb (truthy destination) then
        match index_list occurrences 0, index_list occurrences 1 with
        | Ok o, Ok d => Ok (CityPair (Some (snd o)) (Some (snd d)))
        | Raise e, _ | _, Raise e => Raise e
        end
      else Ok (CityPair origin destination)
    else if (length occurrences =? 1)%nat then
      if negb (truthy destination) then
        match index_list occurrences 0 with
        | Ok d => Ok (CityPair origin (Some (snd d)))
        | Raise e => Raise e
        end
      else Ok (CityPair origin destination)
    else Ok (CityPair origin destination)
  else Ok (CityPair origin destination).

Definition _extract_city_tokens (text : string) : result city_pair :=
  let txt := strip (lower text) in
  match search re_from_to txt with
  | Some m =>
      let f1 := strip (group m 1) in
      let f2 := strip (group m 2) in
      Ok (CityPair (first_such (phrase_has_name (lower f1)) cities)
                   (first_such (phrase_has_name (lower f2)) cities))
  | None =>
  match search re_x_to_y txt with
  | Some m =>
      let f1 := strip (group m 1) in
      let f2 := strip (group m 2) in
      Ok (CityPair (first_such (name_has_token (lower f1)) cities)
                   (first_such (name_has_token (lower f2)) cities))
  | None =>
  match search re_going txt with
  | Some m =>
      let f1 := lower (strip (group m 1)) in
      Ok (CityPair None (first_such (name_has_token f1) cities))
  | None =>
      let destination :=
        match search re_to txt with
        | Some m => first_such (name_has_token (lower (strip (group m 1)))) cities
        | None => None
        end in
      let origin :=
        match search re_from txt with
        | Some m => first_such (name_has_token (lower (strip (group m 1)))) cities
        | None => None
        end in
      city_fallback txt origin destination
  end end end.

(** *** Dates *)

Record date : Type := Date { year : nat; month : nat; day : nat }.

Definition is_leap (y : nat) : bool :=
  ((y mod 4 =? 0) && negb (y mod 100 =? 0) || (y mod 400 =? 0))%nat.

Definition days_in_month (y m : nat) : nat :=
  match m with
  | 2 => if is_leap y then 29 else 28
  | 4 | 6 | 9 | 11 => 30
  | _ => 31
  end.

(** [d + timedelta(days=1)], for a clock before the last day [datetime] has *)
Definition add_one_day (d : date) : date :=
  if (day d <? days_in_month (year d) (month d))%nat
  then Date (year d) (month d) (S (day d))
  else if (month d <? 12)%nat then Date (year d) (S (month d)) 1
  else Date (S (year d)) 1 1.

(** [f"{year:04d}-{month_num:02d}-{day:02d}"]; [strftime("%Y-%m-%d")] gives
    the same text for a year of four digits *)
Definition iso_format (y m d : nat) : string :=
  pad0 4 (str_of_nat y) +:+ "-" +:+ pad0 2 (str_of_nat m) +:+ "-"
  +:+ pad0 2 (str_of_nat d).

Definition strftime_iso (d : date) : string :=
  iso_format (year d) (month d) (day d).

Definition months : list string :=
  [ "jan"; "feb"; "mar"; "apr"; "may"; "jun"; "jul"; "aug"; "sep"; "oct";
    "nov"; "dec" ].

(** [months.index(mon)], asked only when [mon in months] *)
Fixpoint index_of (x : string) (l : list string) : option nat :=
  match l with
  | [] => None
  | y :: t => if String.eqb y x then Some 0%nat else S <$> index_of x t
  end.

(** [(\d{4}-\d{2}-\d{2})] *)
Definition re_iso_date : regex :=
  Grp 1 (seqs [ Rep is_digit 4 (Some 4) true; Lit "-";
                Rep is_digit 2 (Some 2) true; Lit "-";
                Rep is_digit 2 (Some 2) true ]).

(** [on\s+(\d{1,2})\s+([a-zA-Z]{3,})] *)
Definition re_on_day : regex :=
  seqs [ Lit "on"; plus is_space; Grp 1 (Rep is_digit 1 (Some 2) true);
         plus is_space; Grp 2 (Rep is_alpha 3 None true) ].

(** The two relative words; [now] is what [datetime.now()] returns. *)
Definition relative_date (now : date) (t : string) : option string :=
  if str_in "tomorrow" t then Some (strftime_iso (add_one_day now))
  else if str_in "today" t then Some (strftime_iso now)
  else None.

Definition _extract_date_tokens (now : date) (text : string) : option string :=
  let t := lower text in
  match search re_iso_date t with
  | Some m => Some (group m 1)
  | None =>
      match search re_on_day t with
      | Some m2 =>
          let day := int_of_digits (group m2 1) in
          let mon := lower (String.substring 0 3 (group m2 2)) in
          match index_of mon months with
          | Some i => Some (iso_format (year now) (i + 1) day)
          | None => relative_date now t
          end
      | None => relative_date now t
      end
  end.

(** ** Reply texts

    The pictographs that open a message, as the source file spells them. *)

Definition icon_compass : string := "üß≠".
Definition icon_landing : string := "üõ¨".
Definition icon_takeoff : string := "üõ´".
Definition icon_calendar : string := "üìÖ".
Definition icon_cross : string := "‚ùå".
Definition icon_plane : string := "‚úàÔ∏è".
Definition icon_warning : string := "‚ö†Ô∏è".
Definition icon_seat : string := "üí∫".
Definition icon_card : string := "üí≥".
Definition icon_check : string := "‚úÖ".
Definition bullet : string := "‚Ä¢".
Definition dash : string := "‚Äî".
Definition arrow : string := "‚Üí".
Definition rupee : string := "‚Çπ".

Definition msg_search_ask_both : string :=
  icon_compass +:+ " Where are you flying from and to? You can say 'from Delhi to Mumbai'.".
Definition msg_ask_destination : string :=
  icon_landing +:+ " Noted your origin. Which destination city?".
Definition msg_ask_origin : string :=
  icon_takeoff +:+ " Got your destination. What's your departure city?".
Definition msg_ask_date : string :=
  icon_calendar +:+ " What date are you traveling? (e.g., 2025-12-05 or 'tomorrow')".
Definition msg_no_match : string :=
  icon_cross +:+ " No flights match that route/date. Try a different date or cities.".
Definition msg_search_header : string :=
  icon_plane +:+ " Matching flights (top results):" +:+ nl.
Definition msg_search_footer : string :=
  nl +:+ "To book, just say: 'book this' or 'book first one'.".
Definition msg_search_error (e : string) : string :=
  icon_warning +:+ " Error searching flights: " +:+ e.

Definition msg_login_required : string :=
  icon_cross +:+ " You must be logged in to book flights.".
Definition msg_book_ask_both : string :=
  icon_compass +:+ " To book, tell me where you're flying from and to.".
Definition msg_no_flights : string :=
  icon_cross +:+ " No flights available for that route/date. Try another date.".
Definition msg_options_header : string :=
  icon_plane +:+ " Available flights:" +:+ nl.
Definition msg_options_footer : string :=
  nl +:+ "Reply 'book first', 'book second', or 'book this'.".
Definition msg_booking_search_failed (e : string) : string :=
  icon_warning +:+ " Booking search failed: " +:+ e.
Definition msg_choose : string :=
  "Please choose which option to book (e.g., 'book first').".
Definition msg_ask_seat : string :=
  icon_seat +:+ " What seat would you like (e.g., 12A)?".
Definition msg_seat_again : string :=
  "Please provide a seat like 12A, 15C, etc.".
Definition msg_ask_payment : string :=
  icon_card +:+ " Great. Which payment method? (UPI / Credit Card / Debit Card / Net Banking)".
Definition msg_payment_again : string :=
  "Choose a payment method: UPI, Credit Card, Debit Card, or Net Banking.".
Definition msg_no_flight_selected : string :=
  icon_cross +:+ " No flight selected. Please choose an option to book.".
Definition msg_booking_failed (e : string) : string :=
  icon_warning +:+ " Booking failed: " +:+ e.
Definition msg_restart : string :=
  "Let's start your booking. Tell me the flight number (e.g., AI101).".

(** ** Context store and flows *)

(** [session_id or "default"] *)
Definition session_key (session_id : option string) : string :=
  match session_id with
  | Some s => if String.eqb s "" then "default" else s
  | None => "default"
  end.

(** A context of [search_contexts]: a dict with the keys origin, destination
    and date, each present or not. *)
Record search_ctx : Type := SearchCtx {
  sc_origin : option string;
  sc_destination : option string;
  sc_date : option string
}.

Definition empty_search_ctx : search_ctx := SearchCtx None None None.

(** The stage names [book_flight_tool] writes. *)
Inductive stage : Type := Collect | Choose | Seat | Payment | Start.

Section Flows.

(** The fare as sqlite hands it over (a REAL), and how the f-strings render
    it with [:,.0f]. *)
Variable Price : Type.
Variable fmt_price : Price -> string.
(** The built-in [hash] on a str. *)
Variable py_hash : string -> Z.

(** A row of the SELECT, in column order. *)
Record flight_row : Type := FlightRow {
  r_flight_id : Z;
  r_flight_number : string;
  r_airline : string;
  r_origin : string;
  r_destination : string;
  r_departure_time : string;
  r_price : Price;
  r_flight_type : string
}.

(** The tuple [(fid, num, airline, origin, dest, dep, price)] kept in
    options and in chosen. *)
Record flight_option : Type := FlightOption {
  o_fid : Z;
  o_num : string;
  o_airline : string;
  o_origin : string;
  o_dest : string;
  o_dep : string;
  o_price : Price
}.

Definition option_of_row (r : flight_row) : flight_option :=
  FlightOption (r_flight_id r) (r_flight_number r) (r_airline r) (r_origin r)
               (r_destination r) (r_departure_time r) (r_price r).

(** A context of [booking_contexts]. *)
Record booking_ctx : Type := BookingCtx {
  bc_stage : stage;
  bc_origin : option string;
  bc_destination : option string;
  bc_date : option string;
  bc_options : option (list flight_option);
  bc_chosen : option flight_option;
  bc_seat : option string;
  bc_payment_method : option string
}.

(** [{"stage": "collect"}] and [{"stage": "start"}] *)
Definition fresh_ctx (s : stage) : booking_ctx :=
  BookingCtx s None None None None None None None.

Definition set_stage (s : stage) (c : booking_ctx) : booking_ctx :=
  BookingCtx s (bc_origin c) (bc_destination c) (bc_date c) (bc_options c)
             (bc_chosen c) (bc_seat c) (bc_payment_method c).
Definition set_origin (v : option string) (c : booking_ctx) : booking_ctx :=
  BookingCtx (bc_stage c) v (bc_destination c) (bc_date c) (bc_options c)
             (bc_chosen c) (bc_seat c) (bc_payment_method c).
Definition set_destination (v : option string) (c : booking_ctx) : booking_ctx :=
  BookingCtx (bc_stage c) (bc_origin c) v (bc_date c) (bc_options c)
             (bc_chosen c) (bc_seat c) (bc_payment_method c).
Definition set_date (v : option string) (c : booking_ctx) : booking_ctx :=
  BookingCtx (bc_stage c) (bc_origin c) (bc_destination c) v (bc_options c)
             (bc_chosen c) (bc_seat c) (bc_payment_method c).
Definition set_options (v : list flight_option) (c : booking_ctx) : booking_ctx :=
  BookingCtx (bc_stage c) (bc_origin c) (bc_destination c) (bc_date c) (Some v)
             (bc_chosen c) (bc_seat c) (bc_payment_method c).
Definition set_chosen (v : flight_option) (c : booking_ctx) : booking_ctx :=
  BookingCtx (bc_stage c) (bc_origin c) (bc_destination c) (bc_date c)
             (bc_options c) (Some v) (bc_seat c) (bc_payment_method c).
Definition set_seat (v : string) (c : booking_ctx) : booking_ctx :=
  BookingCtx (bc_stage c) (bc_origin c) (bc_destination c) (bc_date c)
             (bc_options c) (bc_chosen c) (Some v) (bc_payment_method c).
Definition set_payment_method (v : string) (c : booking_ctx) : booking_ctx :=
  BookingCtx (bc_stage c) (bc_origin c) (bc_destination c) (bc_date c)
             (bc_options c) (bc_chosen c) (bc_seat c) (Some v).

(** The sqlite collaborator as one call sees it.  [db_connect] is
    [_get_conn()]; [db_flights origin dest date] is the SELECT with its
    [fetchall()]; [db_commit customer flight date seat price pnr method] is
    the INSERT of the booking, the UPDATE of the seats, the INSERT of the
    payment and [conn.commit()], and gives [cur.lastrowid] of the booking.
    [Raise e] is an exception whose [str(e)] is [e]. *)
Record db : Type := Db {
  db_connect : result unit;
  db_flights : string -> string -> string -> result (list flight_row);
  db_commit : Z -> Z -> string -> string -> Price -> string -> string -> result Z
}.

(** *** search_flights_tool *)

Definition search_line (r : flight_row) : string :=
  bullet +:+ " " +:+ r_airline r +:+ " " +:+ r_flight_number r +:+ " " +:+ dash
  +:+ " " +:+ r_origin r +:+ " " +:+ arrow +:+ " " +:+ r_destination r +:+ " "
  +:+ dash +:+ " Dep: " +:+ r_departure_time r +:+ " " +:+ dash +:+ " Fare: "
  +:+ rupee +:+ fmt_price (r_price r).

Definition search_results (flights : list flight_row) : string :=
  join nl ([msg_search_header] ++ map search_line flights ++ [msg_search_footer]).

(** The slot merge of one search turn (lines 457 to 478). *)
Definition search_merge (now : date) (query : string) (ctx : search_ctx)
    : result search_ctx :=
  let asking_for_origin :=
    truthy (sc_destination ctx) && negb (truthy (sc_origin ctx)) in
  let asking_for_dest :=
    truthy (sc_origin ctx) && negb (truthy (sc_destination ctx)) in
  match _extract_city_tokens query with
  | Raise e => Raise e
  | Ok extracted =>
      let ctx1 :=
        if asking_for_origin && truthy (cp_destination extracted) then
          SearchCtx (cp_destination extracted) (sc_destination ctx) (sc_date ctx)
        else if asking_for_dest && truthy (cp_destination extracted) then
          SearchCtx (sc_origin ctx) (cp_destination extracted) (sc_date ctx)
        else
          let o := if truthy (cp_origin extracted) then cp_origin extracted
                   else sc_origin ctx in
          let d := if truthy (cp_destination extracted)
                   then cp_destination extracted else sc_destination ctx in
          SearchCtx o d (sc_date ctx) in
      let dt := _extract_date_tokens now query in
      Ok (if truthy dt then SearchCtx (sc_origin ctx1) (sc_destination ctx1) dt
          else ctx1)
  end.

Definition search_flights_tool (d : db) (now : date) (query : string)
    (session_id : option string) (search_contexts : gmap string search_ctx)
    : string * gmap string search_ctx :=
  match db_connect d with
  | Raise e => (msg_search_error e, search_contexts)
  | Ok _ =>
  let key := session_key session_id in
  let ctx0 := default empty_search_ctx (search_contexts !! key) in
  match search_merge now query ctx0 with
  | Raise e => (msg_search_error e, search_contexts)
  | Ok ctx =>
  let stored := <[key := ctx]> search_contexts in
  if negb (truthy (sc_destination ctx)) && negb (truthy (sc_origin ctx)) then
    (msg_search_ask_both, stored)
  else if truthy (sc_origin ctx) && negb (truthy (sc_destination ctx)) then
    (msg_ask_destination, stored)
  else if truthy (sc_destination ctx) && negb (truthy (sc_origin ctx)) then
    (msg_ask_origin, stored)
  else if negb (truthy (sc_date ctx)) then
    (msg_ask_date, stored)
  else
    match getitem (sc_origin ctx) "origin",
          getitem (sc_destination ctx) "destination",
          getitem (sc_date ctx) "date" with
    | Ok origin_token, Ok dest_token, Ok date_token =>
        match db_flights d origin_token dest_token date_token with
        | Raise e => (msg_search_error e, stored)
        | Ok [] => (msg_no_match, stored)
        | Ok flights => (search_results flights, delete key stored)
        end
    | Raise e, _, _ | _, Raise e, _ | _, _, Raise e =>
        (msg_search_error e, stored)
    end
  end end.

(** *** book_flight_tool *)

(** [book\s+(\d)] *)
Definition re_book_n : regex :=
  seqs [ Lit "book"; plus is_space; Grp 1 (Cls is_digit) ].

(** [\b(\d{1,2}[A-F])\b] *)
Definition re_seat : regex :=
  seqs [ WordB; Grp 1 (Seq (Rep is_digit 1 (Some 2) true) (Cls is_A_to_F));
         WordB ].

(** The slot merge of the collect stage (lines 542 to 563). *)
Definition book_merge (now : date) (txt : string) (ctx : booking_ctx)
    : result booking_ctx :=
  let asking_for_origin :=
    truthy (bc_destination ctx) && negb (truthy (bc_origin ctx)) in
  let asking_for_dest :=
    truthy (bc_origin ctx) && negb (truthy (bc_destination ctx)) in
  match _extract_city_tokens txt with
  | Raise e => Raise e
  | Ok cities =>
      let ctx1 :=
        if asking_for_origin && truthy (cp_destination cities) then
          set_origin (cp_destination cities) ctx
        else if asking_for_dest && truthy (cp_destination cities) then
          set_destination (cp_destination cities) ctx
        else
          let c := if truthy (cp_origin cities)
                   then set_origin (cp_origin cities) ctx else ctx in
          if truthy (cp_destination cities)
          then set_destination (cp_destination cities) c else c in
      let dt := _extract_date_tokens now txt in
      Ok (if truthy dt then set_date dt ctx1 else ctx1)
  end.

Definition option_line (i : nat) (o : flight_option) : string :=
  str_of_nat i +:+ ". " +:+ o_airline o +:+ " " +:+ o_num o +:+ " " +:+ dash
  +:+ " " +:+ o_origin o +:+ " " +:+ arrow +:+ " " +:+ o_dest o +:+ " " +:+ dash
  +:+ " Dep: " +:+ o_dep o +:+ " " +:+ dash +:+ " Fare: " +:+ rupee
  +:+ fmt_price (o_price o).

Definition options_listing (options : list flight_option) : string :=
  join nl ([msg_options_header]
           ++ imap (fun i o => option_line (S i) o) options
           ++ [msg_options_footer]).

(** The index the choose stage reads from the utterance (lines 610 to 620). *)
Definition choose_index (txt : string) : option nat :=
  let idx :=
    if str_in "first" txt then Some 1%nat
    else if str_in "second" txt then Some 2%nat
    else match search re_book_n txt with
         | Some m => Some (int_of_digits (group m 1))
         | None => None
         end in
  match idx with
  | None => if str_in "book this" txt || str_in "book" txt then Some 1%nat
            else None
  | Some _ => idx
  end.

(** [not idx or idx < 1 or idx > len(ctx.get("options", []))], for an index
    that was read *)
Definition index_rejected (idx : nat) (ctx : booking_ctx) : bool :=
  (idx =? 0)%nat || (idx <? 1)%nat
  || (length (default [] (bc_options ctx)) <? idx)%nat.

Definition method_map : list (string * string) :=
  [ ("upi", "UPI"); ("credit", "Credit Card"); ("debit", "Debit Card");
    ("net", "Net Banking"); ("bank", "Net Banking") ].

(** [next((v for k, v in method_map.items() if k in txt), None)] *)
Definition payment_method_of (txt : string) : option string :=
  snd <$> first_such (fun kv => str_in (fst kv) txt) method_map.

(** [f"PNR{abs(hash(sid+str(flight_id))) % 1000000:06d}"] *)
Definition pnr_of (sid : string) (flight_id : Z) : string :=
  "PNR" +:+ pad0 6 (str_of_Z (Z.abs (py_hash (sid +:+ str_of_Z flight_id))
                              mod 1000000)).

Definition confirmation (booking_id : Z) (pnr : string) (o : flight_option)
    (seat pm : string) : string :=
  icon_check +:+ " Booking Confirmed" +:+ nl
  +:+ "Booking ID: " +:+ str_of_Z booking_id +:+ " | PNR: " +:+ pnr +:+ nl
  +:+ "Flight: " +:+ o_airline o +:+ " " +:+ o_num o +:+ " | " +:+ o_origin o
  +:+ " " +:+ arrow +:+ " " +:+ o_dest o +:+ " | Dep: " +:+ o_dep o +:+ nl
  +:+ "Seat: " +:+ seat +:+ " | Payment: " +:+ pm +:+ " | Fare: " +:+ rupee
  +:+ fmt_price (o_price o) +:+ nl
  +:+ "Have a great trip!".

(** The try block of the collect stage (lines 582 to 606), entered with the
    context line 565 stored. *)
Definition collect_query (d : db) (sid : string) (ctx : booking_ctx)
    (stored : gmap string booking_ctx)
    : result string * gmap string booking_ctx :=
  match db_connect d with
  | Raise e => (Ok (msg_booking_search_failed e), stored)
  | Ok _ =>
  match getitem (bc_origin ctx) "origin",
        getitem (bc_destination ctx) "destination",
        getitem (bc_date ctx) "date" with
  | Ok o, Ok dst, Ok dt =>
      match db_flights d o dst dt with
      | Raise e => (Ok (msg_booking_search_failed e), stored)
      | Ok [] => (Ok msg_no_flights, stored)
      | Ok flights =>
          let options := map option_of_row flights in
          let ctx := set_stage Choose (set_options options ctx) in
          (Ok (options_listing options), <[sid := ctx]> stored)
      end
  | Raise e, _, _ | _, Raise e, _ | _, _, Raise e =>
      (Ok (msg_booking_search_failed e), stored)
  end end.

(** The try block of the payment stage (lines 654 to 695), entered with the
    context that holds the method. *)
Definition payment_commit (d : db) (now : date) (sid : string) (customer : Z)
    (ctx : booking_ctx) (pm : string) (stored : gmap string booking_ctx)
    : result string * gmap string booking_ctx :=
  match db_connect d with
  | Raise e => (Ok (msg_booking_failed e), stored)
  | Ok _ =>
  match bc_chosen ctx with
  | None => (Ok msg_no_flight_selected, stored)
  | Some chosen =>
      let booking_date := strftime_iso now in
      let pnr := pnr_of sid (o_fid chosen) in
      match getitem (bc_seat ctx) "seat" with
      | Raise e => (Ok (msg_booking_failed e), stored)
      | Ok seat =>
          match db_commit d customer (o_fid chosen) booking_date seat
                          (o_price chosen) pnr pm with
          | Raise e => (Ok (msg_booking_failed e), stored)
          | Ok booking_id =>
              (Ok (confirmation booking_id pnr chosen seat pm),
               delete sid stored)
          end
      end
  end end.

Definition book_flight_tool (d : db) (now : date) (query : string)
    (session_id : option string) (customer_id : option Z)
    (booking_contexts : gmap string booking_ctx)
    : result string * gmap string booking_ctx :=
  match customer_id with
  | None => (Ok msg_login_required, booking_contexts)
  | Some customer =>
  let sid := session_key session_id in
  let ctx := default (fresh_ctx Collect) (booking_contexts !! sid) in
  let txt := lower query in
  match bc_stage ctx with
  | Collect =>
      match book_merge now txt ctx with
      | Raise e => (Raise e, booking_contexts)
      | Ok ctx =>
      let stored := <[sid := ctx]> booking_contexts in
      let missing_origin := negb (truthy (bc_origin ctx)) in
      let missing_dest := negb (truthy (bc_destination ctx)) in
      let missing_date := negb (truthy (bc_date ctx)) in
      if missing_origin && missing_dest then (Ok msg_book_ask_both, stored)
      else if negb missing_dest && missing_origin then (Ok msg_ask_origin, stored)
      else if negb missing_origin && missing_dest
      then (Ok msg_ask_destination, stored)
      else if missing_date then (Ok msg_ask_date, stored)
      else collect_query d sid ctx stored
      end
  | Choose =>
      match choose_index txt with
      | None => (Ok msg_choose, booking_contexts)
      | Some idx =>
          if index_rejected idx ctx then (Ok msg_choose, booking_contexts)
          else
            match getitem (bc_options ctx) "options" with
            | Raise e => (Raise e, booking_contexts)
            | Ok options =>
                match index_list options (idx - 1) with
                | Raise e => (Raise e, booking_contexts)
                | Ok choice =>
                    let ctx := set_stage Seat (set_chosen choice ctx) in
                    (Ok msg_ask_seat, <[sid := ctx]> booking_contexts)
                end
            end
      end
  | Seat =>
      match search re_seat txt with
      | None => (Ok msg_seat_again, booking_contexts)
      | Some m =>
          let ctx := set_stage Payment (set_seat (upper (group m 1)) ctx) in
          (Ok msg_ask_payment, <[sid := ctx]> booking_contexts)
      end
  | Payment =>
      match payment_method_of txt with
      | None => (Ok msg_payment_again, booking_contexts)
      | Some pm =>
          if String.eqb pm "" then (Ok msg_payment_again, booking_contexts)
          else
            let ctx := set_payment_method pm ctx in
            payment_commit d now sid customer ctx pm
              (<[sid := ctx]> booking_contexts)
      end
  | Start =>
      (Ok msg_restart, <[sid := fresh_ctx Start]> booking_contexts)
  end end.

(** One turn of a booking conversation: what the collaborator and the clock
    do during it, the utterance and the caller. *)
Record turn : Type := Turn {
  t_db : db;
  t_now : date;
  t_query : string;
  t_customer : Z
}.

(** The turns of one session, in order; the replies and the store after. *)
Fixpoint book_turns (session_id : option string) (turns : list turn)
    (st : gmap string booking_ctx)
    : list (result string) * gmap string booking_ctx :=
  match turns with
  | [] => ([], st)
  | t :: rest =>
      let '(r, st1) := book_flight_tool (t_db t) (t_now t) (t_query t)
                         session_id (Some (t_customer t)) st in
      let '(rs, st2) := book_turns session_id rest st1 in
      (r :: rs, st2)
  end.

End Flows.

Arguments FlightRow {Price}.
Arguments r_flight_id {Price}.
Arguments r_flight_number {Price}.
Arguments r_airline {Price}.
Arguments r_origin {Price}.
Arguments r_destination {Price}.
Arguments r_departure_time {Price}.
Arguments r_price {Price}.
Arguments r_flight_type {Price}.
Arguments FlightOption {Price}.
Arguments o_fid {Price}.
Arguments o_num {Price}.
Arguments o_airline {Price}.
Arguments o_origin {Price}.
Arguments o_dest {Price}.
Arguments o_dep {Price}.
Arguments o_price {Price}.
Arguments option_of_row {Price}.
Arguments BookingCtx {Price}.
Arguments bc_stage {Price}.
Arguments bc_origin {Price}.
Arguments bc_destination {Price}.
Arguments bc_date {Price}.
Arguments bc_options {Price}.
Arguments bc_chosen {Price}.
Arguments bc_seat {Price}.
Arguments bc_payment_method {Price}.
Arguments fresh_ctx {Price}.
Arguments set_stage {Price}.
Arguments set_origin {Price}.
Arguments set_destination {Price}.
Arguments set_date {Price}.
Arguments set_options {Price}.
Arguments set_chosen {Price}.
Arguments set_seat {Price}.
Arguments set_payment_method {Price}.
Arguments Db {Price}.
Arguments db_connect {Price}.
Arguments db_flights {Price}.
Arguments db_commit {Price}.
Arguments search_line {Price}.
Arguments search_results {Price}.
Arguments search_flights_tool {Price} _ _ _ _ _ _ : simpl never.
Arguments book_merge {Price}.
Arguments option_line {Price}.
Arguments options_listing {Price}.
Arguments index_rejected {Price}.
Arguments confirmation {Price}.
Arguments collect_query {Price}.
Arguments payment_commit {Price}.
Arguments book_flight_tool {Price} _ _ _ _ _ _ _ _ : simpl never.
Arguments Turn {Price}.
Arguments t_db {Price}.
Arguments t_now {Price}.
Arguments t_query {Price}.
Arguments t_customer {Price}.
Arguments book_turns {Price}.

(** ** Intent router: the override rules of [tool_picker] *)

Definition router_cities : list string :=
  [ "delhi"; "mumbai"; "pune"; "bangalore"; "bengaluru"; "chennai";
    "hyderabad"; "kolkata"; "dubai"; "singapore"; "london"; "new york";
    "jfk"; "bom"; "del"; "blr"; "hyd"; "maa"; "ccu"; "dxb"; "sin"; "lhr" ].
Definition search_keywords : list string :=
  [ "search"; "find"; "show"; "available"; "flights"; "flight"; "looking for";
    "want to fly"; "travel"; "traveling"; "go to"; "going to"; "fly to";
    "fly from" ].
Definition detail_keywords : list string :=
  [ "details of flight"; "tell me about flight"; "flight information";
    "about flight"; "show flight"; "flight details" ].
Definition booking_info_keywords : list string :=
  [ "check booking"; "booking status"; "my booking"; "booking details"; "pnr";
    "reservation status" ].
Definition profile_keywords : list string :=
  [ "my profile"; "my account"; "my details"; "my bookings";
    "booking history"; "travel history" ].
(** the words of the guard in the search rule, and those of the booking rule *)
Definition booking_words : list string := [ "book"; "reserve"; "purchase" ].
Definition booking_phrases : list string :=
  [ "book"; "reserve"; "purchase"; "i want to book"; "need to book" ].

Definition has_city (user_lower : string) : bool := any_in router_cities user_lower.
Definition has_route (user_lower : string) : bool :=
  (str_in "from" user_lower && str_in "to" user_lower)
  || str_in " to " user_lower.
Definition has_search_intent (user_lower : string) : bool :=
  any_in search_keywords user_lower.

(** The tool the override rules force (lines 1388 to 1406): the name each
    rule hands to [execute_tool], or [None] when no rule fires and the
    classifier decides. *)
Definition forced_tool (user_input : string) : option string :=
  let user_lower := lower user_input in
  if any_in detail_keywords user_lower then Some "flight_details"
  else if any_in booking_info_keywords user_lower then Some "check_booking"
  else if any_in profile_keywords user_lower then Some "customer_info"
  else if (has_city user_lower && has_search_intent user_lower)
          || has_route user_lower
          || (has_city user_lower && negb (any_in booking_words user_lower))
  then Some "search_flights"
  else if (has_city user_lower || has_route user_lower)
          && any_in booking_phrases user_lower
  then Some "book_flight"
  else None.

(** ** Policy answers: [rag_tool] *)

Definition rag_baggage_words : list string :=
  [ "baggage"; "luggage"; "bag"; "carry"; "check-in"; "weight"; "kg" ].

Definition rag_checkin_words : list string :=
  [ "check-in"; "checkin"; "web check"; "online check"; "airport check" ].

Definition rag_cancellation_words : list string :=
  [ "cancel"; "refund"; "cancellation"; "money back" ].

Definition rag_meals_words : list string :=
  [ "meal"; "food"; "vegetarian"; "veg"; "non-veg"; "eat"; "dinner"; "lunch"; "breakfast" ].

Definition rag_seats_words : list string :=
  [ "seat"; "window"; "aisle"; "legroom"; "extra leg" ].

Definition rag_wifi_words : list string :=
  [ "wifi"; "internet"; "entertainment"; "movie"; "music" ].

Definition rag_documents_words : list string :=
  [ "visa"; "passport"; "document"; "id proof"; "identity" ].

Definition rag_delay_words : list string :=
  [ "delay"; "late"; "compensation"; "waiting" ].

Definition rag_pets_words : list string :=
  [ "pet"; "dog"; "cat"; "animal" ].

Definition rag_children_words : list string :=
  [ "infant"; "baby"; "child"; "kid"; "minor"; "unaccompanied" ].

Definition rag_assistance_words : list string :=
  [ "wheelchair"; "disability"; "special assistance"; "medical"; "oxygen" ].


Definition rag_baggage : string :=
  join nl
    [ "üß≥ **SkyLine Airways Baggage Policy**";
      "";
      "**Domestic Flights:**";
      "‚Ä¢ Carry-on: 1 bag (max 10 kg, 55x40x20 cm)";
      "‚Ä¢ Checked baggage: 1 bag (max 23 kg)";
      "‚Ä¢ Extra baggage: ‚Çπ500 per kg";
      "";
      "**International Flights:**";
      "‚Ä¢ Carry-on: 1 bag (max 10 kg)";
      "‚Ä¢ Checked baggage: 2 bags (max 32 kg each)";
      "‚Ä¢ Extra baggage: ‚Çπ800 per kg";
      "";
      "**Prohibited Items:** Flammables, sharp objects, liquids >100ml in carry-on";
      "";
      "Need help with anything else?" ].

Definition rag_checkin : string :=
  join nl
    [ "‚úÖ **Check-in Information**";
      "";
      "**Online/Web Check-in:**";
      "‚Ä¢ Opens: 48 hours before departure";
      "‚Ä¢ Closes: 2 hours before departure";
      "‚Ä¢ Get boarding pass on email/app";
      "";
      "**Airport Check-in:**";
      "‚Ä¢ Domestic: Counter opens 3 hours before, closes 45 mins before";
      "‚Ä¢ International: Counter opens 4 hours before, closes 1 hour before";
      "";
      "**Self-service Kiosks:** Available at major airports";
      "";
      "Would you like help with anything else?" ].

Definition rag_cancellation : string :=
  join nl
    [ "üí∞ **Cancellation & Refund Policy**";
      "";
      "**Free Cancellation:**";
      "‚Ä¢ Within 24 hours of booking: Full refund";
      "";
      "**Standard Cancellation Fees:**";
      "‚Ä¢ More than 7 days before: 10% fee";
      "‚Ä¢ 3-7 days before: 25% fee";
      "‚Ä¢ 24-72 hours before: 50% fee";
      "‚Ä¢ Less than 24 hours: No refund (credit only)";
      "";
      "**Refund Processing:**";
      "‚Ä¢ Credit/Debit Card: 5-7 business days";
      "‚Ä¢ UPI/Net Banking: 3-5 business days";
      "";
      "To cancel a booking, say 'cancel my booking' or provide your PNR." ].

Definition rag_meals : string :=
  join nl
    [ "üçΩÔ∏è **In-Flight Meals**";
      "";
      "**Complimentary Meals:**";
      "‚Ä¢ Domestic flights > 2 hours: Light snacks";
      "‚Ä¢ International flights: Full meal service";
      "";
      "**Special Meal Options (pre-order 24hrs before):**";
      "‚Ä¢ Vegetarian (Hindu/Jain)";
      "‚Ä¢ Non-Vegetarian";
      "‚Ä¢ Vegan";
      "‚Ä¢ Diabetic-friendly";
      "‚Ä¢ Child meals";
      "‚Ä¢ Kosher/Halal";
      "";
      "**Buy on Board:** Snacks, beverages available for purchase on domestic flights.";
      "";
      "Would you like to pre-order a special meal?" ].

Definition rag_seats : string :=
  join nl
    [ "üí∫ **Seat Selection**";
      "";
      "**Free Seats:** Standard middle seats";
      "";
      "**Preferred Seats (‚Çπ300-500):**";
      "‚Ä¢ Window seats";
      "‚Ä¢ Aisle seats";
      "‚Ä¢ Front rows";
      "";
      "**Extra Legroom (‚Çπ800-1500):**";
      "‚Ä¢ Exit row seats";
      "‚Ä¢ Bulkhead seats";
      "";
      "**Business Class:** Premium seats with extra recline";
      "";
      "To select a seat, say 'I want seat 12A' during booking." ].

Definition rag_wifi : string :=
  join nl
    [ "üì± **In-Flight Entertainment & WiFi**";
      "";
      "**WiFi (International Flights):**";
      "‚Ä¢ Complimentary messaging";
      "‚Ä¢ Browse package: ‚Çπ500/flight";
      "‚Ä¢ Streaming package: ‚Çπ1000/flight";
      "";
      "**Entertainment System:**";
      "‚Ä¢ Seatback screens on Boeing 787 & Airbus A380";
      "‚Ä¢ Movies, TV shows, music, games";
      "‚Ä¢ Kids entertainment section";
      "";
      "**Domestic Flights:** Stream to your device via onboard WiFi (free)" ].

Definition rag_documents : string :=
  join nl
    [ "üõÇ **Travel Documents Required**";
      "";
      "**Domestic Flights:**";
      "‚Ä¢ Valid Photo ID (Aadhaar, PAN, Passport, Driving License, Voter ID)";
      "";
      "**International Flights:**";
      "‚Ä¢ Valid Passport (6+ months validity)";
      "‚Ä¢ Valid Visa for destination country";
      "‚Ä¢ Return ticket proof (some countries)";
      "";
      "**Important:** Carry original documents. Name must match booking exactly.";
      "";
      "Need visa information for a specific country? Just ask!" ].

Definition rag_delay : string :=
  join nl
    [ "‚è∞ **Flight Delay Compensation**";
      "";
      "**Delay < 2 hours:** Refreshments provided";
      "**Delay 2-4 hours:** Meal vouchers";
      "**Delay > 4 hours:** Hotel accommodation (if required)";
      "**Delay > 6 hours:** Option to cancel with full refund";
      "";
      "**Compensation for Cancellation by Airline:**";
      "‚Ä¢ Full refund OR";
      "‚Ä¢ Free rebooking on next available flight";
      "‚Ä¢ ‚Çπ5000 travel voucher";
      "";
      "Check flight status by saying 'status of flight AI101'" ].

Definition rag_pets : string :=
  join nl
    [ "üêï **Pet Travel Policy**";
      "";
      "**In-Cabin (small pets < 7 kg):**";
      "‚Ä¢ Carrier must fit under seat";
      "‚Ä¢ Booking required 48hrs in advance";
      "‚Ä¢ Fee: ‚Çπ3000 (Domestic), ‚Çπ8000 (International)";
      "";
      "**Cargo Hold (larger pets):**";
      "‚Ä¢ IATA-approved crate required";
      "‚Ä¢ Health certificate from vet";
      "‚Ä¢ Fee based on weight";
      "";
      "**Not Allowed:** Snub-nosed breeds, aggressive animals";
      "";
      "Contact us 48 hours before to arrange pet travel." ].

Definition rag_children : string :=
  join nl
    [ "üë∂ **Traveling with Children**";
      "";
      "**Infants (0-2 years):**";
      "‚Ä¢ Sit on parent's lap (10% of adult fare)";
      "‚Ä¢ Bassinet available on long flights (pre-book)";
      "‚Ä¢ Carry baby food, formula freely";
      "";
      "**Children (2-12 years):**";
      "‚Ä¢ Own seat required (75% of adult fare)";
      "‚Ä¢ Kids meal available";
      "";
      "**Unaccompanied Minors (5-12 years):**";
      "‚Ä¢ ‚Çπ2500 service fee";
      "‚Ä¢ Staff escort throughout journey";
      "‚Ä¢ Guardian must complete forms at airport";
      "";
      "Need to book for a child? Just tell me the travel details!" ].

Definition rag_assistance : string :=
  join nl
    [ "‚ôø **Special Assistance Services**";
      "";
      "**Wheelchair Service (Free):**";
      "‚Ä¢ Request during booking or 48hrs before";
      "‚Ä¢ Airport staff will assist throughout";
      "";
      "**Medical Equipment:**";
      "‚Ä¢ Portable oxygen concentrators: Allowed (pre-approval needed)";
      "‚Ä¢ Mobility aids: Checked free of charge";
      "";
      "**Hearing/Vision Impaired:**";
      "‚Ä¢ Priority boarding";
      "‚Ä¢ Safety briefing assistance";
      "";
      "**Traveling with Medical Condition:**";
      "‚Ä¢ Doctor's fit-to-fly certificate may be required";
      "";
      "Contact us 48 hours before for special assistance." ].

Definition rag_help : string :=
  join nl
    [ "‚úàÔ∏è **SkyLine Airways - How Can I Help?**";
      "";
      "I can assist you with:";
      "";
      "üîç **Search & Book Flights**";
      "   Say: 'Find flights from Delhi to Mumbai'";
      "";
      "üìã **Check Your Bookings**";
      "   Say: 'Show my bookings' or 'Check booking status'";
      "";
      "üë§ **View Your Profile**";
      "   Say: 'Show my profile' or 'My account details'";
      "";
      "‚úàÔ∏è **Flight Information**";
      "   Say: 'Details of flight AI101'";
      "";
      "üìù **Policies & Information**";
      "   Ask about: Baggage, check-in, cancellation, meals, seats, WiFi, visa, pets, children, special assistance";
      "";
      "üé´ **Sample Booking Query:**";
      "   'Book a flight from Delhi to Mumbai on 2025-12-20'";
      "";
      "What would you like to know?" ].

(** [rag_tool(query)] for a str (lines 897 to 1096) *)
Definition rag_tool (query : string) : string :=
  let q := lower query in
  if any_in rag_baggage_words q then rag_baggage
  else if any_in rag_checkin_words q then rag_checkin
  else if any_in rag_cancellation_words q then rag_cancellation
  else if any_in rag_meals_words q then rag_meals
  else if any_in rag_seats_words q then rag_seats
  else if any_in rag_wifi_words q then rag_wifi
  else if any_in rag_documents_words q then rag_documents
  else if any_in rag_delay_words q then rag_delay
  else if any_in rag_pets_words q then rag_pets
  else if any_in rag_children_words q then rag_children
  else if any_in rag_assistance_words q then rag_assistance
  else rag_help.

(** [manage_booking_tool(query)] (lines 792 to 803): the same text for every query *)
Definition msg_manage_booking : string :=
  join nl
    [ "‚úàÔ∏è Booking Management Options:";
      "";
      "I can help you with:";
      "‚Ä¢ Cancel your booking";
      "‚Ä¢ Change your seat";
      "‚Ä¢ Modify travel dates";
      "‚Ä¢ Add extra baggage";
      "‚Ä¢ Special meal requests";
      "";
      "Please let me know your booking ID and what you'd like to change!" ].

Definition msg_welcome : string :=
  join nl
    [ "‚úàÔ∏è **Namaste!** Welcome to SkyLine Airways.";
      "";
      "How can I assist you today?";
      "";
      "I can help you with:";
      "‚Ä¢ Search and book flights";
      "‚Ä¢ Check your bookings and travel history";
      "‚Ä¢ View your profile and account details";
      "‚Ä¢ Get flight information";
      "‚Ä¢ Manage your reservations";
      "‚Ä¢ Answer questions about our services" ].

(** ** Intent router: the keyword rules of [pick_tool_with_agent] *)

Definition greetings : list string :=
  [ "hi"; "hello"; "hey"; "how are you"; "good morning"; "good evening" ].
Definition fallback_search_triggers : list string :=
  [ "search"; "find"; "available"; "flights"; "show me"; "delhi"; "mumbai";
    "pune"; "bangalore"; "chennai"; "hyderabad"; "kolkata"; "dubai";
    "singapore"; "london" ].
Definition fallback_route_words : list string := [ "from"; "to"; "flight" ].
Definition fallback_booking_words : list string :=
  [ "book"; "reserve"; "purchase"; "buy ticket"; "i want to book";
    "need to book" ].
Definition fallback_status_phrases : list string :=
  [ "check booking"; "booking status"; "my booking"; "booking id" ].
Definition fallback_manage_words : list string :=
  [ "cancel"; "modify"; "change"; "reschedule" ].
Definition fallback_profile_phrases : list string :=
  [ "my account"; "my profile"; "my bookings"; "my trips"; "previous" ].
Definition fallback_complaint_words : list string :=
  [ "complaint"; "complain"; "issue"; "problem" ].

(** [fallback_rules(inp)["tool"]] (lines 1306 to 1325) *)
Definition fallback_rules (inp : string) : string :=
  let txt := lower inp in
  if any_in greetings txt then "none"
  else if any_in fallback_search_triggers txt
          && any_in fallback_route_words txt then "search_flights"
  else if any_in fallback_booking_words txt then "book_flight"
  else if any_in fallback_status_phrases txt then "check_booking"
  else if any_in fallback_manage_words txt then "manage_booking"
  else if any_in fallback_profile_phrases txt then "customer_info"
  else if any_in fallback_complaint_words txt then "complaint"
  else "rag".

(** The tool name [tool_picker] hands to [execute_tool] while [client] is
    [None] (lines 1388 to 1412): the forced one, or else the one
    [pick_tool_with_agent] returns, which is [fallback_rules(user_input)]
    at line 1328. *)
Definition picked_tool (user_input : string) : string :=
  match forced_tool user_input with
  | Some tool => tool
  | None => fallback_rules user_input
  end.

(** ** The fallback embedder: [FallbackEmbedder] *)

(** One step of the loop of [_text_to_vector] (line 84) on the state [h]. *)
Definition lcg_step (h : Z) : Z :=
  Z.land (h * 6364136223846793005 + 1442695040888963407)
         (Z.shiftl 1 64 - 1).

(** The loop of lines 82 to 85 from the state [h]: the component added at
    each step is [numerator / 10000.0] for the numerator listed here. *)
Fixpoint vector_from (h : Z) (dim : nat) : list Z :=
  match dim with
  | O => []
  | S n => let h' := lcg_step h in (h' mod 10000)%Z :: vector_from h' n
  end.

(** [FallbackEmbedder(dim)._text_to_vector(text)], as numerators *)
Definition _text_to_vector (py_hash : string -> Z) (dim : nat) (text : string)
    : list Z :=
  vector_from (Z.abs (py_hash text)) dim.

(** ** The document store: [FaissVectorDB] *)

(** [l[i]] for an int: a negative index counts from the end *)
Definition index_int {A} (l : list A) (i : Z) : result A :=
  let n := Z.of_nat (length l) in
  if (0 <=? i)%Z then index_list l (Z.to_nat i)
  else if (- n <=? i)%Z then index_list l (Z.to_nat (n + i))
  else Raise "list index out of range".

Module FaissVectorDB.
Section WithIndex.

(** The vectors and the faiss index are the collaborators' own.
    [embed texts] is [embedder.embed(texts)]; [index_add ix vecs] is
    [index.add(vecs)], with the index as the call leaves it;
    [index_search ix qvec k] is the row [I[0]] of the labels of
    [index.search(qvec, k)].  Each of them may raise. *)
Variable Vec Index : Type.
Variable embed : list string -> result (list Vec).
Variable index_add : Index -> list Vec -> Index * result unit.
Variable index_search : Index -> list Vec -> nat -> result (list Z).

(** [self.index] ([None] without faiss) and [self.docs] *)
Record t : Type := Make {
  index : option Index;
  docs : list string
}.

(** [add(docs)] (lines 121 to 133): the store after the call, and [Raise]
    when the call raises. *)
Definition add (db : t) (new_docs : list string) : t * result unit :=
  match new_docs with
  | [] => (db, Ok tt)
  | _ =>
      match embed new_docs with
      | Raise e => (db, Raise e)
      | Ok vecs =>
          match index db with
          | None => (Make None (docs db ++ new_docs), Ok tt)
          | Some ix =>
              match index_add ix vecs with
              | (ix', Raise e) => (Make (Some ix') (docs db), Raise e)
              | (ix', Ok _) => (Make (Some ix') (docs db ++ new_docs), Ok tt)
              end
          end
      end
  end.

(** [[d for d in self.docs if query.lower() in d.lower()][:k]], for [k >= 0] *)
Definition matches (db : t) (query : string) (k : nat) : list string :=
  take k (List.filter (fun d => str_in (lower query) (lower d)) (docs db)).

(** The loop of lines 146 to 148 over the labels. *)
Fixpoint results (all : list string) (labels : list Z) : result (list string) :=
  match labels with
  | [] => Ok []
  | i :: rest =>
      if (i <? Z.of_nat (length all))%Z then
        match index_int all i with
        | Raise e => Raise e
        | Ok d =>
            match results all rest with
            | Raise e => Raise e
            | Ok found => Ok (d :: found)
            end
        end
      else results all rest
  end.

(** [search(query, k)] (lines 135 to 153), for [k >= 0] *)
Definition search (db : t) (query : string) (k : nat) : list string :=
  match docs db with
  | [] => []
  | _ =>
      match embed [query] with
      | Raise _ => matches db query k
      | Ok qvec =>
          match index db with
          | None => matches db query k
          | Some ix =>
              match index_search ix qvec k with
              | Raise _ => matches db query k
              | Ok labels =>
                  match results (docs db) labels with
                  | Raise _ => matches db query k
                  | Ok found => found
                  end
              end
          end
      end
  end.

End WithIndex.

Arguments Make {Index}.
Arguments index {Index}.
Arguments docs {Index}.
Arguments matches {Index}.
Arguments add {Vec Index}.
Arguments search {Vec Index}.

End FaissVectorDB.

(** ** The other tools, the dispatch and the chat endpoint *)

Definition flight_emoji (ftype : string) : string :=
  if String.eqb ftype "International" then "üåç" else "‚úàÔ∏è".
Definition status_emoji (status : string) : string :=
  if String.eqb status "Confirmed" then "‚úÖ"
  else if String.eqb status "Completed" then "üé´" else "‚è≥".

(** [\b(\d+)\b] *)
Definition re_number : regex := seqs [ WordB; Grp 1 (plus is_digit); WordB ].

Definition msg_check_login : string :=
  "‚ùå You must be logged in to check bookings.".

Definition msg_no_bookings : string :=
  "üìã You have no bookings yet.".

Definition msg_check_error (e : string) : string :=
  "‚ö†Ô∏è Error checking booking: " +:+ e.

Definition bookings_header (n : nat) : string :=
  "üìã **Your Bookings (" +:+ str_of_nat n +:+ " total)**" +:+ nl.

(** A message of a chat history: [{"role": ..., "content": ...}] *)
Record message : Type := Message {
  h_role : string;
  h_content : string
}.

(** The body of a chat request and of its response. *)
Record chat_request : Type := ChatRequest {
  req_message : string;
  req_session_id : option string;
  req_token : option string
}.

Record chat_response : Type := ChatResponse {
  rs_user_input : string;
  rs_response : string;
  rs_session_id : string
}.

(** [HTTPException(status_code=500, detail=...)] of [chat_endpoint] *)
Definition server_error (e : string) : string :=
  "‚ö†Ô∏è Server error: " +:+ e.

Section Dispatch.

Variable Price : Type.
Variable fmt_price : Price -> string.
Variable py_hash : string -> Z.

(** The row of the first SELECT of [check_booking_status_tool] and a row of
    the second, in column order; a column is the text the f-string shows. *)
Record booking_detail : Type := BookingDetail {
  bd_id : Z;
  bd_pnr : string;
  bd_name : string;
  bd_flight_number : string;
  bd_airline : string;
  bd_origin : string;
  bd_destination : string;
  bd_departure_time : string;
  bd_arrival_time : string;
  bd_seat : string;
  bd_status : string;
  bd_price : Price;
  bd_flight_type : string;
  bd_available_seats : Z
}.

Record booking_line : Type := BookingLine {
  bl_id : Z;
  bl_pnr : string;
  bl_flight_number : string;
  bl_airline : string;
  bl_origin : string;
  bl_destination : string;
  bl_departure_time : string;
  bl_seat : string;
  bl_status : string;
  bl_price : Price;
  bl_flight_type : string
}.

(** The sqlite collaborator as [check_booking_status_tool] sees it:
    [bk_booking booking_id customer_id] is the first SELECT with its
    [fetchone()], [bk_bookings customer_id] the second with its
    [fetchall()]. *)
Record bookings_db : Type := BookingsDb {
  bk_connect : result unit;
  bk_booking : Z -> Z -> result (option booking_detail);
  bk_bookings : Z -> result (list booking_line)
}.

Definition booking_details (b : booking_detail) : string :=
  flight_emoji (bd_flight_type b) +:+ " **Booking Details** (ID: "
  +:+ str_of_Z (bd_id b) +:+ ")" +:+ nl +:+ nl +:+ "üìù PNR: " +:+ bd_pnr b
  +:+ nl +:+ "üë§ Passenger: " +:+ bd_name b +:+ nl
  +:+ status_emoji (bd_status b) +:+ " Status: " +:+ bd_status b +:+ nl
  +:+ nl +:+ "‚úàÔ∏è **Flight Information**" +:+ nl +:+ "   Airline: "
  +:+ bd_airline b +:+ nl +:+ "   Flight Number: " +:+ bd_flight_number b
  +:+ nl +:+ "   Type: " +:+ bd_flight_type b +:+ nl +:+ nl
  +:+ "üìç **Route**" +:+ nl +:+ "   From: " +:+ bd_origin b +:+ nl
  +:+ "   To: " +:+ bd_destination b +:+ nl +:+ nl +:+ "‚è±Ô∏è **Schedule**"
  +:+ nl +:+ "   Departure: " +:+ bd_departure_time b +:+ nl
  +:+ "   Arrival: " +:+ bd_arrival_time b +:+ nl +:+ nl
  +:+ "üí∫ **Seat Assignment**" +:+ nl +:+ "   Seat: " +:+ bd_seat b +:+ nl
  +:+ nl +:+ "üí∞ **Fare**" +:+ nl +:+ "   Total Price: "
  +:+ rupee +:+ fmt_price (bd_price b) +:+ nl
  +:+ "   Seats Available on Flight: " +:+ str_of_Z (bd_available_seats b).

Definition booking_entry (b : booking_line) : string :=
  flight_emoji (bl_flight_type b) +:+ " Booking #" +:+ str_of_Z (bl_id b)
  +:+ " (PNR: " +:+ bl_pnr b +:+ ") " +:+ status_emoji (bl_status b) +:+ nl
  +:+ "   " +:+ bl_airline b +:+ " " +:+ bl_flight_number b +:+ nl +:+ "   "
  +:+ bl_origin b +:+ " ‚Üí " +:+ bl_destination b +:+ nl +:+ "   Dep: "
  +:+ bl_departure_time b +:+ " | Seat: " +:+ bl_seat b +:+ nl
  +:+ "   Price: " +:+ rupee +:+ fmt_price (bl_price b) +:+ nl.

(** [response] of lines 771 to 785, joined *)
Definition bookings_listing (bookings : list booking_line) : string :=
  join nl (bookings_header (length bookings) :: map booking_entry bookings).

(** The second half of [check_booking_status_tool] (lines 757 to 785). *)
Definition all_bookings (d : bookings_db) (customer : Z) : string :=
  match bk_bookings d customer with
  | Raise e => msg_check_error e
  | Ok [] => msg_no_bookings
  | Ok bookings => bookings_listing bookings
  end.

(** [int(booking_match.group(1))] of the utterance, when the pattern matches *)
Definition booking_id_of (query : string) : option Z :=
  (fun m => Z.of_nat (int_of_digits (group m 1))) <$> search re_number query.

Definition check_booking_status_tool (d : bookings_db) (query : string)
    (customer_id : option Z) : string :=
  match customer_id with
  | None => msg_check_login
  | Some customer =>
      match bk_connect d with
      | Raise e => msg_check_error e
      | Ok _ =>
          match booking_id_of query with
          | Some booking_id =>
              match bk_booking d booking_id customer with
              | Raise e => msg_check_error e
              | Ok (Some booking) => booking_details booking
              | Ok None => all_bookings d customer
              end
          | None => all_bookings d customer
          end
      end
  end.

(** [complaint_tool(query)] (lines 1098 to 1106) *)
Definition complaint_tool (query : string) : string :=
  "üì© Complaint Registered" +:+ nl +:+ nl
  +:+ "Thank you for bringing this to our attention." +:+ nl
  +:+ "Your complaint has been logged and our customer service team will review it."
  +:+ nl +:+ "You should receive a response within 24-48 hours." +:+ nl
  +:+ nl +:+ "Reference: COMP-"
  +:+ str_of_Z (Z.abs (py_hash query) mod 100000).

(** The three module-level dicts. *)
Record stores : Type := Stores {
  search_contexts : gmap string search_ctx;
  booking_contexts : gmap string (booking_ctx Price);
  chat_histories : gmap string (list message)
}.

(** What the module gets from outside during one request: the collaborator
    and the clock of the two flows, the collaborator of the booking status,
    the two tools that are not embedded here ([customer_info_tool], and
    [flight_details_tool] as line 1108 defines it; both return a text and
    catch what their queries raise), [verify_token] with its payload read
    through [.get("customer_id")], and the text of [uuid.uuid4()]. *)
Record world : Type := World {
  w_db : db Price;
  w_now : date;
  w_bookings : bookings_db;
  w_customer_info : string -> option Z -> string;
  w_flight_details : string -> string;
  w_verify_token : string -> option (option Z);
  w_uuid : string
}.

(** [execute_tool] (lines 1466 to 1495) *)
Definition execute_tool (w : world) (tool user_input : string)
    (session_id : option string) (customer_id : option Z) (st : stores)
    : result string * stores :=
  if String.eqb tool "none" then (Ok msg_welcome, st)
  else if String.eqb tool "search_flights" then
    let r := search_flights_tool fmt_price (w_db w) (w_now w) user_input
               session_id (search_contexts st) in
    (Ok r.1, Stores r.2 (booking_contexts st) (chat_histories st))
  else if String.eqb tool "book_flight" then
    let r := book_flight_tool fmt_price py_hash (w_db w) (w_now w) user_input
               session_id customer_id (booking_contexts st) in
    (r.1, Stores (search_contexts st) r.2 (chat_histories st))
  else if String.eqb tool "check_booking" then
    (Ok (check_booking_status_tool (w_bookings w) user_input customer_id), st)
  else if String.eqb tool "manage_booking" then (Ok msg_manage_booking, st)
  else if String.eqb tool "customer_info" then
    (Ok (w_customer_info w user_input customer_id), st)
  else if String.eqb tool "flight_details" then
    (Ok (w_flight_details w user_input), st)
  else if String.eqb tool "complaint" then (Ok (complaint_tool user_input), st)
  else (Ok (rag_tool user_input), st).

(** [tool_picker] while [client] is [None] (lines 1371 to 1412) *)
Definition tool_picker (w : world) (user_input : string)
    (session_id : option string) (customer_id : option Z) (st : stores)
    : result string * stores :=
  execute_tool w (picked_tool user_input) user_input session_id customer_id st.

(** [req.session_id or str(uuid.uuid4())] *)
Definition request_session (w : world) (req : chat_request) : string :=
  match req_session_id req with
  | Some s => if String.eqb s "" then w_uuid w else s
  | None => w_uuid w
  end.

(** [customer_id] of lines 1568 to 1573 *)
Definition request_customer (w : world) (req : chat_request) : option Z :=
  match req_token req with
  | Some tok =>
      if String.eqb tok "" then None
      else match w_verify_token w tok with
           | Some payload => payload
           | None => None
           end
  | None => None
  end.

(** [chat_endpoint] while [client] is [None] (lines 1561 to 1604): the
    response, or the detail of the error 500, and the dicts after. *)
Definition chat_endpoint (w : world) (req : chat_request) (st : stores)
    : result chat_response * stores :=
  let session_id := request_session w req in
  let customer_id := request_customer w req in
  let history := default [] (chat_histories st !! session_id) in
  let st1 :=
    Stores (search_contexts st) (booking_contexts st)
           (<[session_id := (history ++ [Message "user" (req_message req)])%list]>
              (chat_histories st)) in
  match tool_picker w (req_message req) (Some session_id) customer_id st1 with
  | (Raise e, st2) => (Raise (server_error e), st2)
  | (Ok response, st2) =>
      match getitem (chat_histories st2 !! session_id) session_id with
      | Raise e => (Raise (server_error e), st2)
      | Ok history2 =>
          (Ok (ChatResponse (req_message req) response session_id),
           Stores (search_contexts st2) (booking_contexts st2)
                  (<[session_id := (history2 ++ [Message "assistant" response])%list]>
                     (chat_histories st2)))
      end
  end.

End Dispatch.

Arguments BookingDetail {Price}.
Arguments BookingLine {Price}.
Arguments BookingsDb {Price}.
Arguments bk_connect {Price}.
Arguments bk_booking {Price}.
Arguments bk_bookings {Price}.
Arguments bookings_listing {Price}.
Arguments all_bookings {Price}.
Arguments check_booking_status_tool {Price}.
Arguments Stores {Price}.
Arguments search_contexts {Price}.
Arguments booking_contexts {Price}.
Arguments chat_histories {Price}.
Arguments World {Price}.
Arguments w_db {Price}.
Arguments w_now {Price}.
Arguments w_bookings {Price}.
Arguments w_customer_info {Price}.
Arguments w_flight_details {Price}.
Arguments w_verify_token {Price}.
Arguments w_uuid {Price}.
Arguments execute_tool {Price}.
Arguments tool_picker {Price}.
Arguments request_session {Price}.
Arguments request_customer {Price}.
Arguments chat_endpoint {Price}.

(** ** Vocabulary of the statements *)

(** [y] occurs in [z] as a contiguous piece. *)
Definition piece_of (y z : string) : Prop :=
  exists a b, z = a +:+ y +:+ b.

(** No vocabulary entry occurs in the lowercased text. *)
Definition no_city_in (text : string) : bool :=
  forallb (fun c => negb (str_in c (lower text))) cities.

(** The tokens the patterns without a leading "from" capture in the
    normalised text: both sides of "X to Y", the word after a motion verb,
    after "to" and after "from". *)
Definition captured_tokens (text : string) : list string :=
  let txt := strip (lower text) in
  let tok m i := lower (strip (group m i)) in
  match search re_x_to_y txt with Some m => [tok m 1; tok m 2] | None => [] end
  ++ match search re_going txt with Some m => [tok m 1] | None => [] end
  ++ match search re_to txt with Some m => [tok m 1] | None => [] end
  ++ match search re_from txt with Some m => [tok m 1] | None => [] end.

(** No captured token is a vocabulary name or a part of one. *)
Definition no_token_in_name (text : string) : bool :=
  forallb (fun tok => forallb (fun c => negb (name_has_token tok c)) cities)
          (captured_tokens text).

Definition has_iso_date (text : string) : bool :=
  match search re_iso_date (lower text) with Some _ => true | None => false end.

(** "on <day> <month-name>" with a month of the table *)
Definition has_day_month (text : string) : bool :=
  match search re_on_day (lower text) with
  | Some m2 =>
      match index_of (lower (String.substring 0 3 (group m2 2))) months with
      | Some _ => true
      | None => false
      end
  | None => false
  end.

Definition says_tomorrow (text : string) : bool := str_in "tomorrow" (lower text).
Definition says_today (text : string) : bool := str_in "today" (lower text).

(** A slot that holds a value Python takes as true. *)
Definition slot_is (slot : option string) (v : string) : Prop :=
  slot = Some v /\ v <> "".

(** The fragments, in the order [method_map] is iterated. *)
Definition canonical_method (txt : string) : option string :=
  if str_in "upi" txt then Some "UPI"
  else if str_in "credit" txt then Some "Credit Card"
  else if str_in "debit" txt then Some "Debit Card"
  else if str_in "net" txt then Some "Net Banking"
  else if str_in "bank" txt then Some "Net Banking"
  else None.

(** Every character of the text is in the class. *)
Fixpoint all_chars (p : ascii -> bool) (s : string) : bool :=
  match s with
  | EmptyString => true
  | String c t => p c && all_chars p t
  end.

Definition not_A_to_F (c : ascii) : bool := negb (is_A_to_F c).

(** None of the detail, status and profile rules fires. *)
Definition no_earlier_rule (user_input : string) : bool :=
  negb (any_in detail_keywords (lower user_input))
  && negb (any_in booking_info_keywords (lower user_input))
  && negb (any_in profile_keywords (lower user_input)).

(** What a stage guarantees about the slots it reads: options in choose, the
    chosen flight in seat, the chosen flight and the seat in payment. *)
Definition ctx_ok {Price : Type} (c : booking_ctx Price) : Prop :=
  match bc_stage c with
  | Choose => is_Some (bc_options c)
  | Seat => is_Some (bc_chosen c)
  | Payment => is_Some (bc_chosen c) /\ is_Some (bc_seat c)
  | Collect | Start => True
  end.

Definition store_ok {Price : Type} (st : gmap string (booking_ctx Price)) : Prop :=
  forall k c, st !! k = Some c -> ctx_ok c.

(** Two stores agree on every key but [sid]. *)
Definition same_elsewhere {A : Type} (sid : string) (st st' : gmap string A)
    : Prop :=
  forall k, k <> sid -> st' !! k = st !! k.

(** No stored context is in the payment stage. *)
Definition no_payment {Price : Type} (st : gmap string (booking_ctx Price))
    : Prop :=
  forall k c, st !! k = Some c -> bc_stage c <> Payment.

(** The collaborator [d] with another commit. *)
Definition with_commit {Price : Type} (d : db Price)
    (commit : Z -> Z -> string -> string -> Price -> string -> string -> result Z)
    : db Price :=
  Db (db_connect d) (db_flights d) commit.

(** The turn [t] against a collaborator with another commit. *)
Definition turn_with_commit {Price : Type}
    (commit : Z -> Z -> string -> string -> Price -> string -> string -> result Z)
    (t : turn Price) : turn Price :=
  Turn (with_commit (t_db t) commit) (t_now t) (t_query t) (t_customer t).

(** A chosen flight is one of the options of its context, and a context that
    still collects has none. *)
Definition ctx_snapshot {Price : Type} (c : booking_ctx Price) : Prop :=
  (bc_stage c = Collect -> bc_chosen c = None) /\
  (forall ch, bc_chosen c = Some ch ->
     exists options, bc_options c = Some options /\ In ch options).

Definition store_snapshot {Price : Type} (st : gmap string (booking_ctx Price))
    : Prop :=
  forall k c, st !! k = Some c -> ctx_snapshot c.

(** A character that is no digit, and a text of the shape of an ISO date:
    four digits, two and two, with hyphens between. *)
Definition not_digit (c : ascii) : bool := negb (is_digit c).

Definition iso_literal (c1 c2 c3 c4 c5 c6 c7 c8 : ascii) : string :=
  String c1 (String c2 (String c3 (String c4 (String "-"
    (String c5 (String c6 (String "-" (String c7 (String c8 ""))))))))).

(** A slot that is empty or holds an entry of the vocabulary. *)
Definition in_vocabulary (slot : option string) : Prop :=
  forall c, slot = Some c -> In c cities.

(** The number a text of decimal digits stands for, read from the left with
    [acc] read so far. *)
Fixpoint digits_value (acc : nat) (s : string) : nat :=
  match s with
  | EmptyString => acc
  | String c t => digits_value (10 * acc + (code c - 48))%nat t
  end.

(** A reference code: "PNR" and six decimal digits that read as [n]. *)
Definition pnr_shape (pnr : string) (n : Z) : Prop :=
  exists digits,
    pnr = "PNR" +:+ digits /\
    String.length digits = 6%nat /\
    all_chars is_digit digits = true /\
    Z.of_nat (int_of_digits digits) = n.

(** *** A collaborator for the concrete runs *)

(** Fares in whole rupees, and a hash that is the length of the text. *)
Definition rupees (p : Z) : string := str_of_Z p.
Definition length_hash (s : string) : Z := Z.of_nat (String.length s).

Definition flight_ai101 : flight_row Z :=
  FlightRow 1 "AI101" "Air India" "Delhi (DEL)" "Mumbai (BOM)"
            "2025-12-20 08:00" 5500%Z "Domestic".
Definition flight_6e204 : flight_row Z :=
  FlightRow 2 "6E204" "IndiGo" "Delhi (DEL)" "Mumbai (BOM)"
            "2025-12-20 17:30" 4200%Z "Domestic".

(** It connects, the SELECT gives [rows], a commit gives booking 42. *)
Definition db_up (rows : list (flight_row Z)) : db Z :=
  Db (Ok tt) (fun _ _ _ => Ok rows) (fun _ _ _ _ _ _ _ => Ok 42%Z).

Definition today0 : date := Date 2025 12 1.

Definition two_options : list (flight_option Z) :=
  [option_of_row flight_ai101; option_of_row flight_6e204].

Definition ctx_choose : booking_ctx Z :=
  BookingCtx Choose (Some "delhi") (Some "mumbai") (Some "2025-12-20")
             (Some two_options) None None None.
Definition ctx_seat : booking_ctx Z :=
  BookingCtx Seat (Some "delhi") (Some "mumbai") (Some "2025-12-20")
             (Some two_options) (Some (option_of_row flight_ai101)) None None.
Definition ctx_payment : booking_ctx Z :=
  BookingCtx Payment (Some "delhi") (Some "mumbai") (Some "2025-12-20")
             (Some two_options) (Some (option_of_row flight_ai101))
             (Some "12A") None.

(** A conversation of four turns of one caller. *)
Definition four_turns : list (turn Z) :=
  [ Turn (db_up [flight_ai101; flight_6e204]) today0
         "book from Delhi to Mumbai on 2025-12-20" 1%Z;
    Turn (db_up [flight_ai101; flight_6e204]) today0 "book first" 1%Z;
    Turn (db_up [flight_ai101; flight_6e204]) today0 "12A" 1%Z;
    Turn (db_up [flight_ai101; flight_6e204]) today0 "upi" 1%Z ].

(** A collaborator without bookings, a world around it whose one valid
    token is that of customer 1, and stores in which session s2 is under
    way. *)
Definition no_bookings_db : bookings_db Z :=
  BookingsDb (Ok tt) (fun _ _ => Ok None) (fun _ => Ok []).

Definition world0 : world Z :=
  World (db_up [flight_ai101]) today0 no_bookings_db
        (fun _ _ => "profile") (fun _ => "details")
        (fun tok => if String.eqb tok "t1" then Some (Some 1%Z) else None)
        "7c9e6679-7425-40de-944b-e07fc1f90ae7".

Definition stores0 : stores Z :=
  Stores (<["s2" := SearchCtx (Some "pune") None None]> ∅)
         (<["s2" := ctx_seat]> ∅) ∅.

(** * Properties *)

(** ** Strings *)

Lemma app_cons (c : ascii) (a b : string) :
  String c a +:+ b = String c (a +:+ b).
Proof. reflexivity. Qed.

Lemma app_nil (b : string) : "" +:+ b = b.
Proof. reflexivity. Qed.

Lemma app_assoc_s (a b c : string) : (a +:+ b) +:+ c = a +:+ (b +:+ c).
Proof.
  induction a as [|x a IH]; [reflexivity |].
  rewrite !app_cons. f_equal. exact IH.
Qed.

Lemma app_empty_r (a : string) : a +:+ "" = a.
Proof.
  induction a as [|x a IH]; [reflexivity |].
  rewrite app_cons. f_equal. exact IH.
Qed.

Lemma prefix_nil (h : string) : String.prefix "" h = true.
Proof. now destruct h. Qed.

Lemma prefix_app (x b : string) : String.prefix x (x +:+ b) = true.
Proof.
  induction x as [|c x IH]; [apply prefix_nil |].
  rewrite app_cons. simpl. destruct (ascii_dec c c); [exact IH | congruence].
Qed.

Lemma prefix_split (x h : string) :
  String.prefix x h = true -> exists b, h = x +:+ b.
Proof.
  revert h. induction x as [|c x IH]; intros h H.
  - now exists h.
  - destruct h as [|c' h]; simpl in H; [discriminate |].
    destruct (ascii_dec c c') as [->|]; [| discriminate].
    destruct (IH _ H) as [b ->]. now exists b.
Qed.

Lemma str_in_nil (x : string) : str_in x "" = String.prefix x "".
Proof. unfold str_in. apply orb_false_r. Qed.

Lemma str_in_cons (x : string) (c : ascii) (h : string) :
  str_in x (String c h) = String.prefix x (String c h) || str_in x h.
Proof. reflexivity. Qed.

Lemma str_in_piece (x h : string) : str_in x h = true <-> piece_of x h.
Proof.
  split.
  - induction h as [|c h IH]; intros H.
    + rewrite str_in_nil in H.
      destruct (prefix_split _ _ H) as [b Hb]. exists "", b. exact Hb.
    + rewrite str_in_cons in H. apply orb_true_iff in H as [H|H].
      * destruct (prefix_split _ _ H) as [b Hb]. exists "", b. exact Hb.
      * destruct (IH H) as (a & b & ->). now exists (String c a), b.
  - intros (a & b & ->). induction a as [|c a IH].
    + rewrite app_nil. destruct (x +:+ b) eqn:E.
      * rewrite str_in_nil, <- E. apply prefix_app.
      * rewrite str_in_cons, <- E, prefix_app. reflexivity.
    + rewrite app_cons, str_in_cons, IH. apply orb_true_r.
Qed.

Lemma str_in_app (a x b : string) : str_in x (a +:+ x +:+ b) = true.
Proof. apply str_in_piece. now exists a, b. Qed.

Lemma piece_of_refl (x : string) : piece_of x x.
Proof. exists "", "". simpl. now rewrite app_empty_r. Qed.

Lemma piece_of_trans (x y z : string) :
  piece_of x y -> piece_of y z -> piece_of x z.
Proof.
  intros (a & b & ->) (a' & b' & ->). exists (a' +:+ a), (b +:+ b').
  now rewrite !app_assoc_s.
Qed.

Lemma str_in_mono (c y z : string) :
  piece_of y z -> str_in c y = true -> str_in c z = true.
Proof.
  intros Hyz Hc. apply str_in_piece.
  eapply piece_of_trans; [apply str_in_piece, Hc | exact Hyz].
Qed.

Lemma lower_app (a b : string) : lower (a +:+ b) = lower a +:+ lower b.
Proof.
  induction a as [|c a IH]; [reflexivity |].
  unfold lower in *. rewrite app_cons. simpl. rewrite app_cons. f_equal.
  exact IH.
Qed.

Lemma lower_char_idem (c : ascii) : lower_char (lower_char c) = lower_char c.
Proof. destruct c as [[] [] [] [] [] [] [] []]; reflexivity. Qed.

Lemma lower_idem (s : string) : lower (lower s) = lower s.
Proof.
  induction s as [|c s IH]; simpl; [reflexivity |].
  unfold lower in *. simpl. now rewrite lower_char_idem, IH.
Qed.

Lemma piece_of_lower (y z : string) : piece_of y z -> piece_of (lower y) (lower z).
Proof. intros (a & b & ->). exists (lower a), (lower b). now rewrite !lower_app. Qed.

Lemma lstrip_suffix (s : string) : exists a, s = a +:+ lstrip s.
Proof.
  induction s as [|c s [a IH]]; simpl; [now exists "" |].
  destruct (is_space c); [| now exists ""].
  exists (String c a). rewrite app_cons. f_equal. exact IH.
Qed.

Lemma rstrip_prefix (s : string) : exists b, s = rstrip s +:+ b.
Proof.
  induction s as [|c s [b IH]]; simpl; [now exists "" |].
  destruct (rstrip s) as [|c' t].
  - destruct (is_space c); [now exists (String c s) | now exists s].
  - exists b. rewrite app_cons. f_equal. exact IH.
Qed.

Lemma piece_of_strip (s : string) : piece_of (strip s) s.
Proof.
  unfold strip. destruct (lstrip_suffix s) as [a Ha].
  destruct (rstrip_prefix (lstrip s)) as [b Hb].
  exists a, b. rewrite <- Hb. exact Ha.
Qed.

Lemma substring_prefix (m : nat) (t : string) :
  exists b, t = String.substring 0 m t +:+ b.
Proof.
  revert m. induction t as [|y t IHt]; intros m.
  - destruct m; now exists "".
  - destruct m as [|m]; simpl; [now exists (String y t) |].
    destruct (IHt m) as [b' Hb']. exists b'. rewrite app_cons. f_equal.
    exact Hb'.
Qed.

Lemma substring_piece (n m : nat) (s : string) :
  piece_of (String.substring n m s) s.
Proof.
  revert n. induction s as [|c s IH]; intros n.
  - destruct n, m; simpl; apply piece_of_refl.
  - destruct n as [|n].
    + destruct (substring_prefix m (String c s)) as [b Hb]. now exists "", b.
    + simpl. destruct (IH n) as (a & b & H).
      exists (String c a), b. rewrite app_cons. f_equal. exact H.
Qed.

(** ** The matcher *)

Lemma search_from_text r text prev pos rest m :
  search_from r text prev pos rest = Some m -> m_text m = text.
Proof.
  revert prev pos. induction rest as [|c t IH]; intros prev pos; simpl.
  - destruct (rmatch r _ [] accept) as [[e cs]|]; [| discriminate].
    now intros [= <-].
  - destruct (rmatch r _ [] accept) as [[e cs]|]; [now intros [= <-] |].
    apply IH.
Qed.

Lemma search_text r text m : search r text = Some m -> m_text m = text.
Proof. apply search_from_text. Qed.

(** A group is cut out of the text that was searched. *)
Lemma group_piece r text m i :
  search r text = Some m -> piece_of (group m i) text.
Proof.
  intros H. apply search_text in H. unfold group.
  destruct (span_of i (m_caps m)) as [[s e]|].
  - rewrite H. apply substring_piece.
  - now exists "", text.
Qed.

(** ** Entity extractor *)

Lemma first_such_none {A} (p : A -> bool) (l : list A) :
  (forall x, In x l -> p x = false) -> first_such p l = None.
Proof.
  unfold first_such. induction l as [|a l IH]; intros H; simpl; [reflexivity |].
  rewrite (H a) by now left. apply IH. intros x Hx. apply H. now right.
Qed.

Lemma filter_none {A} (p : A -> bool) (l : list A) :
  (forall x, In x l -> p x = false) -> List.filter p l = [].
Proof.
  induction l as [|a l IH]; intros H; simpl; [reflexivity |].
  rewrite (H a) by now left. apply IH. intros x Hx. apply H. now right.
Qed.

(** The fallback block indexes [occurrences] only below its length. *)
Lemma city_fallback_returns txt origin destination :
  exists r, city_fallback txt origin destination = Ok r.
Proof.
  unfold city_fallback.
  destruct (negb (truthy origin) || negb (truthy destination)); [| eauto].
  destruct (city_occurrences txt) as [|a [|b l]]; simpl.
  - eauto.
  - destruct (negb (truthy destination)); eauto.
  - destruct (negb (truthy origin) && negb (truthy destination)); eauto.
Qed.

Lemma extract_city_tokens_returns text :
  exists r, _extract_city_tokens text = Ok r.
Proof.
  unfold _extract_city_tokens.
  destruct (search re_from_to _); [eauto |].
  destruct (search re_x_to_y _); [eauto |].
  destruct (search re_going _); [eauto |].
  apply city_fallback_returns.
Qed.

Lemma no_city_in_piece text y c :
  no_city_in text = true -> In c cities -> piece_of y (lower text) ->
  str_in c (lower y) = false.
Proof.
  intros Hno Hc Hy. unfold no_city_in in Hno.
  rewrite forallb_forall in Hno. specialize (Hno c Hc).
  apply negb_true_iff in Hno.
  destruct (str_in c (lower y)) eqn:E; [| reflexivity].
  rewrite <- Hno. symmetry. rewrite <- (lower_idem text).
  eapply str_in_mono; [apply piece_of_lower, Hy | exact E].
Qed.

Lemma no_token_first_such text tok :
  no_token_in_name text = true -> In tok (captured_tokens text) ->
  first_such (name_has_token tok) cities = None.
Proof.
  intros H Hin. apply first_such_none. intros c Hc.
  unfold no_token_in_name in H. rewrite forallb_forall in H.
  specialize (H tok Hin). rewrite forallb_forall in H.
  specialize (H c Hc). now apply negb_true_iff in H.
Qed.

Lemma extract_city_tokens_null text :
  no_city_in text = true -> no_token_in_name text = true ->
  _extract_city_tokens text = Ok (CityPair None None).
Proof.
  intros Hcity Htok.
  assert (Hpiece : forall r m i, search r (strip (lower text)) = Some m ->
            first_such (phrase_has_name (lower (strip (group m i)))) cities
            = None).
  { intros r m i Hm. apply first_such_none. intros c Hc.
    unfold phrase_has_name.
    apply (no_city_in_piece text); [exact Hcity | exact Hc |].
    eapply piece_of_trans; [apply piece_of_strip |].
    eapply piece_of_trans; [eapply group_piece, Hm | apply piece_of_strip]. }
  pose proof (no_token_first_such text) as Hfs.
  unfold captured_tokens in Hfs.
  unfold _extract_city_tokens.
  destruct (search re_from_to (strip (lower text))) as [m|] eqn:E1.
  { now rewrite !(Hpiece _ _ _ E1). }
  destruct (search re_x_to_y (strip (lower text))) as [m|] eqn:E2.
  { rewrite (Hfs (lower (strip (group m 1)))), (Hfs (lower (strip (group m 2))));
      [reflexivity | exact Htok | simpl; auto | exact Htok | simpl; auto]. }
  destruct (search re_going (strip (lower text))) as [m|] eqn:E3.
  { rewrite (Hfs (lower (strip (group m 1))));
      [reflexivity | exact Htok | simpl; auto]. }
  assert (Hd : match search re_to (strip (lower text)) with
               | Some m => first_such (name_has_token (lower (strip (group m 1)))) cities
               | None => None
               end = None).
  { destruct (search re_to _) as [m|]; [| reflexivity].
    apply Hfs; [exact Htok |]. simpl; auto. }
  assert (Ho : match search re_from (strip (lower text)) with
               | Some m => first_such (name_has_token (lower (strip (group m 1)))) cities
               | None => None
               end = None).
  { destruct (search re_from _) as [m|]; [| reflexivity].
    apply Hfs; [exact Htok |]. rewrite !in_app_iff. simpl. auto. }
  rewrite Hd, Ho. unfold city_fallback, city_occurrences.
  rewrite filter_none; [reflexivity |].
  intros c Hc.
  destruct (str_in c (strip (lower text))) eqn:E; [| reflexivity].
  unfold no_city_in in Hcity. rewrite forallb_forall in Hcity.
  specialize (Hcity c Hc). apply negb_true_iff in Hcity.
  rewrite <- Hcity. symmetry.
  eapply str_in_mono; [apply piece_of_strip | exact E].
Qed.

(** C7 (amended). For every text [_extract_city_tokens] returns a value
    (no step of it raises); and it returns origin and destination both null
    for every text in which no vocabulary city or code occurs and in which
    no token captured by the patterns "X to Y", motion verb, "to X" and
    "from X" is a vocabulary name or a part of one. *)
Theorem extract_city_tokens_contract (text : string) :
  (exists r, _extract_city_tokens text = Ok r) /\
  (no_city_in text = true -> no_token_in_name text = true ->
   _extract_city_tokens text = Ok (CityPair None None)).
Proof.
  split; [apply extract_city_tokens_returns | apply extract_city_tokens_null].
Qed.

Lemma extract_city_tokens_contract_witness :
  no_city_in "hello there, how are you" = true /\
  no_token_in_name "hello there, how are you" = true /\
  _extract_city_tokens "hello there, how are you" = Ok (CityPair None None).
Proof.
  split; [vm_compute; reflexivity |]. split; [vm_compute; reflexivity |].
  apply (proj2 (extract_city_tokens_contract "hello there, how are you"));
    vm_compute; reflexivity.
Defined.

(** C7 as stated fails: "i want to be" holds no vocabulary city or code, and
    the extractor answers with a destination, because "be" is a part of
    "bengaluru". *)
Lemma extract_city_tokens_token_inside_name :
  no_city_in "i want to be" = true /\
  _extract_city_tokens "i want to be" = Ok (CityPair None (Some "bengaluru")).
Proof. split; vm_compute; reflexivity. Qed.

(** *** Dates and the clock *)

(** The cities a search turn merges do not depend on the clock. *)
Lemma search_merge_cities_clock now1 now2 text ctx c1 c2 :
  search_merge now1 text ctx = Ok c1 -> search_merge now2 text ctx = Ok c2 ->
  sc_origin c1 = sc_origin c2 /\ sc_destination c1 = sc_destination c2.
Proof.
  unfold search_merge.
  destruct (_extract_city_tokens text) as [cp|e]; [| discriminate].
  intros [= <-] [= <-].
  destruct (truthy (_extract_date_tokens now1 text)),
    (truthy (_extract_date_tokens now2 text)); split; reflexivity.
Qed.

(** C8 (amended). [_extract_city_tokens] takes the text and nothing else, and
    the cities a turn merges from it are the same whatever the clock.
    [_extract_date_tokens] is a function of the text and of the current
    date. A text with a YYYY-MM-DD literal, and a text with none of the date
    forms, give a result that does not depend on the clock; "on <day>
    <month-name>" gives one that depends on the clock's year only;
    "tomorrow" gives the day after the clock's date and "today" the clock's
    date. *)
Theorem extract_date_tokens_clock (text : string) (now1 now2 : date) :
  (forall ctx c1 c2,
     search_merge now1 text ctx = Ok c1 -> search_merge now2 text ctx = Ok c2 ->
     sc_origin c1 = sc_origin c2 /\ sc_destination c1 = sc_destination c2) /\
  (has_iso_date text = true ->
   _extract_date_tokens now1 text = _extract_date_tokens now2 text) /\
  (has_iso_date text = false -> has_day_month text = true ->
   year now1 = year now2 ->
   _extract_date_tokens now1 text = _extract_date_tokens now2 text) /\
  (has_iso_date text = false -> has_day_month text = false ->
   says_tomorrow text = true ->
   _extract_date_tokens now1 text = Some (strftime_iso (add_one_day now1))) /\
  (has_iso_date text = false -> has_day_month text = false ->
   says_tomorrow text = false -> says_today text = true ->
   _extract_date_tokens now1 text = Some (strftime_iso now1)) /\
  (has_iso_date text = false -> has_day_month text = false ->
   says_tomorrow text = false -> says_today text = false ->
   _extract_date_tokens now1 text = None /\
   _extract_date_tokens now2 text = None).
Proof.
  split; [apply search_merge_cities_clock |].
  unfold has_iso_date, has_day_month, says_tomorrow, says_today,
    _extract_date_tokens, relative_date.
  destruct (search re_iso_date (lower text)) as [m|].
  { repeat split; intros; try discriminate; reflexivity. }
  destruct (search re_on_day (lower text)) as [m2|].
  - destruct (index_of _ months) as [i|].
    + repeat split; intros; try discriminate. now f_equal; f_equal.
    + repeat split; intros; try discriminate;
        repeat match goal with H : _ = _ |- _ => rewrite H end; reflexivity.
  - repeat split; intros; try discriminate;
      repeat match goal with H : _ = _ |- _ => rewrite H end; reflexivity.
Qed.

Lemma extract_date_tokens_clock_witness :
  has_iso_date "Delhi to Mumbai on 2025-12-20" = true /\
  _extract_date_tokens (Date 2026 11 4) "Delhi to Mumbai on 2025-12-20"
  = _extract_date_tokens (Date 2031 1 31) "Delhi to Mumbai on 2025-12-20".
Proof.
  split; [vm_compute; reflexivity |].
  apply (proj1 (proj2 (extract_date_tokens_clock
                         "Delhi to Mumbai on 2025-12-20"
                         (Date 2026 11 4) (Date 2031 1 31)))).
  vm_compute; reflexivity.
Defined.

(** C8 as stated fails: the same text at two dates gives two results. *)
Lemma extract_date_tokens_tomorrow_moves :
  _extract_date_tokens (Date 2026 11 4) "tomorrow" = Some "2026-11-05" /\
  _extract_date_tokens (Date 2026 11 5) "tomorrow" = Some "2026-11-06" /\
  _extract_date_tokens (Date 2026 11 4) "on 5 Dec" = Some "2026-12-05" /\
  _extract_date_tokens (Date 2027 11 4) "on 5 Dec" = Some "2027-12-05".
Proof. repeat split; vm_compute; reflexivity. Qed.

(** ** The matcher, step by step *)

Lemma search_from_unfold r text prev pos rest :
  search_from r text prev pos rest =
  match rmatch r (Cursor prev pos rest) [] accept with
  | Some (e, cs) => Some (MatchObj text pos e cs)
  | None =>
      match rest with
      | String c t => search_from r text (Some c) (S pos) t
      | EmptyString => None
      end
  end.
Proof. destruct rest; reflexivity. Qed.

Lemma substring_skip a b n :
  String.substring (String.length a) n (a +:+ b) = String.substring 0 n b.
Proof.
  induction a as [|c a IH]; [reflexivity |]. rewrite app_cons. simpl. exact IH.
Qed.

(** ** Decimal numerals *)

Lemma int_of_digits_value s : int_of_digits s = digits_value 0 s.
Proof. reflexivity. Qed.

Lemma uint_string_length d :
  String.length (NilEmpty.string_of_uint d) = Decimal.nb_digits d.
Proof. induction d; simpl; congruence. Qed.

Lemma uint_string_digits d :
  all_chars is_digit (NilEmpty.string_of_uint d) = true.
Proof. induction d; simpl; auto. Qed.

Lemma uint_string_value d acc :
  digits_value (Pos.to_nat acc) (NilEmpty.string_of_uint d)
  = Pos.to_nat (Pos.of_uint_acc d acc).
Proof.
  revert acc. induction d; intros acc; simpl; [reflexivity | ..];
    rewrite <- IHd; f_equal; vm_compute code; lia.
Qed.

Lemma uint_string_value0 d :
  digits_value 0 (NilEmpty.string_of_uint d) = N.to_nat (Pos.of_uint d).
Proof.
  induction d; simpl; [reflexivity | exact IHd | ..];
    match goal with
    | |- _ = N.to_nat (N.pos (Pos.of_uint_acc _ ?k)) =>
        change (N.to_nat (N.pos (Pos.of_uint_acc d k)))
          with (Pos.to_nat (Pos.of_uint_acc d k));
        rewrite <- (uint_string_value d k)
    end; reflexivity.
Qed.

Lemma nzhead_not_D0 d l : Decimal.nzhead d <> Decimal.D0 l.
Proof. induction d; simpl; try discriminate. exact IHd. Qed.

Lemma usize_nb_digits d :
  DecimalPos.Unsigned.usize d = N.of_nat (Decimal.nb_digits d).
Proof.
  induction d; simpl DecimalPos.Unsigned.usize; simpl Decimal.nb_digits;
    [reflexivity | ..]; rewrite IHd; lia.
Qed.

Lemma pos_numeral_lower l k :
  (10 ^ N.of_nat (Decimal.nb_digits l) <= N.pos (Pos.of_uint_acc l k))%N.
Proof.
  rewrite DecimalPos.Unsigned.of_uint_acc_rev, usize_nb_digits.
  assert (0 < 10 ^ N.of_nat (Decimal.nb_digits l))%N
    by (apply N.neq_0_lt_0, N.pow_nonzero; discriminate).
  nia.
Qed.

Lemma pos_to_uint_normal p :
  Decimal.nzhead (Pos.to_uint p) = Pos.to_uint p.
Proof.
  pose proof (DecimalPos.Unsigned.to_of (Pos.to_uint p)) as H.
  rewrite DecimalPos.Unsigned.of_to in H. simpl in H.
  pose proof (DecimalPos.Unsigned.to_uint_nonzero p) as Hz.
  unfold Decimal.unorm in H.
  destruct (Decimal.nzhead (Pos.to_uint p)) eqn:E;
    [exfalso; exact (Hz H) | symmetry; exact H ..].
Qed.

Lemma pos_to_uint_digits p :
  (N.pos p < 10 ^ 6)%N -> (Decimal.nb_digits (Pos.to_uint p) <= 6)%nat.
Proof.
  intros Hp.
  pose proof (DecimalPos.Unsigned.of_to p) as Hof.
  pose proof (pos_to_uint_normal p) as Hn.
  destruct (Pos.to_uint p) as [|l|l|l|l|l|l|l|l|l|l] eqn:E;
    simpl Decimal.nb_digits; [lia | now elim (nzhead_not_D0 (Decimal.D0 l) l) | ..];
    simpl in Hof;
    match type of Hof with
    | N.pos (Pos.of_uint_acc _ ?k) = _ =>
        pose proof (pos_numeral_lower l k) as Hl
    end;
    rewrite Hof in Hl;
    destruct (le_lt_dec (Decimal.nb_digits l) 5) as [|Hgt]; try lia;
    exfalso;
    assert (10 ^ 6 <= 10 ^ N.of_nat (Decimal.nb_digits l))%N
      by (apply N.pow_le_mono_r; lia);
    lia.
Qed.

Lemma str_of_Z_small z :
  (0 <= z < 1000000)%Z ->
  (1 <= String.length (str_of_Z z) <= 6)%nat /\
  all_chars is_digit (str_of_Z z) = true /\
  Z.of_nat (digits_value 0 (str_of_Z z)) = z.
Proof.
  intros Hz. unfold str_of_Z. destruct z as [|p|p]; [| | lia].
  - simpl. repeat split; lia.
  - simpl Z.to_int. simpl NilZero.string_of_int.
    pose proof (DecimalPos.Unsigned.to_uint_nonnil p) as Hnil.
    assert (Hs : NilZero.string_of_uint (Pos.to_uint p)
                 = NilEmpty.string_of_uint (Pos.to_uint p)).
    { unfold NilZero.string_of_uint. destruct (Pos.to_uint p);
        [now elim Hnil | reflexivity ..]. }
    rewrite Hs, uint_string_length, uint_string_digits, uint_string_value0.
    rewrite DecimalPos.Unsigned.of_to.
    assert (Decimal.nb_digits (Pos.to_uint p) <= 6)%nat
      by (apply pos_to_uint_digits; lia).
    assert (Decimal.nb_digits (Pos.to_uint p) <> 0)%nat.
    { intros H0. apply DecimalFacts.nb_digits_0 in H0. now elim Hnil. }
    repeat split; lia.
Qed.

Lemma zeros_spec n :
  String.length (zeros n) = n /\ all_chars is_digit (zeros n) = true /\
  forall s, digits_value 0 (zeros n +:+ s) = digits_value 0 s.
Proof.
  induction n as [|n (Hl & Hd & Hv)]; [repeat split |].
  change (zeros (S n)) with ("0" +:+ zeros n).
  rewrite app_cons, app_nil. simpl. rewrite Hl, Hd.
  repeat split. intros s. rewrite ?app_cons. simpl. apply Hv.
Qed.

Lemma length_app_s a b :
  String.length (a +:+ b) = (String.length a + String.length b)%nat.
Proof.
  induction a as [|c a IH]; [reflexivity |]. rewrite app_cons. simpl. lia.
Qed.

Lemma all_chars_app p a b :
  all_chars p (a +:+ b) = all_chars p a && all_chars p b.
Proof.
  induction a as [|c a IH]; [reflexivity |]. rewrite app_cons. simpl.
  now rewrite IH, andb_assoc.
Qed.

Lemma pnr_of_shape py_hash sid fid :
  pnr_shape (pnr_of py_hash sid fid)
            (Z.abs (py_hash (sid +:+ str_of_Z fid)) mod 1000000).
Proof.
  unfold pnr_of, pnr_shape, pad0.
  set (z := (Z.abs (py_hash (sid +:+ str_of_Z fid)) mod 1000000)%Z).
  assert (Hz : (0 <= z < 1000000)%Z) by (apply Z.mod_pos_bound; lia).
  destruct (str_of_Z_small z Hz) as (Hlen & Hdig & Hval).
  destruct (zeros_spec (6 - String.length (str_of_Z z))) as (Hzl & Hzd & Hzv).
  eexists. split; [reflexivity |].
  split; [rewrite length_app_s, Hzl; lia |].
  split; [rewrite all_chars_app, Hzd, Hdig; reflexivity |].
  rewrite int_of_digits_value, Hzv. exact Hval.
Qed.

(** ** What the matcher consumes *)

Lemma lit_go_spec l cur cur' :
  lit_go l cur = Some cur' ->
  c_rest cur = l +:+ c_rest cur' /\
  c_pos cur' = (c_pos cur + String.length l)%nat.
Proof.
  revert cur. induction l as [|a l IH]; intros cur; simpl.
  - intros [= <-]. split; [reflexivity | lia].
  - destruct (c_rest cur) as [|b t] eqn:Er; [discriminate |].
    destruct (Ascii.eqb a b) eqn:Eab; [| discriminate].
    apply Ascii.eqb_eq in Eab as <-.
    intros H. apply IH in H as [H1 H2]. simpl in H1, H2.
    split; [rewrite app_cons; now f_equal | lia].
Qed.

Lemma rep_go_spec p lo hi greedy n prev pos rest cs k r :
  rep_go p lo hi greedy n prev pos rest cs k = Some r ->
  exists taken rest' prev',
    rest = taken +:+ rest' /\
    k (Cursor prev' (pos + String.length taken) rest') cs = Some r.
Proof.
  revert n prev pos.
  induction rest as [|c t IH]; intros n prev pos H.
  - exists "", "", prev. split; [reflexivity |].
    simpl in H. rewrite Nat.add_0_r.
    destruct greedy; destruct (lo <=? n)%nat; try discriminate;
      try exact H.
    destruct (k _ cs); [exact H | discriminate].
  - simpl in H.
    assert (Hmore : rep_go p lo hi greedy (S n) (Some c) (S pos) t cs k
                    = Some r ->
                    exists taken rest' prev',
                      String c t = taken +:+ rest' /\
                      k (Cursor prev' (pos + String.length taken) rest') cs
                      = Some r).
    { intros Hm. apply IH in Hm as (taken & rest' & prev' & -> & Hk).
      exists (String c taken), rest', prev'. split; [reflexivity |].
      simpl. now rewrite <- plus_n_Sm. }
    assert (Hstop : k (Cursor prev pos (String c t)) cs = Some r ->
                    exists taken rest' prev',
                      String c t = taken +:+ rest' /\
                      k (Cursor prev' (pos + String.length taken) rest') cs
                      = Some r).
    { intros Hk. exists "", (String c t), prev. split; [reflexivity |].
      simpl. now rewrite Nat.add_0_r. }
    destruct greedy.
    + destruct (p c && below hi n).
      * destruct (rep_go p lo hi true (S n) (Some c) (S pos) t cs k) eqn:E.
        -- injection H as <-. now apply Hmore.
        -- destruct (lo <=? n)%nat; [now apply Hstop | discriminate].
      * destruct (lo <=? n)%nat; [now apply Hstop | discriminate].
    + destruct (lo <=? n)%nat.
      * destruct (k (Cursor prev pos (String c t)) cs) eqn:E.
        -- injection H as <-. now apply Hstop.
        -- destruct (p c && below hi n); [now apply Hmore | discriminate].
      * destruct (p c && below hi n); [now apply Hmore | discriminate].
Qed.

Lemma book_n_unfold cur cs k :
  rmatch re_book_n cur cs k =
  match lit_go "book" cur with
  | Some cur' =>
      rep_go is_space 1 None true 0 (c_prev cur') (c_pos cur') (c_rest cur')
        cs (fun cur2 cs2 => rmatch (Grp 1 (Cls is_digit)) cur2 cs2 k)
  | None => None
  end.
Proof. reflexivity. Qed.

Lemma book_n_match prev pos rest e cs :
  rmatch re_book_n (Cursor prev pos rest) [] accept = Some (e, cs) ->
  exists before c after,
    rest = before +:+ String c after /\ is_digit c = true /\
    cs = [(1%nat, ((pos + String.length before)%nat,
                   S (pos + String.length before)))].
Proof.
  rewrite book_n_unfold.
  destruct (lit_go "book" (Cursor prev pos rest)) as [cur'|] eqn:El;
    [| discriminate].
  apply lit_go_spec in El as [Hr Hp]. simpl in Hr, Hp.
  intros H. apply rep_go_spec in H as (taken & rest' & prev' & Ht & Hk).
  simpl in Hk. destruct rest' as [|c after]; [discriminate |].
  destruct (is_digit c) eqn:Ed; [| discriminate].
  unfold accept, step in Hk. simpl in Hk. injection Hk as <- <-.
  exists ("book" +:+ taken), c, after.
  split; [rewrite Hr, Ht; now rewrite app_assoc_s |].
  split; [exact Ed |].
  rewrite length_app_s, Hp. simpl String.length.
  now rewrite Nat.add_assoc.
Qed.

Lemma search_from_book_n text prev pos rest pre m :
  text = pre +:+ rest -> pos = String.length pre ->
  search_from re_book_n text prev pos rest = Some m ->
  exists c, is_digit c = true /\ group m 1 = String c "".
Proof.
  revert prev pos pre. induction rest as [|x t IH]; intros prev pos pre Ht Hp.
  - rewrite search_from_unfold.
    destruct (rmatch re_book_n _ [] accept) as [[e cs]|] eqn:E;
      [| discriminate].
    apply book_n_match in E as (before & c & after & Hr & _).
    destruct before; discriminate.
  - rewrite search_from_unfold.
    destruct (rmatch re_book_n _ [] accept) as [[e cs]|] eqn:E.
    + apply book_n_match in E as (before & c & after & Hr & Hd & ->).
      intros [= <-]. exists c. split; [exact Hd |].
      unfold group. simpl.
      replace (S (pos + String.length before) - (pos + String.length before))%nat
        with 1%nat by lia.
      rewrite Ht, Hr, Hp, <- app_assoc_s, <- length_app_s, substring_skip.
      simpl. now destruct after.
    + apply (IH (Some x) (S pos) (pre +:+ String x "")).
      * rewrite Ht, app_assoc_s. reflexivity.
      * rewrite length_app_s, Hp. simpl. lia.
Qed.

Lemma digit_value c : is_digit c = true -> (int_of_digits (String c "") <= 9)%nat.
Proof.
  unfold is_digit, between. intros H.
  apply andb_true_iff in H as [_ H]. apply Nat.leb_le in H.
  unfold int_of_digits. lia.
Qed.

Lemma book_n_reads_one_digit txt m :
  search re_book_n txt = Some m ->
  exists c, is_digit c = true /\ group m 1 = String c "" /\
            (int_of_digits (group m 1) <= 9)%nat.
Proof.
  intros H.
  apply (search_from_book_n txt None 0 txt "" m eq_refl eq_refl) in H
    as (c & Hd & Hg).
  exists c. rewrite Hg. auto using digit_value.
Qed.

(** ** The flows *)

Section FlowProperties.

Context {Price : Type} (fmt_price : Price -> string) (py_hash : string -> Z).

Local Abbreviation book := (book_flight_tool fmt_price py_hash).
Local Abbreviation find_flights := (search_flights_tool fmt_price).
Local Abbreviation ctx_store := (gmap string (booking_ctx Price)).
Local Abbreviation turns_of := (book_turns fmt_price py_hash).





(** *** The key of a call without a session *)

Lemma session_key_none : session_key None = "default".
Proof. reflexivity. Qed.

Lemma find_flights_incomplete d now query session_id
    (st : gmap string search_ctx) ctx :
  db_connect d = Ok tt ->
  search_merge now query
    (default empty_search_ctx (st !! session_key session_id)) = Ok ctx ->
  truthy (sc_origin ctx) && truthy (sc_destination ctx) && truthy (sc_date ctx)
  = false ->
  (find_flights d now query session_id st).2
  = <[session_key session_id := ctx]> st.
Proof.
  intros Hc Hm Hinc. unfold search_flights_tool. rewrite Hc, Hm.
  destruct (truthy (sc_origin ctx)), (truthy (sc_destination ctx)),
    (truthy (sc_date ctx)); simpl in *; try reflexivity; discriminate.
Qed.

Lemma book_collect_incomplete d now query session_id customer
    (st : ctx_store) ctx :
  bc_stage (default (fresh_ctx Collect) (st !! session_key session_id))
  = Collect ->
  book_merge now (lower query)
    (default (fresh_ctx Collect) (st !! session_key session_id)) = Ok ctx ->
  truthy (bc_origin ctx) && truthy (bc_destination ctx) && truthy (bc_date ctx)
  = false ->
  (book d now query session_id (Some customer) st).2
  = <[session_key session_id := ctx]> st.
Proof.
  intros Hs Hm Hinc. unfold book_flight_tool. rewrite Hs, Hm.
  destruct (truthy (bc_origin ctx)), (truthy (bc_destination ctx)),
    (truthy (bc_date ctx)); simpl in *; try reflexivity; discriminate.
Qed.


Lemma book_merge_frame now txt (c c' : booking_ctx Price) :
  book_merge now txt c = Ok c' ->
  bc_stage c' = bc_stage c /\ bc_options c' = bc_options c /\
  bc_chosen c' = bc_chosen c /\ bc_seat c' = bc_seat c /\
  bc_payment_method c' = bc_payment_method c.
Proof.
  unfold book_merge. destruct (_extract_city_tokens txt) as [cp|e];
    [| discriminate].
  intros [= <-].
  repeat match goal with
         | |- context [if ?b then _ else _] => destruct b
         end; simpl; repeat split; reflexivity.
Qed.

Lemma book_collect_ready d now query session_id customer (st : ctx_store)
    ctx :
  bc_stage (default (fresh_ctx Collect) (st !! session_key session_id))
  = Collect ->
  book_merge now (lower query)
    (default (fresh_ctx Collect) (st !! session_key session_id)) = Ok ctx ->
  truthy (bc_origin ctx) && truthy (bc_destination ctx) && truthy (bc_date ctx)
  = true ->
  book d now query session_id (Some customer) st
  = collect_query fmt_price d (session_key session_id) ctx
      (<[session_key session_id := ctx]> st).
Proof.
  intros Hs Hm Hall. unfold book_flight_tool. rewrite Hs, Hm.
  apply andb_true_iff in Hall as [Hall ->].
  apply andb_true_iff in Hall as [-> ->]. reflexivity.
Qed.


(** The query of the collect stage, by what the collaborator does. *)
Lemma collect_query_cases d sid (ctx : booking_ctx Price) o dst dt
    (stored : ctx_store) :
  slot_is (bc_origin ctx) o -> slot_is (bc_destination ctx) dst ->
  slot_is (bc_date ctx) dt ->
  collect_query fmt_price d sid ctx stored =
  match db_connect d with
  | Raise e => (Ok (msg_booking_search_failed e), stored)
  | Ok _ =>
      match db_flights d o dst dt with
      | Raise e => (Ok (msg_booking_search_failed e), stored)
      | Ok [] => (Ok msg_no_flights, stored)
      | Ok (f :: fs) =>
          (Ok (options_listing fmt_price (map option_of_row (f :: fs))),
           <[sid := set_stage Choose
                      (set_options (map option_of_row (f :: fs)) ctx)]> stored)
      end
  end.
Proof.
  intros [Ho _] [Hd _] [Ht _]. unfold collect_query. rewrite Ho, Hd, Ht. simpl.
  destruct (db_connect d); [| reflexivity].
  destruct (db_flights d o dst dt) as [[|f fs]|]; reflexivity.
Qed.


Lemma payment_method_nonempty txt pm :
  payment_method_of txt = Some pm -> String.eqb pm "" = false.
Proof.
  unfold payment_method_of, first_such, method_map. simpl.
  repeat match goal with
         | |- context [if ?b then _ else _] => destruct b
         end; simpl; intros [= <-]; reflexivity.
Qed.

Lemma book_payment_step d now query session_id customer (st : ctx_store)
    ctx pm :
  st !! session_key session_id = Some ctx -> bc_stage ctx = Payment ->
  payment_method_of (lower query) = Some pm ->
  book d now query session_id (Some customer) st
  = payment_commit fmt_price py_hash d now (session_key session_id) customer
      (set_payment_method pm ctx) pm
      (<[session_key session_id := set_payment_method pm ctx]> st).
Proof.
  intros Hctx Hs Hpm. unfold book_flight_tool, payment_commit.
  rewrite Hctx. simpl. rewrite Hs, Hpm, (payment_method_nonempty _ _ Hpm).
  reflexivity.
Qed.

Lemma book_payment_reprompt d now query session_id customer (st : ctx_store)
    ctx :
  st !! session_key session_id = Some ctx -> bc_stage ctx = Payment ->
  payment_method_of (lower query) = None ->
  book d now query session_id (Some customer) st = (Ok msg_payment_again, st).
Proof.
  intros Hctx Hs Hpm. unfold book_flight_tool.
  rewrite Hctx. simpl. now rewrite Hs, Hpm.
Qed.


(** *** The payment stage *)

Lemma str_in_here (x b : string) : str_in x (x +:+ b) = true.
Proof. apply (str_in_app "" x b). Qed.

Lemma str_in_skip (x a t : string) :
  str_in x t = true -> str_in x (a +:+ t) = true.
Proof.
  intros H. apply str_in_piece in H as (p & q & ->).
  apply str_in_piece. exists (a +:+ p), q. now rewrite app_assoc_s.
Qed.

Lemma str_in_last (x : string) : str_in x x = true.
Proof. apply str_in_piece, piece_of_refl. Qed.

(** Finds a piece in a chain of appends by its place. *)
Ltac find_piece :=
  lazymatch goal with
  | |- str_in ?x (?x +:+ ?b) = true => exact (str_in_here x b)
  | |- str_in ?x ?x = true => exact (str_in_last x)
  | |- str_in ?x (?a +:+ ?t) = true => apply (str_in_skip x a t); find_piece
  end.

Lemma payment_method_of_canonical txt :
  payment_method_of txt = canonical_method txt.
Proof.
  unfold payment_method_of, canonical_method, first_such, method_map. simpl.
  repeat match goal with
         | |- context [if ?b then _ else _] => destruct b
         end; reflexivity.
Qed.

Lemma canonical_method_none txt :
  canonical_method txt = None
  <-> any_in ["upi"; "credit"; "debit"; "net"; "bank"] txt = false.
Proof.
  unfold canonical_method, any_in. simpl.
  repeat match goal with
         | |- context [if ?b then _ else _] => destruct b
         end; simpl; split; intros; congruence.
Qed.

(** C4. In the payment stage with a chosen flight and a seat in the context:
    the method is the canonical one of the first fragment of upi, credit,
    debit, net, bank (in this order) that occurs in the lowercased utterance;
    with no fragment the turn re-prompts and changes nothing; with a fragment
    and a collaborator that connects and commits, the turn removes the
    context of the session and replies with a confirmation in which the
    booking id, the PNR, the airline and flight number, origin, destination
    and departure of the chosen flight, the seat, the method and the fare
    occur, each in its line: the booking id and the PNR in the second, the
    flight in the third, the seat, the method and the fare in the fourth.
    The PNR is the text "PNR" followed by six decimal digits, which read as
    the absolute value of the hash of the session key and the flight id,
    modulo one million. *)
Theorem payment_stage_commit d now query session_id customer (st : ctx_store)
    ctx chosen seat :
  let sid := session_key session_id in
  let txt := lower query in
  let r := book d now query session_id (Some customer) st in
  st !! sid = Some ctx -> bc_stage ctx = Payment ->
  bc_chosen ctx = Some chosen -> bc_seat ctx = Some seat ->
  payment_method_of txt = canonical_method txt /\
  (any_in ["upi"; "credit"; "debit"; "net"; "bank"] txt = false ->
   r = (Ok msg_payment_again, st)) /\
  (any_in ["upi"; "credit"; "debit"; "net"; "bank"] txt = true ->
   exists pm, payment_method_of txt = Some pm /\
     In pm ["UPI"; "Credit Card"; "Debit Card"; "Net Banking"]) /\
  (forall pm booking_id,
     payment_method_of txt = Some pm ->
     db_connect d = Ok tt ->
     db_commit d customer (o_fid chosen) (strftime_iso now) seat
       (o_price chosen) (pnr_of py_hash sid (o_fid chosen)) pm = Ok booking_id ->
     let pnr := pnr_of py_hash sid (o_fid chosen) in
     let reply := confirmation fmt_price booking_id pnr chosen seat pm in
     r = (Ok reply, delete sid st) /\
     r.2 !! sid = None /\
     str_in (str_of_Z booking_id) reply = true /\
     str_in pnr reply = true /\
     str_in (o_airline chosen) reply = true /\
     str_in (o_num chosen) reply = true /\
     str_in (o_origin chosen) reply = true /\
     str_in (o_dest chosen) reply = true /\
     str_in (o_dep chosen) reply = true /\
     str_in seat reply = true /\
     str_in pm reply = true /\
     str_in (fmt_price (o_price chosen)) reply = true /\
     pnr_shape pnr
       (Z.abs (py_hash (sid +:+ str_of_Z (o_fid chosen))) mod 1000000) /\
     reply =
       join nl
         [ icon_check +:+ " Booking Confirmed";
           "Booking ID: " +:+ str_of_Z booking_id +:+ " | PNR: " +:+ pnr;
           "Flight: " +:+ o_airline chosen +:+ " " +:+ o_num chosen +:+ " | "
             +:+ o_origin chosen +:+ " " +:+ arrow +:+ " " +:+ o_dest chosen
             +:+ " | Dep: " +:+ o_dep chosen;
           "Seat: " +:+ seat +:+ " | Payment: " +:+ pm +:+ " | Fare: "
             +:+ rupee +:+ fmt_price (o_price chosen);
           "Have a great trip!" ]).
Proof.
  intros sid txt r Hctx Hs Hch Hseat.
  split; [apply payment_method_of_canonical |].
  split.
  { intros Hnone. apply canonical_method_none in Hnone.
    rewrite <- payment_method_of_canonical in Hnone.
    now apply book_payment_reprompt with (ctx := ctx). }
  split.
  { intros Hany. rewrite payment_method_of_canonical.
    unfold any_in in Hany. simpl in Hany. unfold canonical_method.
    repeat match goal with
           | |- context [if ?b then _ else _] => destruct b
           end; simpl in *; try discriminate; eexists; split;
      try reflexivity; simpl; auto 6. }
  intros pm booking_id Hpm Hconn Hcommit pnr reply.
  assert (Hr : r = (Ok reply, delete sid st)).
  { subst r. rewrite (book_payment_step _ _ _ _ _ _ _ _ Hctx Hs Hpm).
    unfold payment_commit. simpl. rewrite Hconn, Hch, Hseat. simpl.
    fold sid. rewrite Hcommit. now rewrite delete_insert_eq. }
  split; [exact Hr |].
  split; [rewrite Hr; apply lookup_delete_eq |].
  clear Hr. subst reply.
  assert (Hshape : pnr_shape pnr
            (Z.abs (py_hash (sid +:+ str_of_Z (o_fid chosen))) mod 1000000))
    by apply pnr_of_shape.
  assert (Hlines : confirmation fmt_price booking_id pnr chosen seat pm =
       join nl
         [ icon_check +:+ " Booking Confirmed";
           "Booking ID: " +:+ str_of_Z booking_id +:+ " | PNR: " +:+ pnr;
           "Flight: " +:+ o_airline chosen +:+ " " +:+ o_num chosen +:+ " | "
             +:+ o_origin chosen +:+ " " +:+ arrow +:+ " " +:+ o_dest chosen
             +:+ " | Dep: " +:+ o_dep chosen;
           "Seat: " +:+ seat +:+ " | Payment: " +:+ pm +:+ " | Fare: "
             +:+ rupee +:+ fmt_price (o_price chosen);
           "Have a great trip!" ]).
  { unfold confirmation. simpl join. now rewrite !app_assoc_s. }
  repeat match goal with |- _ /\ _ => split end;
    [.. | exact Hshape | exact Hlines]; unfold confirmation; find_piece.
Qed.

(** *** The choose stage *)

Lemma book_choose_reject_none d now query session_id customer (st : ctx_store)
    ctx :
  st !! session_key session_id = Some ctx -> bc_stage ctx = Choose ->
  choose_index (lower query) = None ->
  book d now query session_id (Some customer) st = (Ok msg_choose, st).
Proof.
  intros Hctx Hs Hi. unfold book_flight_tool. rewrite Hctx. simpl.
  now rewrite Hs, Hi.
Qed.

Lemma book_choose_reject_range d now query session_id customer
    (st : ctx_store) ctx idx :
  st !! session_key session_id = Some ctx -> bc_stage ctx = Choose ->
  choose_index (lower query) = Some idx ->
  (idx < 1 \/ length (default [] (bc_options ctx)) < idx)%nat ->
  book d now query session_id (Some customer) st = (Ok msg_choose, st).
Proof.
  intros Hctx Hs Hi Hr. unfold book_flight_tool. rewrite Hctx. simpl.
  rewrite Hs, Hi. unfold index_rejected.
  destruct Hr as [Hr | Hr].
  - assert (idx = 0)%nat as -> by lia. reflexivity.
  - apply Nat.ltb_lt in Hr. rewrite Hr. now rewrite !orb_true_r.
Qed.

Lemma book_choose_accept d now query session_id customer (st : ctx_store)
    ctx idx :
  st !! session_key session_id = Some ctx -> bc_stage ctx = Choose ->
  choose_index (lower query) = Some idx ->
  (1 <= idx <= length (default [] (bc_options ctx)))%nat ->
  exists choice,
    default [] (bc_options ctx) !! (idx - 1)%nat = Some choice /\
    book d now query session_id (Some customer) st
    = (Ok msg_ask_seat,
       <[session_key session_id := set_stage Seat (set_chosen choice ctx)]> st).
Proof.
  intros Hctx Hs Hi [Hlo Hhi]. unfold book_flight_tool. rewrite Hctx. simpl.
  rewrite Hs, Hi. unfold index_rejected.
  assert (H0 : (idx =? 0)%nat = false) by (apply Nat.eqb_neq; lia).
  assert (H1 : (idx <? 1)%nat = false) by (apply Nat.ltb_ge; lia).
  assert (H2 : (length (default [] (bc_options ctx)) <? idx)%nat = false)
    by (apply Nat.ltb_ge; lia).
  rewrite H0, H1, H2. simpl.
  destruct (bc_options ctx) as [options|] eqn:Eo; simpl in *; [| lia].
  destruct (lookup_lt_is_Some_2 options (idx - 1)) as [choice Hc]; [lia |].
  exists choice. split; [exact Hc |].
  unfold index_list. now rewrite Hc.
Qed.

Lemma choose_index_order txt :
  choose_index txt =
  if str_in "first" txt then Some 1%nat
  else if str_in "second" txt then Some 2%nat
  else match search re_book_n txt with
       | Some m => Some (int_of_digits (group m 1))
       | None => if str_in "book" txt then Some 1%nat else None
       end.
Proof.
  unfold choose_index.
  destruct (str_in "first" txt); [reflexivity |].
  destruct (str_in "second" txt); [reflexivity |].
  destruct (search re_book_n txt); [reflexivity |].
  destruct (str_in "book" txt) eqn:Eb; [now rewrite orb_true_r |].
  destruct (str_in "book this" txt) eqn:Et; [| reflexivity].
  exfalso. assert (str_in "book" txt = true) as Hb; [| congruence].
  eapply str_in_mono; [| apply (str_in_here "book" " this")].
  apply str_in_piece. exact Et.
Qed.

Lemma choose_index_book_digit n :
  (n < 10)%nat -> choose_index ("book " +:+ str_of_nat n) = Some n.
Proof.
  intros H.
  do 10 (destruct n as [|n]; [vm_compute; reflexivity |]). lia.
Qed.

(** C5 (amended). In the choose stage the index is 1 when "first" occurs in
    the lowercased utterance, else 2 when "second" occurs, else the digit N
    of the first "book N", else 1 when "book" occurs (so also for "book
    this"), and none otherwise.  "book N" reads one decimal digit: the index
    it gives is at most 9, and "book N" alone gives N for every digit.  With
    no index, or with an index outside 1..len(options), the turn re-prompts
    and leaves the store (stage and options) as it was; with an index
    inside, it stores options[index-1] as chosen, sets the stage to 'seat',
    keeps the options and the slots, and asks for the seat. *)
Theorem choose_stage d now query session_id customer (st : ctx_store) ctx :
  let sid := session_key session_id in
  let txt := lower query in
  let r := book d now query session_id (Some customer) st in
  st !! sid = Some ctx -> bc_stage ctx = Choose ->
  (str_in "first" txt = true -> choose_index txt = Some 1%nat) /\
  (str_in "first" txt = false -> str_in "second" txt = true ->
   choose_index txt = Some 2%nat) /\
  (forall m, str_in "first" txt = false -> str_in "second" txt = false ->
   search re_book_n txt = Some m ->
   choose_index txt = Some (int_of_digits (group m 1))) /\
  (forall n, (n < 10)%nat ->
   choose_index ("book " +:+ str_of_nat n) = Some n) /\
  (str_in "first" txt = false -> str_in "second" txt = false ->
   search re_book_n txt = None -> str_in "book" txt = true ->
   choose_index txt = Some 1%nat) /\
  (str_in "first" txt = false -> str_in "second" txt = false ->
   search re_book_n txt = None -> str_in "book" txt = false ->
   choose_index txt = None) /\
  (choose_index txt = None ->
   r = (Ok msg_choose, st) /\ r.2 !! sid = Some ctx) /\
  (forall idx, choose_index txt = Some idx ->
   (idx < 1 \/ length (default [] (bc_options ctx)) < idx)%nat ->
   r = (Ok msg_choose, st) /\ r.2 !! sid = Some ctx) /\
  (forall idx, choose_index txt = Some idx ->
   (1 <= idx <= length (default [] (bc_options ctx)))%nat ->
   exists choice,
     default [] (bc_options ctx) !! (idx - 1)%nat = Some choice /\
     r = (Ok msg_ask_seat,
          <[sid := set_stage Seat (set_chosen choice ctx)]> st) /\
     exists ctx',
       r.2 !! sid = Some ctx' /\
       bc_stage ctx' = Seat /\
       bc_chosen ctx' = Some choice /\
       bc_options ctx' = bc_options ctx /\
       bc_origin ctx' = bc_origin ctx /\
       bc_destination ctx' = bc_destination ctx /\
       bc_date ctx' = bc_date ctx /\
       bc_seat ctx' = bc_seat ctx) /\
  (forall m, search re_book_n txt = Some m ->
   exists c, is_digit c = true /\ group m 1 = String c "" /\
             (int_of_digits (group m 1) <= 9)%nat) /\
  (forall idx, choose_index txt = Some idx -> (idx <= 9)%nat).
Proof.
  intros sid txt r Hctx Hs.
  repeat match goal with |- _ /\ _ => split end.
  - intros H. now rewrite choose_index_order, H.
  - intros H1 H2. now rewrite choose_index_order, H1, H2.
  - intros m H1 H2 H3. now rewrite choose_index_order, H1, H2, H3.
  - apply choose_index_book_digit.
  - intros H1 H2 H3 H4. now rewrite choose_index_order, H1, H2, H3, H4.
  - intros H1 H2 H3 H4. now rewrite choose_index_order, H1, H2, H3, H4.
  - intros H. subst r.
    rewrite (book_choose_reject_none _ _ _ _ _ _ _ Hctx Hs H).
    split; [reflexivity | exact Hctx].
  - intros idx H Hr. subst r.
    rewrite (book_choose_reject_range _ _ _ _ _ _ _ _ Hctx Hs H Hr).
    split; [reflexivity | exact Hctx].
  - intros idx H Hr.
    destruct (book_choose_accept d now query session_id customer st ctx idx
                Hctx Hs H Hr) as (choice & Hc & Hb).
    exists choice. split; [exact Hc |]. split; [exact Hb |].
    exists (set_stage Seat (set_chosen choice ctx)). subst r. rewrite Hb.
    simpl. rewrite lookup_insert_eq. repeat split.
  - apply book_n_reads_one_digit.
  - intros idx. rewrite choose_index_order.
    destruct (str_in "first" txt); [intros [= <-]; lia |].
    destruct (str_in "second" txt); [intros [= <-]; lia |].
    destruct (search re_book_n txt) as [m|] eqn:E.
    + destruct (book_n_reads_one_digit _ _ E) as (c & _ & _ & Hle).
      now intros [= <-].
    + destruct (str_in "book" txt); [intros [= <-]; lia | discriminate].
Qed.

(** *** The seat stage *)

Lemma lower_char_not_A_to_F c : not_A_to_F (lower_char c) = true.
Proof. destruct c as [[] [] [] [] [] [] [] []]; reflexivity. Qed.

Lemma lower_not_A_to_F s : all_chars not_A_to_F (lower s) = true.
Proof.
  induction s as [|c s IH]; [reflexivity |].
  unfold lower in *. simpl. now rewrite lower_char_not_A_to_F, IH.
Qed.

(** A repetition fails when what follows it fails wherever it is tried. *)
Lemma rep_go_fails p lo hi greedy (P : string -> bool) k :
  (forall c t, P (String c t) = true -> P t = true) ->
  (forall cur cs, P (c_rest cur) = true -> k cur cs = None) ->
  forall rest n prev pos cs,
    P rest = true -> rep_go p lo hi greedy n prev pos rest cs k = None.
Proof.
  intros Htail Hk. induction rest as [|c t IH]; intros n prev pos cs HP.
  - simpl. destruct greedy; destruct (lo <=? n)%nat; try reflexivity;
      now rewrite Hk.
  - simpl. rewrite (IH (S n) (Some c) (S pos) cs (Htail _ _ HP)).
    rewrite (Hk (Cursor prev pos (String c t)) cs HP).
    destruct greedy, (p c && below hi n), (lo <=? n)%nat; reflexivity.
Qed.

Lemma all_chars_tail p c t : all_chars p (String c t) = true -> all_chars p t = true.
Proof. simpl. intros H. now apply andb_true_iff in H. Qed.

Lemma seat_match_fails cur cs k :
  all_chars not_A_to_F (c_rest cur) = true -> rmatch re_seat cur cs k = None.
Proof.
  intros H. unfold re_seat. simpl.
  destruct (at_boundary cur); [| reflexivity].
  apply rep_go_fails with (P := all_chars not_A_to_F).
  - apply all_chars_tail.
  - intros cur' cs' H'. destruct (c_rest cur') as [|c t]; [reflexivity |].
    simpl in H'. apply andb_true_iff in H' as [Hc _].
    unfold not_A_to_F in Hc. apply negb_true_iff in Hc. now rewrite Hc.
  - exact H.
Qed.

Lemma seat_search_from_fails text prev pos rest :
  all_chars not_A_to_F rest = true ->
  search_from re_seat text prev pos rest = None.
Proof.
  revert prev pos. induction rest as [|c t IH]; intros prev pos H;
    rewrite search_from_unfold, seat_match_fails by exact H.
  - reflexivity.
  - apply IH. exact (all_chars_tail _ _ _ H).
Qed.

(** The pattern of the seat stage asks for a capital letter, and the text it
    searches is lowercased: it never matches. *)
Lemma seat_pattern_never_matches (query : string) :
  search re_seat (lower query) = None.
Proof. apply seat_search_from_fails, lower_not_A_to_F. Qed.

(** X1. In the seat stage every utterance is answered with the re-prompt and
    the store is left as it was: the stage never becomes 'payment'. *)
Theorem seat_stage_rejects_every_utterance d now query session_id customer
    (st : ctx_store) ctx :
  st !! session_key session_id = Some ctx -> bc_stage ctx = Seat ->
  book d now query session_id (Some customer) st = (Ok msg_seat_again, st).
Proof.
  intros Hctx Hs. unfold book_flight_tool. rewrite Hctx. simpl.
  now rewrite Hs, seat_pattern_never_matches.
Qed.

(** *** The search flow *)



(** *** Calls without a session id *)

(** C10. With [session_id] None both tools work on the key "default": a call
    with None is the call with "default"; the context a None call of the
    search flow or of the collect stage leaves behind is under the key the
    next None call reads, whoever makes it. So a second caller without a
    session continues the first caller's booking: after customer 1 said
    "from Delhi to Mumbai", customer 2 saying "2025-12-20" gets the answer to
    the query delhi, mumbai, 2025-12-20 (here: no flights), where alone the
    reply would have been the question for the cities. *)
Theorem none_session_shares_default :
  (forall d now query (st : gmap string search_ctx),
     find_flights d now query None st
     = find_flights d now query (Some "default") st) /\
  (forall d now query customer (st : ctx_store),
     book d now query None customer st
     = book d now query (Some "default") customer st) /\
  (forall d now query (st : gmap string search_ctx) ctx,
     db_connect d = Ok tt ->
     search_merge now query (default empty_search_ctx (st !! "default"))
     = Ok ctx ->
     truthy (sc_origin ctx) && truthy (sc_destination ctx)
       && truthy (sc_date ctx) = false ->
     (find_flights d now query None st).2 !! session_key None = Some ctx) /\
  (forall d now query customer (st : ctx_store) ctx,
     bc_stage (default (fresh_ctx Collect) (st !! "default")) = Collect ->
     book_merge now (lower query) (default (fresh_ctx Collect) (st !! "default"))
     = Ok ctx ->
     truthy (bc_origin ctx) && truthy (bc_destination ctx)
       && truthy (bc_date ctx) = false ->
     (book d now query None (Some customer) st).2 !! session_key None
     = Some ctx) /\
  (forall d1 d2 now1 now2 customer1 customer2,
     db_connect d2 = Ok tt ->
     db_flights d2 "delhi" "mumbai" "2025-12-20" = Ok [] ->
     let st1 := (book d1 now1 "from Delhi to Mumbai" None (Some customer1) ∅).2 in
     st1 !! "default"
     = Some (set_destination (Some "mumbai")
               (set_origin (Some "delhi") (fresh_ctx Collect))) /\
     (book d2 now2 "2025-12-20" None (Some customer2) st1).1
     = Ok msg_no_flights /\
     (book d2 now2 "2025-12-20" None (Some customer2) ∅).1
     = Ok msg_book_ask_both).
Proof.
  split; [reflexivity |]. split; [reflexivity |].
  split.
  { intros d now query st ctx Hc Hm Hinc.
    rewrite (find_flights_incomplete d now query None st ctx Hc Hm Hinc).
    apply lookup_insert_eq. }
  split.
  { intros d now query customer st ctx Hs Hm Hinc.
    rewrite (book_collect_incomplete d now query None customer
               st ctx Hs Hm Hinc).
    apply lookup_insert_eq. }
  intros d1 d2 now1 now2 customer1 customer2 Hc Hf st1.
  set (ctx1 := set_destination (Some "mumbai")
                 (set_origin (Some "delhi") (fresh_ctx (Price := Price) Collect))).
  assert (Hm1 : book_merge now1 (lower "from Delhi to Mumbai")
                  (default (fresh_ctx Collect) ((∅ : ctx_store) !! session_key None))
                = Ok ctx1).
  { rewrite lookup_empty. vm_compute. reflexivity. }
  assert (Hst1 : st1 = <["default" := ctx1]> ∅).
  { subst st1.
    apply (book_collect_incomplete d1 now1 _ None customer1 ∅ ctx1);
      [now rewrite lookup_empty | exact Hm1 | reflexivity]. }
  split; [rewrite Hst1; apply lookup_insert_eq |].
  split.
  - rewrite Hst1.
    rewrite (book_collect_ready d2 now2 "2025-12-20" None customer2
               (<["default" := ctx1]> ∅) (set_date (Some "2025-12-20") ctx1)).
    + rewrite (collect_query_cases _ _ _ "delhi" "mumbai" "2025-12-20");
        [now rewrite Hc, Hf | | |]; split; try reflexivity; discriminate.
    + change (session_key None) with "default". now rewrite lookup_insert_eq.
    + change (session_key None) with "default". rewrite lookup_insert_eq.
      vm_compute. reflexivity.
    + reflexivity.
  - unfold book_flight_tool. rewrite lookup_empty. vm_compute. reflexivity.
Qed.

(** *** What the stored contexts hold *)

Lemma store_ok_insert (st : ctx_store) k c :
  store_ok st -> ctx_ok c -> store_ok (<[k := c]> st).
Proof.
  intros Hst Hc k' c' H. destruct (decide (k = k')) as [<-|Hne].
  - rewrite lookup_insert_eq in H. now injection H as <-.
  - rewrite lookup_insert_ne in H by exact Hne. eapply Hst, H.
Qed.

Lemma store_ok_delete (st : ctx_store) k : store_ok st -> store_ok (delete k st).
Proof.
  intros Hst k' c' H. apply lookup_delete_Some in H as [_ H]. eapply Hst, H.
Qed.

Lemma store_ok_default (st : ctx_store) k :
  store_ok st -> ctx_ok (default (fresh_ctx Collect) (st !! k)).
Proof.
  intros Hst. destruct (st !! k) as [c|] eqn:E; simpl; [eapply Hst, E | exact I].
Qed.

Lemma collect_query_ok d sid (ctx : booking_ctx Price) (stored : ctx_store) :
  store_ok stored -> store_ok (collect_query fmt_price d sid ctx stored).2.
Proof.
  intros Hst. unfold collect_query.
  destruct (db_connect d); [| exact Hst].
  destruct (getitem (bc_origin ctx) "origin") as [o|]; [| exact Hst].
  destruct (getitem (bc_destination ctx) "destination") as [dst|];
    [| exact Hst].
  destruct (getitem (bc_date ctx) "date") as [dt|]; [| exact Hst].
  destruct (db_flights d o dst dt) as [[|f fs]|]; try exact Hst.
  simpl. apply store_ok_insert; [exact Hst |]. unfold ctx_ok. simpl. eauto.
Qed.

Lemma payment_commit_ok d now sid customer (ctx : booking_ctx Price) pm
    (stored : ctx_store) :
  store_ok stored ->
  store_ok (payment_commit fmt_price py_hash d now sid customer ctx pm stored).2.
Proof.
  intros Hst. unfold payment_commit.
  destruct (db_connect d); [| exact Hst].
  destruct (bc_chosen ctx); [| exact Hst].
  destruct (getitem (bc_seat ctx) "seat"); [| exact Hst].
  destruct (db_commit d _ _ _ _ _ _ _); [| exact Hst].
  simpl. now apply store_ok_delete.
Qed.

(** X5. Every turn of [book_flight_tool] keeps the store such that a context
    in stage choose has options, one in stage seat has a chosen flight, and
    one in stage payment has a chosen flight and a seat. *)
Theorem book_keeps_store_ok d now query session_id customer_id (st : ctx_store) :
  store_ok st -> store_ok (book d now query session_id customer_id st).2.
Proof.
  intros Hst. unfold book_flight_tool.
  destruct customer_id as [customer|]; [| exact Hst].
  pose proof (store_ok_default st (session_key session_id) Hst) as Hctx.
  set (ctx := default (fresh_ctx Collect) (st !! session_key session_id)) in *.
  destruct (bc_stage ctx) eqn:Hs.
  - destruct (book_merge now (lower query) ctx) as [c|e] eqn:Hm; [| exact Hst].
    assert (Hc : ctx_ok c).
    { unfold ctx_ok. destruct (book_merge_frame _ _ _ _ Hm) as [-> _].
      now rewrite Hs. }
    pose proof (store_ok_insert st (session_key session_id) c Hst Hc) as Hst'.
    repeat match goal with
           | |- context [if ?b then _ else _] => destruct b
           end; try exact Hst'.
    now apply collect_query_ok.
  - destruct (choose_index (lower query)) as [idx|]; [| exact Hst].
    destruct (index_rejected idx ctx); [exact Hst |].
    destruct (getitem (bc_options ctx) "options") as [options|]; [| exact Hst].
    destruct (index_list options (idx - 1)) as [choice|]; [| exact Hst].
    simpl. apply store_ok_insert; [exact Hst |]. unfold ctx_ok. simpl. eauto.
  - destruct (search re_seat (lower query)) as [m|]; [| exact Hst].
    simpl. apply store_ok_insert; [exact Hst |].
    unfold ctx_ok in *. rewrite Hs in Hctx. simpl. eauto.
  - destruct (payment_method_of (lower query)) as [pm|]; [| exact Hst].
    destruct (String.eqb pm ""); [exact Hst |].
    apply payment_commit_ok, store_ok_insert; [exact Hst |].
    unfold ctx_ok in *. rewrite Hs in Hctx. simpl. now rewrite Hs.
  - simpl. apply store_ok_insert; [exact Hst | exact I].
Qed.

End FlowProperties.

(** ** Intent router *)

Lemma str_in_longer (x y u : string) :
  str_in x y = true -> str_in y u = true -> str_in x u = true.
Proof.
  intros Hxy Hyu. eapply str_in_mono; [| exact Hxy].
  apply str_in_piece. exact Hyu.
Qed.

(** The two phrases of the booking rule hold the word "book" already. *)
Lemma booking_phrases_words u : any_in booking_phrases u = any_in booking_words u.
Proof.
  unfold any_in, booking_phrases, booking_words. simpl.
  destruct (str_in "book" u) eqn:Eb; [reflexivity |].
  destruct (str_in "reserve" u); [reflexivity |].
  destruct (str_in "purchase" u); [reflexivity |].
  simpl.
  destruct (str_in "i want to book" u) eqn:E1.
  { exfalso. assert (str_in "book" u = true) as Hb; [| congruence].
    eapply str_in_longer; [| exact E1]. vm_compute. reflexivity. }
  destruct (str_in "need to book" u) eqn:E2; [| reflexivity].
  exfalso. assert (str_in "book" u = true) as Hb; [| congruence].
  eapply str_in_longer; [| exact E2]. vm_compute. reflexivity.
Qed.




(** The utterance of the spec's example goes to Search: it has " to ", and a
    city with the word "flight", which the search rule tests before the
    booking rule and without looking at the booking words. *)
Lemma override_book_a_flight_to_dubai :
  forced_tool "I want to book a flight to Dubai" = Some "search_flights" /\
  forced_tool "I want to book a flight from Delhi to Mumbai on 2025-12-20"
  = Some "search_flights".
Proof. split; vm_compute; reflexivity. Qed.

(** ** Concrete runs *)

(** C1, at the failing input: in the seat stage "12A", "12a" and "I want seat
    12A" are all answered with the re-prompt, and the context keeps the stage
    'seat' and no seat. *)
Theorem seat_12A_not_accepted :
  book_flight_tool rupees length_hash (db_up []) today0 "12A" (Some "s1")
    (Some 1%Z) (<["s1" := ctx_seat]> ∅)
  = (Ok msg_seat_again, <["s1" := ctx_seat]> ∅) /\
  book_flight_tool rupees length_hash (db_up []) today0 "12a" (Some "s1")
    (Some 1%Z) (<["s1" := ctx_seat]> ∅)
  = (Ok msg_seat_again, <["s1" := ctx_seat]> ∅) /\
  book_flight_tool rupees length_hash (db_up []) today0 "I want seat 12A"
    (Some "s1") (Some 1%Z) (<["s1" := ctx_seat]> ∅)
  = (Ok msg_seat_again, <["s1" := ctx_seat]> ∅) /\
  search re_seat (lower "12A") = None /\
  (fun m => group m 1) <$> search re_seat "12A" = Some "12A".
Proof.
  repeat match goal with |- _ /\ _ => split end; vm_compute; reflexivity.
Qed.



Lemma payment_stage_commit_witness :
  book_flight_tool rupees length_hash (db_up []) today0 "I'll pay with UPI"
    (Some "s1") (Some 1%Z) (<["s1" := ctx_payment]> ∅)
  = (Ok (confirmation rupees 42 (pnr_of length_hash "s1" 1)
           (option_of_row flight_ai101) "12A" "UPI"),
     delete "s1" (<["s1" := ctx_payment]> ∅)) /\
  (book_flight_tool rupees length_hash (db_up []) today0 "I'll pay with UPI"
     (Some "s1") (Some 1%Z) (<["s1" := ctx_payment]> ∅)).2 !! "s1" = None.
Proof.
  pose proof (payment_stage_commit rupees length_hash (db_up []) today0
                "I'll pay with UPI" (Some "s1") 1%Z
                (<["s1" := ctx_payment]> ∅) ctx_payment
                (option_of_row flight_ai101) "12A") as H.
  cbv zeta in H.
  destruct H as (_ & _ & _ & H);
    [apply lookup_insert_eq | reflexivity | reflexivity | reflexivity |].
  destruct (H "UPI" 42%Z) as (H1 & H2 & _);
    [vm_compute; reflexivity | reflexivity | reflexivity |].
  split; [exact H1 | exact H2].
Defined.

Lemma choose_stage_witness :
  book_flight_tool rupees length_hash (db_up []) today0 "book second"
    (Some "s1") (Some 1%Z) (<["s1" := ctx_choose]> ∅)
  = (Ok msg_ask_seat,
     <["s1" := set_stage Seat
                 (set_chosen (option_of_row flight_6e204) ctx_choose)]>
       (<["s1" := ctx_choose]> ∅)) /\
  book_flight_tool rupees length_hash (db_up []) today0 "book 9"
    (Some "s1") (Some 1%Z) (<["s1" := ctx_choose]> ∅)
  = (Ok msg_choose, <["s1" := ctx_choose]> ∅).
Proof.
  split.
  - pose proof (choose_stage rupees length_hash (db_up []) today0 "book second"
                  (Some "s1") 1%Z (<["s1" := ctx_choose]> ∅) ctx_choose) as H.
    cbv zeta in H.
    destruct H as (_ & _ & _ & _ & _ & _ & _ & _ & H & _);
      [apply lookup_insert_eq | reflexivity |].
    destruct (H 2%nat) as (choice & Hc & Hr & _);
      [vm_compute; reflexivity | simpl; lia |].
    simpl in Hc. injection Hc as <-. exact Hr.
  - pose proof (choose_stage rupees length_hash (db_up []) today0 "book 9"
                  (Some "s1") 1%Z (<["s1" := ctx_choose]> ∅) ctx_choose) as H.
    cbv zeta in H.
    destruct H as (_ & _ & _ & _ & _ & _ & _ & H & _);
      [apply lookup_insert_eq | reflexivity |].
    apply (H 9%nat); [vm_compute; reflexivity | simpl; lia].
Defined.

(** C5 as stated fails: "book N" does not select N when N has two digits.
    Against the two options, "book 12" reads the digit 1 and books the first
    option, where an index 12 would be out of range and re-prompt. *)
Lemma choose_book_12_selects_first :
  choose_index (lower "book 12") = Some 1%nat /\
  length two_options = 2%nat /\
  book_flight_tool rupees length_hash (db_up []) today0 "book 12"
    (Some "s1") (Some 1%Z) (<["s1" := ctx_choose]> ∅)
  = (Ok msg_ask_seat,
     <["s1" := set_stage Seat
                 (set_chosen (option_of_row flight_ai101) ctx_choose)]>
       (<["s1" := ctx_choose]> ∅)).
Proof.
  split; [vm_compute; reflexivity |]. split; [reflexivity |].
  destruct (book_choose_accept rupees length_hash (db_up []) today0 "book 12"
              (Some "s1") 1%Z (<["s1" := ctx_choose]> ∅) ctx_choose 1%nat)
    as (choice & Hc & Hr);
    [apply lookup_insert_eq | reflexivity | vm_compute; reflexivity
    | simpl; lia |].
  simpl in Hc. injection Hc as <-. exact Hr.
Qed.



Lemma none_session_shares_default_witness :
  (book_flight_tool rupees length_hash (db_up []) today0 "2025-12-20" None
     (Some 2%Z)
     (book_flight_tool rupees length_hash (db_up []) today0
        "from Delhi to Mumbai" None (Some 1%Z) ∅).2).1
  = Ok msg_no_flights /\
  (book_flight_tool rupees length_hash (db_up []) today0 "2025-12-20" None
     (Some 2%Z) ∅).1
  = Ok msg_book_ask_both.
Proof.
  destruct (none_session_shares_default rupees length_hash)
    as (_ & _ & _ & _ & H).
  destruct (H (db_up []) (db_up []) today0 today0 1%Z 2%Z eq_refl eq_refl)
    as (_ & H1 & H2).
  split; [exact H1 | exact H2].
Defined.

Lemma seat_stage_rejects_every_utterance_witness :
  book_flight_tool rupees length_hash (db_up []) today0 "seat 7C please"
    (Some "s1") (Some 1%Z) (<["s1" := ctx_seat]> ∅)
  = (Ok msg_seat_again, <["s1" := ctx_seat]> ∅).
Proof.
  apply (seat_stage_rejects_every_utterance rupees length_hash (db_up []) today0
           "seat 7C please" (Some "s1") 1%Z (<["s1" := ctx_seat]> ∅) ctx_seat
           (lookup_insert_eq _ _ _) eq_refl).
Defined.

(** Without a customer id [book_flight_tool] answers with the refusal and
    touches no context, whatever the stage. *)
Theorem book_requires_login {Price : Type} (fmt_price : Price -> string)
    (py_hash : string -> Z) d now query session_id
    (st : gmap string (booking_ctx Price)) :
  book_flight_tool fmt_price py_hash d now query session_id None st
  = (Ok msg_login_required, st).
Proof. reflexivity. Qed.

(** The extractor on the examples of the specification: both cities of
    "from Delhi to Mumbai" and of "Mumbai to Pune", the fifth of December of
    the clock's year for "on 5 Dec", the next day for "tomorrow" (over a month
    end and a leap day too), and no date for "no date here". *)
Theorem extractor_examples :
  _extract_city_tokens "from Delhi to Mumbai"
  = Ok (CityPair (Some "delhi") (Some "mumbai")) /\
  _extract_city_tokens "Mumbai to Pune"
  = Ok (CityPair (Some "mumbai") (Some "pune")) /\
  (forall y m d, _extract_date_tokens (Date y m d) "on 5 Dec"
                 = Some (iso_format y 12 5)) /\
  _extract_date_tokens (Date 2025 12 31) "tomorrow" = Some "2026-01-01" /\
  _extract_date_tokens (Date 2024 2 28) "tomorrow" = Some "2024-02-29" /\
  (forall now, _extract_date_tokens now "no date here" = None).
Proof.
  repeat match goal with |- _ /\ _ => split end; intros; vm_compute;
    reflexivity.
Qed.

(** The first search turn: with no context for the session and an
    utterance without a city, the search flow asks for both cities and
    stores the empty context. *)
Theorem search_first_prompt :
  search_flights_tool rupees (db_up [flight_ai101]) today0 "hello" (Some "s1") ∅
  = (msg_search_ask_both, <["s1" := empty_search_ctx]> ∅).
Proof. vm_compute. reflexivity. Qed.

Lemma book_keeps_store_ok_witness :
  store_ok (book_flight_tool rupees length_hash (db_up [flight_ai101]) today0
              "from Delhi to Mumbai on 2025-12-20" (Some "s1") (Some 1%Z) ∅).2.
Proof.
  apply (book_keeps_store_ok rupees length_hash).
  intros k c H. rewrite lookup_empty in H. discriminate.
Defined.

(** ** More on the flows *)

Section MoreFlowProperties.

Context {Price : Type} (fmt_price : Price -> string) (py_hash : string -> Z).

Local Abbreviation book := (book_flight_tool fmt_price py_hash).
Local Abbreviation find_flights := (search_flights_tool fmt_price).
Local Abbreviation ctx_store := (gmap string (booking_ctx Price)).

(** *** Sessions do not touch each other *)

Lemma same_elsewhere_refl {A} sid (st : gmap string A) : same_elsewhere sid st st.
Proof. intros k _. reflexivity. Qed.

Lemma same_elsewhere_insert {A} sid (st st' : gmap string A) v :
  same_elsewhere sid st st' -> same_elsewhere sid st (<[sid := v]> st').
Proof.
  intros H k Hk. rewrite lookup_insert_ne by congruence. now apply H.
Qed.

Lemma same_elsewhere_delete {A} sid (st st' : gmap string A) :
  same_elsewhere sid st st' -> same_elsewhere sid st (delete sid st').
Proof.
  intros H k Hk. rewrite lookup_delete_ne by congruence. now apply H.
Qed.

Lemma collect_query_elsewhere d sid (ctx : booking_ctx Price)
    (st stored : ctx_store) :
  same_elsewhere sid st stored ->
  same_elsewhere sid st (collect_query fmt_price d sid ctx stored).2.
Proof.
  intros H. unfold collect_query.
  destruct (db_connect d); [| exact H].
  destruct (getitem (bc_origin ctx) "origin") as [o|]; [| exact H].
  destruct (getitem (bc_destination ctx) "destination") as [dst|]; [| exact H].
  destruct (getitem (bc_date ctx) "date") as [dt|]; [| exact H].
  destruct (db_flights d o dst dt) as [[|f fs]|]; try exact H.
  simpl. now apply same_elsewhere_insert.
Qed.

Lemma payment_commit_elsewhere d now sid customer (ctx : booking_ctx Price) pm
    (st stored : ctx_store) :
  same_elsewhere sid st stored ->
  same_elsewhere sid st
    (payment_commit fmt_price py_hash d now sid customer ctx pm stored).2.
Proof.
  intros H. unfold payment_commit.
  destruct (db_connect d); [| exact H].
  destruct (bc_chosen ctx); [| exact H].
  destruct (getitem (bc_seat ctx) "seat"); [| exact H].
  destruct (db_commit d _ _ _ _ _ _ _); [| exact H].
  simpl. now apply same_elsewhere_delete.
Qed.

Lemma book_elsewhere d now query session_id customer_id (st : ctx_store) :
  same_elsewhere (session_key session_id) st
    (book d now query session_id customer_id st).2.
Proof.
  unfold book_flight_tool.
  destruct customer_id as [customer|]; [| apply same_elsewhere_refl].
  set (sid := session_key session_id).
  set (ctx := default (fresh_ctx Collect) (st !! sid)).
  pose proof (same_elsewhere_refl sid st) as Hr.
  destruct (bc_stage ctx).
  - destruct (book_merge now (lower query) ctx) as [c|e]; [| exact Hr].
    pose proof (same_elsewhere_insert sid st st c Hr) as Hi.
    repeat match goal with
           | |- context [if ?b then _ else _] => destruct b
           end; try exact Hi.
    now apply collect_query_elsewhere.
  - destruct (choose_index (lower query)) as [idx|]; [| exact Hr].
    destruct (index_rejected idx ctx); [exact Hr |].
    destruct (getitem (bc_options ctx) "options") as [options|]; [| exact Hr].
    destruct (index_list options (idx - 1)) as [choice|]; [| exact Hr].
    simpl. now apply same_elsewhere_insert.
  - destruct (search re_seat (lower query)) as [m|]; [| exact Hr].
    simpl. now apply same_elsewhere_insert.
  - destruct (payment_method_of (lower query)) as [pm|]; [| exact Hr].
    destruct (String.eqb pm ""); [exact Hr |].
    now apply payment_commit_elsewhere, same_elsewhere_insert.
  - simpl. now apply same_elsewhere_insert.
Qed.

Lemma find_flights_elsewhere d now query session_id
    (st : gmap string search_ctx) :
  same_elsewhere (session_key session_id) st
    (find_flights d now query session_id st).2.
Proof.
  unfold search_flights_tool.
  set (sid := session_key session_id).
  pose proof (same_elsewhere_refl sid st) as Hr.
  destruct (db_connect d); [| exact Hr].
  destruct (search_merge now query _) as [ctx|e]; [| exact Hr].
  pose proof (same_elsewhere_insert sid st st ctx Hr) as Hi.
  repeat match goal with
         | |- context [if ?b then _ else _] => destruct b
         end; try exact Hi.
  destruct (getitem (sc_origin ctx) "origin") as [o|]; [| exact Hi].
  destruct (getitem (sc_destination ctx) "destination") as [dst|]; [| exact Hi].
  destruct (getitem (sc_date ctx) "date") as [dt|]; [| exact Hi].
  destruct (db_flights d o dst dt) as [[|f fs]|]; try exact Hi.
  simpl. now apply same_elsewhere_delete.
Qed.

Lemma collect_query_own d sid (ctx : booking_ctx Price)
    (st st' : ctx_store) :
  st !! sid = st' !! sid ->
  (collect_query fmt_price d sid ctx st).1
  = (collect_query fmt_price d sid ctx st').1 /\
  (collect_query fmt_price d sid ctx st).2 !! sid
  = (collect_query fmt_price d sid ctx st').2 !! sid.
Proof.
  intros H. unfold collect_query.
  destruct (db_connect d); [| now split].
  destruct (getitem (bc_origin ctx) "origin") as [o|]; [| now split].
  destruct (getitem (bc_destination ctx) "destination") as [dst|];
    [| now split].
  destruct (getitem (bc_date ctx) "date") as [dt|]; [| now split].
  destruct (db_flights d o dst dt) as [[|f fs]|]; try (now split).
  simpl. now rewrite !lookup_insert_eq.
Qed.

Lemma payment_commit_own d now sid customer (ctx : booking_ctx Price) pm
    (st st' : ctx_store) :
  st !! sid = st' !! sid ->
  (payment_commit fmt_price py_hash d now sid customer ctx pm st).1
  = (payment_commit fmt_price py_hash d now sid customer ctx pm st').1 /\
  (payment_commit fmt_price py_hash d now sid customer ctx pm st).2 !! sid
  = (payment_commit fmt_price py_hash d now sid customer ctx pm st').2 !! sid.
Proof.
  intros H. unfold payment_commit.
  destruct (db_connect d); [| now split].
  destruct (bc_chosen ctx); [| now split].
  destruct (getitem (bc_seat ctx) "seat"); [| now split].
  destruct (db_commit d _ _ _ _ _ _ _); [| now split].
  simpl. now rewrite !lookup_delete_eq.
Qed.

Lemma book_own d now query session_id customer_id (st st' : ctx_store) :
  st !! session_key session_id = st' !! session_key session_id ->
  (book d now query session_id customer_id st).1
  = (book d now query session_id customer_id st').1 /\
  (book d now query session_id customer_id st).2 !! session_key session_id
  = (book d now query session_id customer_id st').2 !! session_key session_id.
Proof.
  intros H. unfold book_flight_tool.
  destruct customer_id as [customer|]; [| now split].
  set (sid := session_key session_id) in *. rewrite <- H.
  set (ctx := default (fresh_ctx Collect) (st !! sid)).
  assert (Hin : forall c : booking_ctx Price,
            (<[sid := c]> st) !! sid = (<[sid := c]> st') !! sid)
    by (intros c; now rewrite !lookup_insert_eq).
  destruct (bc_stage ctx).
  - destruct (book_merge now (lower query) ctx) as [c|e]; [| now split].
    repeat match goal with
           | |- context [if ?b then _ else _] => destruct b
           end; try (now split; [reflexivity | apply Hin]).
    apply collect_query_own, Hin.
  - destruct (choose_index (lower query)) as [idx|]; [| now split].
    destruct (index_rejected idx ctx); [now split |].
    destruct (getitem (bc_options ctx) "options") as [options|];
      [| now split].
    destruct (index_list options (idx - 1)) as [choice|]; [| now split].
    split; [reflexivity | apply Hin].
  - destruct (search re_seat (lower query)); [| now split].
    split; [reflexivity | apply Hin].
  - destruct (payment_method_of (lower query)) as [pm|]; [| now split].
    destruct (String.eqb pm ""); [now split |].
    apply payment_commit_own, Hin.
  - split; [reflexivity | apply Hin].
Qed.

Lemma find_flights_own d now query session_id
    (st st' : gmap string search_ctx) :
  st !! session_key session_id = st' !! session_key session_id ->
  (find_flights d now query session_id st).1
  = (find_flights d now query session_id st').1 /\
  (find_flights d now query session_id st).2 !! session_key session_id
  = (find_flights d now query session_id st').2 !! session_key session_id.
Proof.
  intros H. unfold search_flights_tool.
  set (sid := session_key session_id) in *. rewrite <- H.
  destruct (db_connect d); [| now split].
  destruct (search_merge now query _) as [ctx|e]; [| now split].
  assert (Hin : (<[sid := ctx]> st) !! sid = (<[sid := ctx]> st') !! sid)
    by now rewrite !lookup_insert_eq.
  repeat match goal with
         | |- context [if ?b then _ else _] => destruct b
         end; try (now split; [reflexivity | apply Hin]).
  destruct (getitem (sc_origin ctx) "origin"); [| now split].
  destruct (getitem (sc_destination ctx) "destination"); [| now split].
  destruct (getitem (sc_date ctx) "date"); [| now split].
  destruct (db_flights d _ _ _) as [[|f fs]|]; try (now split).
  simpl. now rewrite !lookup_delete_eq.
Qed.

(** X2. A turn of either flow reads and writes the context of its own session
    key only.  After [search_flights_tool] or [book_flight_tool], whatever
    the utterance, the caller, the clock and the collaborator do, the
    context stored under every other key is what it was; and the reply and
    the context the turn leaves under its own key are the same from any two
    stores that hold the same context under that key, whatever they hold
    under the other keys. *)
Theorem sessions_are_isolated (session_id : option string) (k : string) :
  k <> session_key session_id ->
  (forall d now query (st : gmap string search_ctx),
     (find_flights d now query session_id st).2 !! k = st !! k) /\
  (forall d now query customer_id (st : ctx_store),
     (book d now query session_id customer_id st).2 !! k = st !! k) /\
  (forall d now query (st st' : gmap string search_ctx),
     st !! session_key session_id = st' !! session_key session_id ->
     (find_flights d now query session_id st).1
     = (find_flights d now query session_id st').1 /\
     (find_flights d now query session_id st).2 !! session_key session_id
     = (find_flights d now query session_id st').2
       !! session_key session_id) /\
  (forall d now query customer_id (st st' : ctx_store),
     st !! session_key session_id = st' !! session_key session_id ->
     (book d now query session_id customer_id st).1
     = (book d now query session_id customer_id st').1 /\
     (book d now query session_id customer_id st).2 !! session_key session_id
     = (book d now query session_id customer_id st').2
       !! session_key session_id).
Proof.
  intros Hk. repeat match goal with |- _ /\ _ => split end; intros.
  - now apply find_flights_elsewhere.
  - now apply book_elsewhere.
  - now apply find_flights_own.
  - now apply book_own.
Qed.

(** *** The slot merge *)

Lemma search_merge_keeps now query ctx :
  exists ctx', search_merge now query ctx = Ok ctx' /\
    (truthy (sc_origin ctx) = true -> truthy (sc_origin ctx') = true) /\
    (truthy (sc_destination ctx) = true -> truthy (sc_destination ctx') = true) /\
    (truthy (sc_date ctx) = true -> truthy (sc_date ctx') = true).
Proof.
  unfold search_merge.
  destruct (extract_city_tokens_returns query) as [cp ->].
  eexists. split; [reflexivity |].
  destruct (truthy (sc_origin ctx)) eqn:Eo, (truthy (sc_destination ctx)) eqn:Ed,
    (truthy (cp_origin cp)) eqn:Eco, (truthy (cp_destination cp)) eqn:Ecd,
    (truthy (_extract_date_tokens now query)) eqn:Et; simpl;
    repeat split; intros; try assumption; try discriminate.
Qed.

Lemma book_merge_keeps now txt (ctx : booking_ctx Price) :
  exists ctx', book_merge now txt ctx = Ok ctx' /\
    (truthy (bc_origin ctx) = true -> truthy (bc_origin ctx') = true) /\
    (truthy (bc_destination ctx) = true -> truthy (bc_destination ctx') = true) /\
    (truthy (bc_date ctx) = true -> truthy (bc_date ctx') = true).
Proof.
  unfold book_merge.
  destruct (extract_city_tokens_returns txt) as [cp ->].
  eexists. split; [reflexivity |].
  destruct (truthy (bc_origin ctx)) eqn:Eo, (truthy (bc_destination ctx)) eqn:Ed,
    (truthy (cp_origin cp)) eqn:Eco, (truthy (cp_destination cp)) eqn:Ecd,
    (truthy (_extract_date_tokens now txt)) eqn:Et; simpl;
    repeat split; intros; try assumption; try discriminate.
Qed.

(** X3. The slot merge of a turn never raises and never clears
    a slot: in the search flow and in the collect stage, an origin, a
    destination or a date that the context held before the merge is held
    after it (a new value may have taken its place); and a turn of the
    collect stage leaves a context in the store with at least the slots the
    session had. *)
Theorem slots_are_never_cleared :
  (forall now query ctx,
     exists ctx', search_merge now query ctx = Ok ctx' /\
       (truthy (sc_origin ctx) = true -> truthy (sc_origin ctx') = true) /\
       (truthy (sc_destination ctx) = true ->
        truthy (sc_destination ctx') = true) /\
       (truthy (sc_date ctx) = true -> truthy (sc_date ctx') = true)) /\
  (forall d now query session_id customer (st : ctx_store),
     let ctx := default (fresh_ctx Collect) (st !! session_key session_id) in
     bc_stage ctx = Collect ->
     exists ctx',
       (book d now query session_id (Some customer) st).2
         !! session_key session_id = Some ctx' /\
       (truthy (bc_origin ctx) = true -> truthy (bc_origin ctx') = true) /\
       (truthy (bc_destination ctx) = true ->
        truthy (bc_destination ctx') = true) /\
       (truthy (bc_date ctx) = true -> truthy (bc_date ctx') = true)).
Proof.
  split; [apply search_merge_keeps |].
  intros d now query session_id customer st ctx Hs.
  destruct (book_merge_keeps now (lower query) ctx) as (c & Hm & Ho & Hd & Ht).
  unfold book_flight_tool. fold ctx. rewrite Hs, Hm.
  set (sid := session_key session_id).
  assert (Hin : exists ctx', (<[sid := c]> st) !! sid = Some ctx' /\
            (truthy (bc_origin ctx) = true -> truthy (bc_origin ctx') = true) /\
            (truthy (bc_destination ctx) = true ->
             truthy (bc_destination ctx') = true) /\
            (truthy (bc_date ctx) = true -> truthy (bc_date ctx') = true)).
  { exists c. rewrite lookup_insert_eq. auto. }
  repeat match goal with
         | |- context [if ?b then _ else _] => destruct b
         end; try exact Hin.
  unfold collect_query.
  destruct (db_connect d); [| exact Hin].
  destruct (getitem (bc_origin c) "origin") as [o|]; [| exact Hin].
  destruct (getitem (bc_destination c) "destination") as [dst|]; [| exact Hin].
  destruct (getitem (bc_date c) "date") as [dt|]; [| exact Hin].
  destruct (db_flights d o dst dt) as [[|f fs]|]; try exact Hin.
  simpl. eexists. rewrite lookup_insert_eq. split; [reflexivity |].
  simpl. auto.
Qed.

(** X4. When the flow waits for one city, the destination
    the extractor found fills the slot that is missing and the origin the
    extractor found is dropped: with a destination and no origin in the
    context, the extracted destination becomes the origin; with an origin and
    no destination, it becomes the destination; the other slot keeps its
    value. *)
Theorem waiting_slot_takes_extracted_destination now query ctx cp :
  _extract_city_tokens query = Ok cp ->
  truthy (cp_destination cp) = true ->
  (truthy (sc_destination ctx) = true -> truthy (sc_origin ctx) = false ->
   exists ctx', search_merge now query ctx = Ok ctx' /\
     sc_origin ctx' = cp_destination cp /\
     sc_destination ctx' = sc_destination ctx) /\
  (truthy (sc_origin ctx) = true -> truthy (sc_destination ctx) = false ->
   exists ctx', search_merge now query ctx = Ok ctx' /\
     sc_destination ctx' = cp_destination cp /\
     sc_origin ctx' = sc_origin ctx).
Proof.
  intros Hcp Hd. unfold search_merge. rewrite Hcp, Hd.
  split; intros H1 H2; rewrite H1, H2; simpl; eexists;
    (split; [reflexivity |]);
    destruct (truthy (_extract_date_tokens now query)); simpl; auto.
Qed.

(** *** The payment stage is never reached *)

Lemma no_payment_insert (st : ctx_store) k c :
  no_payment st -> bc_stage c <> Payment -> no_payment (<[k := c]> st).
Proof.
  intros Hst Hc k' c' H. destruct (decide (k = k')) as [<-|Hne].
  - rewrite lookup_insert_eq in H. now injection H as <-.
  - rewrite lookup_insert_ne in H by exact Hne. eapply Hst, H.
Qed.

Lemma collect_query_no_payment d sid (ctx : booking_ctx Price)
    (stored : ctx_store) :
  no_payment stored ->
  no_payment (collect_query fmt_price d sid ctx stored).2.
Proof.
  intros H. unfold collect_query.
  destruct (db_connect d); [| exact H].
  destruct (getitem (bc_origin ctx) "origin") as [o|]; [| exact H].
  destruct (getitem (bc_destination ctx) "destination") as [dst|]; [| exact H].
  destruct (getitem (bc_date ctx) "date") as [dt|]; [| exact H].
  destruct (db_flights d o dst dt) as [[|f fs]|]; try exact H.
  simpl. apply no_payment_insert; [exact H | discriminate].
Qed.

Lemma book_no_payment d now query session_id customer_id (st : ctx_store) :
  no_payment st ->
  no_payment (book d now query session_id customer_id st).2 /\
  forall commit,
    book (with_commit d commit) now query session_id customer_id st
    = book d now query session_id customer_id st.
Proof.
  intros Hst. unfold book_flight_tool.
  destruct customer_id as [customer|]; [| now split].
  set (sid := session_key session_id).
  assert (Hctx : bc_stage (default (fresh_ctx Collect) (st !! sid)) <> Payment).
  { destruct (st !! sid) as [c|] eqn:E; simpl; [eapply Hst, E | discriminate]. }
  set (ctx := default (fresh_ctx Collect) (st !! sid)) in *.
  destruct (bc_stage ctx) eqn:Hs.
  - destruct (book_merge now (lower query) ctx) as [c|e] eqn:Hm; [| now split].
    assert (Hc : bc_stage c <> Payment).
    { destruct (book_merge_frame _ _ _ _ Hm) as [-> _]. now rewrite Hs. }
    pose proof (no_payment_insert st sid c Hst Hc) as Hi.
    repeat match goal with
           | |- context [if ?b then _ else _] => destruct b
           end; try (now split).
    split; [now apply collect_query_no_payment | reflexivity].
  - destruct (choose_index (lower query)) as [idx|]; [| now split].
    destruct (index_rejected idx ctx); [now split |].
    destruct (getitem (bc_options ctx) "options") as [options|]; [| now split].
    destruct (index_list options (idx - 1)) as [choice|]; [| now split].
    simpl. split; [| reflexivity].
    apply no_payment_insert; [exact Hst | discriminate].
  - rewrite seat_pattern_never_matches. now split.
  - congruence.
  - simpl. split; [| reflexivity].
    apply no_payment_insert; [exact Hst | discriminate].
Qed.

Lemma book_turns_unfold session_id (t : turn Price) rest (st : ctx_store) :
  book_turns fmt_price py_hash session_id (t :: rest) st
  = let r := book (t_db t) (t_now t) (t_query t) session_id
                  (Some (t_customer t)) st in
    let rs := book_turns fmt_price py_hash session_id rest r.2 in
    (r.1 :: rs.1, rs.2).
Proof.
  simpl.
  destruct (book (t_db t) (t_now t) (t_query t) session_id
              (Some (t_customer t)) st) as [r st1]. simpl.
  now destruct (book_turns fmt_price py_hash session_id rest st1).
Qed.

(** X6. From a store in which no context is in the payment
    stage (the empty store of start-up is one), no sequence of turns of
    [book_flight_tool] brings a context to the payment stage, and the
    replies and the store after the turns are the same whatever the commit
    of the collaborator would do: the flow never books. *)
Theorem booking_never_commits (session_id : option string)
    (turns : list (turn Price)) (st : ctx_store) :
  no_payment st ->
  no_payment (book_turns fmt_price py_hash session_id turns st).2 /\
  forall commit,
    book_turns fmt_price py_hash session_id
      (map (turn_with_commit commit) turns) st
    = book_turns fmt_price py_hash session_id turns st.
Proof.
  revert st. induction turns as [|t rest IH]; intros st Hst.
  - simpl. now split.
  - destruct (book_no_payment (t_db t) (t_now t) (t_query t) session_id
                (Some (t_customer t)) st Hst) as [Hnp Heq].
    destruct (IH _ Hnp) as [IH1 IH2].
    split.
    + rewrite book_turns_unfold. exact IH1.
    + intros commit. rewrite map_cons, !book_turns_unfold.
      unfold turn_with_commit at 1 2. cbn [t_db t_now t_query t_customer].
      rewrite Heq. cbn zeta. now rewrite IH2.
Qed.

(** *** The chosen flight is an offered one *)

Lemma store_snapshot_insert (st : ctx_store) k c :
  store_snapshot st -> ctx_snapshot c -> store_snapshot (<[k := c]> st).
Proof.
  intros Hst Hc k' c' H. destruct (decide (k = k')) as [<-|Hne].
  - rewrite lookup_insert_eq in H. now injection H as <-.
  - rewrite lookup_insert_ne in H by exact Hne. eapply Hst, H.
Qed.

Lemma store_snapshot_delete (st : ctx_store) k :
  store_snapshot st -> store_snapshot (delete k st).
Proof.
  intros Hst k' c' H. apply lookup_delete_Some in H as [_ H]. eapply Hst, H.
Qed.

Lemma collect_query_snapshot d sid (ctx : booking_ctx Price)
    (stored : ctx_store) :
  store_snapshot stored -> bc_chosen ctx = None ->
  store_snapshot (collect_query fmt_price d sid ctx stored).2.
Proof.
  intros H Hnone. unfold collect_query.
  destruct (db_connect d); [| exact H].
  destruct (getitem (bc_origin ctx) "origin") as [o|]; [| exact H].
  destruct (getitem (bc_destination ctx) "destination") as [dst|]; [| exact H].
  destruct (getitem (bc_date ctx) "date") as [dt|]; [| exact H].
  destruct (db_flights d o dst dt) as [[|f fs]|]; try exact H.
  simpl. apply store_snapshot_insert; [exact H |].
  split; simpl; [discriminate | intros ch Hch; congruence].
Qed.

Lemma payment_commit_snapshot d now sid customer (ctx : booking_ctx Price) pm
    (stored : ctx_store) :
  store_snapshot stored ->
  store_snapshot
    (payment_commit fmt_price py_hash d now sid customer ctx pm stored).2.
Proof.
  intros H. unfold payment_commit.
  destruct (db_connect d); [| exact H].
  destruct (bc_chosen ctx); [| exact H].
  destruct (getitem (bc_seat ctx) "seat"); [| exact H].
  destruct (db_commit d _ _ _ _ _ _ _); [| exact H].
  simpl. now apply store_snapshot_delete.
Qed.

(** X7. Every call of [book_flight_tool] keeps this
    invariant of [booking_contexts]: a context that is still collecting has
    no chosen flight, and the chosen flight of a context is one of the
    options stored in the same context (the snapshots offered to the user),
    so what is booked is an offered flight with the offered fare. *)
Theorem book_keeps_chosen_among_options d now query session_id customer_id
    (st : ctx_store) :
  store_snapshot st ->
  store_snapshot (book d now query session_id customer_id st).2.
Proof.
  intros Hst. unfold book_flight_tool.
  destruct customer_id as [customer|]; [| exact Hst].
  set (sid := session_key session_id).
  assert (Hctx : ctx_snapshot (default (fresh_ctx Collect) (st !! sid))).
  { destruct (st !! sid) as [c|] eqn:E; simpl; [eapply Hst, E |].
    split; [reflexivity | discriminate]. }
  set (ctx := default (fresh_ctx Collect) (st !! sid)) in *.
  destruct (bc_stage ctx) eqn:Hs.
  - destruct (book_merge now (lower query) ctx) as [c|e] eqn:Hm; [| exact Hst].
    destruct (book_merge_frame _ _ _ _ Hm) as (Hcs & Hco & Hcc & _).
    assert (Hnone : bc_chosen c = None).
    { rewrite Hcc. now apply (proj1 Hctx). }
    assert (Hc : ctx_snapshot c).
    { split; [intros _; exact Hnone | intros ch Hch; congruence]. }
    pose proof (store_snapshot_insert st sid c Hst Hc) as Hi.
    repeat match goal with
           | |- context [if ?b then _ else _] => destruct b
           end; try exact Hi.
    now apply collect_query_snapshot.
  - destruct (choose_index (lower query)) as [idx|]; [| exact Hst].
    destruct (index_rejected idx ctx); [exact Hst |].
    destruct (bc_options ctx) as [options|] eqn:Eo; simpl; [| exact Hst].
    unfold index_list.
    destruct (options !! (idx - 1)%nat) as [choice|] eqn:Ec; [| exact Hst].
    simpl. apply store_snapshot_insert; [exact Hst |].
    split; simpl; [discriminate |].
    intros ch [= <-]. exists options. split; [exact Eo |].
    apply list_elem_of_In. eapply list_elem_of_lookup_2, Ec.
  - destruct (search re_seat (lower query)) as [m|]; [| exact Hst].
    simpl. apply store_snapshot_insert; [exact Hst |].
    split; simpl; [discriminate | exact (proj2 Hctx)].
  - destruct (payment_method_of (lower query)) as [pm|]; [| exact Hst].
    destruct (String.eqb pm ""); [exact Hst |].
    apply payment_commit_snapshot, store_snapshot_insert; [exact Hst |].
    split; simpl; [rewrite Hs; discriminate | exact (proj2 Hctx)].
  - simpl. apply store_snapshot_insert; [exact Hst |].
    split; simpl; [discriminate | discriminate].
Qed.

(** *** No call raises *)

Lemma book_replies d now query session_id customer_id (st : ctx_store) :
  exists reply,
    (book_flight_tool fmt_price py_hash d now query session_id customer_id
       st).1 = Ok reply.
Proof.
  unfold book_flight_tool.
  destruct customer_id as [customer|]; [| eexists; reflexivity].
  set (sid := session_key session_id).
  set (ctx := default (fresh_ctx Collect) (st !! sid)).
  destruct (bc_stage ctx).
  - destruct (book_merge_keeps now (lower query) ctx) as (c & -> & _).
    repeat match goal with
           | |- context [if ?b then _ else _] => destruct b
           end; try (eexists; reflexivity).
    unfold collect_query.
    destruct (db_connect d); [| eexists; reflexivity].
    destruct (getitem (bc_origin c) "origin"); [| eexists; reflexivity].
    destruct (getitem (bc_destination c) "destination");
      [| eexists; reflexivity].
    destruct (getitem (bc_date c) "date"); [| eexists; reflexivity].
    destruct (db_flights d _ _ _) as [[|f fs]|]; eexists; reflexivity.
  - destruct (choose_index (lower query)) as [idx|]; [| eexists; reflexivity].
    destruct (index_rejected idx ctx) eqn:Hrej; [eexists; reflexivity |].
    unfold index_rejected in Hrej.
    apply orb_false_iff in Hrej as [Hrej Hlen].
    apply orb_false_iff in Hrej as [Hz _].
    apply Nat.eqb_neq in Hz. apply Nat.ltb_ge in Hlen.
    destruct (bc_options ctx) as [options|]; simpl in Hlen |- *; [| lia].
    unfold index_list.
    destruct (lookup_lt_is_Some_2 options (idx - 1)) as [choice ->]; [lia |].
    eexists; reflexivity.
  - destruct (search re_seat (lower query)); eexists; reflexivity.
  - destruct (payment_method_of (lower query)) as [pm|];
      [| eexists; reflexivity].
    destruct (String.eqb pm ""); [eexists; reflexivity |].
    unfold payment_commit.
    destruct (db_connect d); [| eexists; reflexivity].
    simpl. destruct (bc_chosen ctx); [| eexists; reflexivity].
    destruct (bc_seat ctx); simpl; [| eexists; reflexivity].
    destruct (db_commit d _ _ _ _ _ _ _); eexists; reflexivity.
  - eexists; reflexivity.
Qed.

(** X8. [book_flight_tool] returns a reply for every utterance, session,
    caller, collaborator and store, and so does every turn of a
    conversation: the steps of it that can raise (the extractor of the
    collect stage, the lookup of the options and of the chosen index in the
    choose stage) never do. *)
Theorem book_flight_tool_never_raises :
  (forall d now query session_id customer_id (st : ctx_store),
     exists reply,
       (book_flight_tool fmt_price py_hash d now query session_id customer_id
          st).1 = Ok reply) /\
  (forall session_id turns (st : ctx_store),
     Forall (fun r => exists reply, r = Ok reply)
            (book_turns fmt_price py_hash session_id turns st).1).
Proof.
  split; [exact book_replies |].
  intros session_id turns. induction turns as [|t rest IH]; intros st.
  - constructor.
  - rewrite book_turns_unfold. cbn zeta. simpl. constructor.
    + apply book_replies.
    + apply IH.
Qed.


End MoreFlowProperties.

Lemma sessions_are_isolated_witness :
  (search_flights_tool rupees (db_up [flight_ai101]) today0
     "from Delhi to Mumbai on 2025-12-20" (Some "s1")
     (<["s2" := SearchCtx (Some "pune") None None]> ∅)).2 !! "s2"
  = Some (SearchCtx (Some "pune") None None) /\
  (book_flight_tool rupees length_hash (db_up []) today0 "book first"
     (Some "s1") (Some 1%Z)
     (<["s1" := ctx_choose]> (<["s2" := ctx_seat]> ∅))).2 !! "s2"
  = Some ctx_seat.
Proof.
  assert (Hne : "s2" <> session_key (Some "s1")) by discriminate.
  destruct (sessions_are_isolated rupees length_hash (Some "s1") "s2" Hne)
    as (Hs & Hb & _).
  split.
  - rewrite Hs. apply lookup_insert_eq.
  - rewrite Hb, lookup_insert_ne by discriminate. apply lookup_insert_eq.
Defined.

Lemma waiting_slot_takes_extracted_destination_witness :
  exists ctx',
    search_merge today0 "from Delhi to Pune" (SearchCtx None (Some "mumbai") None)
    = Ok ctx' /\
    sc_origin ctx' = Some "pune" /\ sc_destination ctx' = Some "mumbai".
Proof.
  apply (proj1 (waiting_slot_takes_extracted_destination today0
                  "from Delhi to Pune" (SearchCtx None (Some "mumbai") None)
                  (CityPair (Some "delhi") (Some "pune"))
                  ltac:(vm_compute; reflexivity) eq_refl));
    reflexivity.
Defined.

Lemma booking_never_commits_witness :
  no_payment (book_turns rupees length_hash (Some "s1") four_turns ∅).2 /\
  forall commit,
    book_turns rupees length_hash (Some "s1")
      (map (turn_with_commit commit) four_turns) ∅
    = book_turns rupees length_hash (Some "s1") four_turns ∅.
Proof.
  apply (booking_never_commits rupees length_hash).
  intros k c H. rewrite lookup_empty in H. discriminate.
Defined.

Lemma book_keeps_chosen_among_options_witness :
  store_snapshot
    (book_flight_tool rupees length_hash (db_up []) today0 "book second"
       (Some "s1") (Some 1%Z) (<["s1" := ctx_choose]> ∅)).2.
Proof.
  apply (book_keeps_chosen_among_options rupees length_hash).
  intros k c H. apply lookup_insert_Some in H as [[_ <-]|[_ H]].
  - split; simpl; [discriminate | discriminate].
  - rewrite lookup_empty in H. discriminate.
Defined.

(** ** The keyword rules and the router without a client *)

Lemma any_in_cons w l txt :
  any_in (w :: l) txt = str_in w txt || any_in l txt.
Proof. reflexivity. Qed.

Lemma any_in_nil txt : any_in [] txt = false.
Proof. reflexivity. Qed.

(** A word list whose every entry holds the word [w]. *)
Lemma any_in_holds w l txt :
  forallb (str_in w) l = true -> any_in l txt = true -> str_in w txt = true.
Proof.
  induction l as [|x l IH]; [discriminate |].
  rewrite any_in_cons. simpl. intros Hall Hany.
  apply andb_true_iff in Hall as [Hx Hl].
  apply orb_true_iff in Hany as [Hany|Hany].
  - eapply str_in_longer; eassumption.
  - now apply IH.
Qed.

(** A text with one of the words of [l1] has one of [l2], when every word of
    [l1] holds a word of [l2]. *)
Lemma any_in_covered l1 l2 txt :
  forallb (fun w => any_in l2 w) l1 = true ->
  any_in l1 txt = true -> any_in l2 txt = true.
Proof.
  induction l1 as [|x l1 IH]; [discriminate |].
  rewrite any_in_cons. simpl. intros Hall Hany.
  apply andb_true_iff in Hall as [Hx Hl].
  apply orb_true_iff in Hany as [Hany|Hany]; [| now apply IH].
  unfold any_in in Hx |- *. apply existsb_exists in Hx as (w & Hw & Hwx).
  apply existsb_exists. exists w. split; [exact Hw |].
  eapply str_in_longer; eassumption.
Qed.

Lemma status_phrases_hold_book txt :
  any_in fallback_status_phrases txt = true ->
  any_in fallback_booking_words txt = true.
Proof.
  intros H. unfold fallback_booking_words. rewrite any_in_cons.
  rewrite (any_in_holds "book" fallback_status_phrases txt); auto.
Qed.

(** X9. The keyword rules never answer "check_booking":
    each of its four phrases holds the word "book", which the booking rule
    reads first.  The rules answer one of the seven other names; and for a
    text with the word "book" only a greeting, the search or the booking
    flow is left, whatever else the text asks for (a status, a cancellation,
    "my bookings", a complaint). *)
Theorem fallback_rules_never_check_booking (inp : string) :
  In (fallback_rules inp)
     [ "none"; "search_flights"; "book_flight"; "manage_booking";
       "customer_info"; "complaint"; "rag" ] /\
  (str_in "book" (lower inp) = true ->
   In (fallback_rules inp) [ "none"; "search_flights"; "book_flight" ]).
Proof.
  unfold fallback_rules.
  pose proof (status_phrases_hold_book (lower inp)) as Hst.
  assert (Hbk : str_in "book" (lower inp) = true ->
                any_in fallback_booking_words (lower inp) = true).
  { intros H. unfold fallback_booking_words. now rewrite any_in_cons, H. }
  destruct (any_in greetings (lower inp)); [simpl; auto |].
  destruct (any_in fallback_search_triggers (lower inp)
            && any_in fallback_route_words (lower inp)); [simpl; auto |].
  destruct (any_in fallback_booking_words (lower inp)); [simpl; auto |].
  split; [| intros H; specialize (Hbk H); discriminate].
  destruct (any_in fallback_status_phrases (lower inp));
    [specialize (Hst eq_refl); discriminate |].
  destruct (any_in fallback_manage_words (lower inp)); [simpl; auto 10 |].
  destruct (any_in fallback_profile_phrases (lower inp)); [simpl; auto 10 |].
  destruct (any_in fallback_complaint_words (lower inp)); simpl; auto 10.
Qed.

(** X10. The greeting rule looks for "hi" and "hey"
    anywhere in the text, not for words: a text in which some word holds a
    greeting (as "this", "which", "child", "they" and "delhi" do)
    is answered "none", whatever else it says. *)
Theorem fallback_rules_greets_inside_words (inp word : string) :
  any_in greetings word = true ->
  str_in word (lower inp) = true ->
  fallback_rules inp = "none".
Proof.
  intros Hw Hin. unfold fallback_rules.
  assert (any_in greetings (lower inp) = true) as ->; [| reflexivity].
  unfold any_in in Hw |- *. apply existsb_exists in Hw as (g & Hg & Hgw).
  apply existsb_exists. exists g. split; [exact Hg |].
  eapply str_in_longer; eassumption.
Qed.

Lemma fallback_rules_greets_inside_words_witness :
  any_in greetings "this" = true /\
  str_in "this" (lower "What is the baggage allowance on this flight?") = true /\
  fallback_rules "What is the baggage allowance on this flight?" = "none" /\
  fallback_rules "Can my child travel alone?" = "none" /\
  fallback_rules "flights to Delhi" = "none".
Proof.
  split; [reflexivity |]. split; [vm_compute; reflexivity |].
  split; [| split].
  - apply (fallback_rules_greets_inside_words _ "this"); vm_compute; reflexivity.
  - apply (fallback_rules_greets_inside_words _ "child"); vm_compute; reflexivity.
  - apply (fallback_rules_greets_inside_words _ "delhi"); vm_compute;
      reflexivity.
Defined.

Lemma forced_tool_cases (user_input : string) :
  let u := lower user_input in
  forced_tool user_input =
    if any_in detail_keywords u then Some "flight_details"
    else if any_in booking_info_keywords u then Some "check_booking"
    else if any_in profile_keywords u then Some "customer_info"
    else if has_route u then Some "search_flights"
    else if has_city u then
      if any_in booking_words u && negb (has_search_intent u)
      then Some "book_flight" else Some "search_flights"
    else None.
Proof.
  intros u. unfold forced_tool. fold u. rewrite booking_phrases_words.
  destruct (any_in detail_keywords u), (any_in booking_info_keywords u),
    (any_in profile_keywords u), (has_city u), (has_route u),
    (has_search_intent u), (any_in booking_words u); reflexivity.
Qed.

Lemma booking_words_fallback txt :
  any_in booking_words txt = true -> any_in fallback_booking_words txt = true.
Proof. apply any_in_covered. vm_compute. reflexivity. Qed.

(** X11. Without a client, an utterance that names a known city
    or city code never reaches the keyword rules: one of the override rules
    of [tool_picker] decides it, and it goes to the search flow unless it
    asks for flight details, a booking status or the profile, or has a
    booking word and no search wording and no route shape. *)
Theorem city_is_decided_by_override (user_input : string) :
  has_city (lower user_input) = true ->
  In (forced_tool user_input)
     [ Some "flight_details"; Some "check_booking"; Some "customer_info";
       Some "search_flights"; Some "book_flight" ] /\
  picked_tool user_input <> "none" /\
  (no_earlier_rule user_input = true ->
   any_in booking_words (lower user_input) = false ->
   picked_tool user_input = "search_flights").
Proof.
  intros Hc. unfold picked_tool, no_earlier_rule.
  rewrite forced_tool_cases. cbv zeta. rewrite Hc.
  destruct (any_in detail_keywords (lower user_input)),
    (any_in booking_info_keywords (lower user_input)),
    (any_in profile_keywords (lower user_input)),
    (has_route (lower user_input)),
    (any_in booking_words (lower user_input)),
    (has_search_intent (lower user_input)); simpl;
    (split; [auto 10 | split; [discriminate | intros; congruence]]).
Qed.

Lemma city_is_decided_by_override_witness :
  has_city (lower "Delhi") = true /\
  forced_tool "Delhi" = Some "search_flights" /\
  picked_tool "Delhi" = "search_flights" /\
  fallback_rules "Delhi" = "none".
Proof.
  split; [vm_compute; reflexivity |].
  pose proof (city_is_decided_by_override "Delhi" eq_refl) as (_ & _ & H).
  split; [vm_compute; reflexivity |].
  split; [apply H; vm_compute; reflexivity | vm_compute; reflexivity].
Defined.

(** X12. Without a client, an utterance is handed to
    [book_flight_tool] only if it holds a booking word ("book", "reserve",
    "purchase", "buy ticket"): the answers the booking flow asks for (a
    city, a date, "first", a seat such as "12A", "upi") do not come back to
    it unless they hold such a word. *)
Theorem booking_flow_needs_booking_word (user_input : string) :
  picked_tool user_input = "book_flight" ->
  any_in fallback_booking_words (lower user_input) = true.
Proof.
  unfold picked_tool. rewrite forced_tool_cases. cbv zeta.
  destruct (any_in detail_keywords (lower user_input)); [discriminate |].
  destruct (any_in booking_info_keywords (lower user_input)); [discriminate |].
  destruct (any_in profile_keywords (lower user_input)); [discriminate |].
  destruct (has_route (lower user_input)); [discriminate |].
  destruct (has_city (lower user_input)).
  - destruct (any_in booking_words (lower user_input)) eqn:Hb;
      [| discriminate].
    intros _. now apply booking_words_fallback.
  - unfold fallback_rules.
    repeat match goal with
           | |- context [if ?b then _ else _] =>
               destruct b eqn:?; try discriminate
           end.
    reflexivity.
Qed.

Lemma booking_flow_needs_booking_word_witness :
  picked_tool "book pune" = "book_flight" /\
  any_in fallback_booking_words (lower "book pune") = true /\
  picked_tool "12A" = "rag" /\ picked_tool "upi" = "rag" /\
  picked_tool "first" = "rag" /\ picked_tool "tomorrow" = "rag".
Proof.
  split; [vm_compute; reflexivity |].
  split; [apply booking_flow_needs_booking_word; vm_compute; reflexivity |].
  repeat split; vm_compute; reflexivity.
Defined.

(** ** Policy answers *)

Lemma rag_words_seat_eat txt :
  str_in "seat" txt = true -> any_in rag_meals_words txt = true.
Proof.
  intros H. apply (any_in_covered ["seat"]); [vm_compute; reflexivity |].
  now rewrite any_in_cons, H.
Qed.

Ltac other_text H := exfalso; vm_compute in H; discriminate H.

(** X13. Two of the keywords of [rag_tool] never select their
    own answer.  A question with "check-in" gets the baggage policy, since
    the baggage list holds "check-in" too and is read first; a question with
    "seat" gets the baggage, check-in, cancellation or meal answer, since
    "seat" holds "eat" of the meal list.  So the check-in answer is given
    only for "checkin", "web check", "online check" or "airport check", and
    the seat answer only for a text without "seat" that has "window",
    "aisle", "legroom" or "extra leg". *)
Theorem rag_tool_shadowed_keywords (query : string) :
  (str_in "check-in" (lower query) = true -> rag_tool query = rag_baggage) /\
  (str_in "seat" (lower query) = true ->
   In (rag_tool query)
      [ rag_baggage; rag_checkin; rag_cancellation; rag_meals ]) /\
  (rag_tool query = rag_checkin ->
   str_in "check-in" (lower query) = false /\
   any_in [ "checkin"; "web check"; "online check"; "airport check" ]
          (lower query) = true) /\
  (rag_tool query = rag_seats ->
   str_in "seat" (lower query) = false /\
   any_in [ "window"; "aisle"; "legroom"; "extra leg" ] (lower query) = true).
Proof.
  unfold rag_tool. cbv zeta.
  repeat match goal with |- _ /\ _ => split end.
  - intros H.
    assert (any_in rag_baggage_words (lower query) = true) as ->;
      [| reflexivity].
    apply (any_in_covered ["check-in"]); [vm_compute; reflexivity |].
    now rewrite any_in_cons, H.
  - intros H. apply rag_words_seat_eat in H.
    destruct (any_in rag_baggage_words (lower query)); [simpl; auto |].
    destruct (any_in rag_checkin_words (lower query)); [simpl; auto |].
    destruct (any_in rag_cancellation_words (lower query)); [simpl; auto |].
    rewrite H. simpl; auto.
  - destruct (any_in rag_baggage_words (lower query)) eqn:Eb;
      [intros H; other_text H |].
    destruct (any_in rag_checkin_words (lower query)) eqn:Ec.
    + intros _. unfold rag_baggage_words in Eb.
      unfold rag_checkin_words in Ec. rewrite !any_in_cons in Eb, Ec.
      rewrite !any_in_cons.
      destruct (str_in "check-in" (lower query)).
      * rewrite !orb_true_r in Eb. discriminate.
      * split; [reflexivity | exact Ec].
    + repeat match goal with
             | |- context [if ?b then _ else _] => destruct b
             end; intros H; other_text H.
  - destruct (any_in rag_baggage_words (lower query));
      [intros H; other_text H |].
    destruct (any_in rag_checkin_words (lower query));
      [intros H; other_text H |].
    destruct (any_in rag_cancellation_words (lower query));
      [intros H; other_text H |].
    destruct (any_in rag_meals_words (lower query)) eqn:Em;
      [intros H; other_text H |].
    destruct (any_in rag_seats_words (lower query)) eqn:Es.
    + intros _. unfold rag_seats_words in Es. rewrite any_in_cons in Es.
      destruct (str_in "seat" (lower query)) eqn:Eseat.
      * apply rag_words_seat_eat in Eseat. congruence.
      * split; [reflexivity | exact Es].
    + repeat match goal with
             | |- context [if ?b then _ else _] => destruct b
             end; intros H; other_text H.
Qed.

(** ** The document store *)

Section FaissProperties.

Context {Vec Index : Type}.
Variable embed : list string -> result (list Vec).
Variable index_add : Index -> list Vec -> Index * result unit.
Variable index_search : Index -> list Vec -> nat -> result (list Z).

Local Abbreviation fv_add := (FaissVectorDB.add embed index_add).
Local Abbreviation fv_search := (FaissVectorDB.search embed index_search).

Lemma index_int_In {A} (l : list A) i x : index_int l i = Ok x -> In x l.
Proof.
  unfold index_int, index_list. intros H.
  apply list_elem_of_In.
  destruct (0 <=? i)%Z.
  - destruct (l !! Z.to_nat i) eqn:E; [| discriminate].
    injection H as <-. eapply list_elem_of_lookup_2, E.
  - destruct (- Z.of_nat (length l) <=? i)%Z; [| discriminate].
    destruct (l !! Z.to_nat (Z.of_nat (length l) + i)) eqn:E; [| discriminate].
    injection H as <-. eapply list_elem_of_lookup_2, E.
Qed.

Lemma results_In all labels found :
  FaissVectorDB.results all labels = Ok found ->
  Forall (fun d => In d all) found.
Proof.
  revert found. induction labels as [|i rest IH]; simpl; intros found H.
  - injection H as <-. constructor.
  - destruct (i <? Z.of_nat (length all))%Z; [| now apply IH].
    destruct (index_int all i) as [d|] eqn:Ed; [| discriminate].
    destruct (FaissVectorDB.results all rest) as [r|]; [| discriminate].
    injection H as <-. constructor; [eapply index_int_In, Ed | now apply IH].
Qed.

Lemma matches_spec (db : FaissVectorDB.t Index) query k :
  let found := FaissVectorDB.matches db query k in
  (length found <= k)%nat /\
  Forall (fun d => In d (FaissVectorDB.docs db) /\
                   str_in (lower query) (lower d) = true) found /\
  sublist found (FaissVectorDB.docs db).
Proof.
  unfold FaissVectorDB.matches. cbv zeta. split; [| split].
  - rewrite length_take. lia.
  - apply Forall_forall. intros d Hd.
    apply elem_of_take in Hd as (i & Hi & _).
    apply list_elem_of_lookup_2 in Hi. apply list_elem_of_In in Hi.
    apply filter_In in Hi. exact Hi.
  - etransitivity; [apply sublist_take |].
    induction (FaissVectorDB.docs db) as [|d l IH]; simpl; [constructor |].
    destruct (str_in (lower query) (lower d)); now constructor.
Qed.

(** X14. Whatever the embedder and the index do, [search]
    returns stored documents only; and when there is no index, or the
    embedder or the index raise, it returns the first [k] stored documents
    that hold the query (case ignored), in the order they were added. *)
Theorem search_returns_stored_documents (db : FaissVectorDB.t Index)
    (query : string) (k : nat) :
  Forall (fun d => In d (FaissVectorDB.docs db)) (fv_search db query k) /\
  (FaissVectorDB.index db = None \/
   (exists e, embed [query] = Raise e) \/
   (exists ix qvec e, FaissVectorDB.index db = Some ix /\
      embed [query] = Ok qvec /\ index_search ix qvec k = Raise e) ->
   let found := fv_search db query k in
   found = take k (List.filter (fun d => str_in (lower query) (lower d))
                               (FaissVectorDB.docs db)) /\
   (length found <= k)%nat /\
   Forall (fun d => str_in (lower query) (lower d) = true) found /\
   sublist found (FaissVectorDB.docs db)).
Proof.
  destruct (matches_spec db query k) as (Hlen & Hall & Hsub).
  assert (Hin : Forall (fun d => In d (FaissVectorDB.docs db))
                  (FaissVectorDB.matches db query k)).
  { eapply Forall_impl; [exact Hall | now intros d [H _]]. }
  assert (Hhold : Forall (fun d => str_in (lower query) (lower d) = true)
                    (FaissVectorDB.matches db query k)).
  { eapply Forall_impl; [exact Hall | now intros d [_ H]]. }
  assert (Hnil : FaissVectorDB.docs db = [] ->
                 FaissVectorDB.matches db query k = []).
  { intros E. unfold FaissVectorDB.matches. rewrite E. simpl.
    now destruct k. }
  split.
  - unfold FaissVectorDB.search.
    destruct (FaissVectorDB.docs db) as [|d0 l] eqn:Ed; [constructor |].
    rewrite <- Ed in *.
    destruct (embed [query]) as [qvec|]; [| exact Hin].
    destruct (FaissVectorDB.index db) as [ix|]; [| exact Hin].
    destruct (index_search ix qvec k) as [labels|]; [| exact Hin].
    destruct (FaissVectorDB.results _ labels) as [found|] eqn:Er;
      [| exact Hin].
    eapply results_In, Er.
  - intros Hcase. cbv zeta.
    assert (Hm : fv_search db query k = FaissVectorDB.matches db query k).
    { unfold FaissVectorDB.search.
      destruct (FaissVectorDB.docs db) as [|d0 l] eqn:Ed;
        [now rewrite Hnil |].
      destruct Hcase as [Hi | [[e He] | (ix & qvec & e & Hi & He & Hs)]].
      - rewrite Hi. now destruct (embed [query]).
      - now rewrite He.
      - now rewrite He, Hi, Hs. }
    rewrite Hm. repeat split; assumption.
Qed.

Lemma results_app all l1 l2 f1 f2 :
  FaissVectorDB.results all l1 = Ok f1 ->
  FaissVectorDB.results all l2 = Ok f2 ->
  FaissVectorDB.results all (l1 ++ l2)%list = Ok (f1 ++ f2)%list.
Proof.
  revert f1. induction l1 as [|i rest IH]; simpl; intros f1 H1 H2.
  - injection H1 as <-. exact H2.
  - destruct (i <? Z.of_nat (length all))%Z; [| now apply IH].
    destruct (index_int all i) as [d|]; [| discriminate].
    destruct (FaissVectorDB.results all rest) as [r|]; [| discriminate].
    injection H1 as <-. now rewrite (IH r eq_refl H2).
Qed.

Lemma results_hits all hits :
  Forall (fun i => (0 <= i < Z.of_nat (length all))%Z) hits ->
  exists found,
    FaissVectorDB.results all hits = Ok found /\
    Forall2 (fun i d => all !! Z.to_nat i = Some d) hits found.
Proof.
  induction 1 as [|i rest Hi _ IH]; simpl.
  - exists []. split; [reflexivity | constructor].
  - destruct IH as (found & -> & Hf).
    destruct (Z.ltb_spec i (Z.of_nat (length all))) as [_|]; [| lia].
    unfold index_int. destruct (Z.leb_spec 0 i) as [_|]; [| lia].
    unfold index_list.
    destruct (lookup_lt_is_Some_2 all (Z.to_nat i)) as [d Hd]; [lia |].
    rewrite Hd. exists (d :: found). split; [reflexivity |].
    now constructor.
Qed.

Lemma results_padding all m last_doc :
  last all = Some last_doc ->
  FaissVectorDB.results all (replicate m (-1)%Z) = Ok (replicate m last_doc).
Proof.
  intros Hlast. induction m as [|m IH]; simpl; [reflexivity |].
  assert (Hlen : (0 < length all)%nat).
  { destruct all; [discriminate | simpl; lia]. }
  destruct (Z.ltb_spec (-1) (Z.of_nat (length all))) as [_|]; [| lia].
  unfold index_int. simpl (0 <=? -1)%Z. cbv iota.
  destruct (Z.leb_spec (- Z.of_nat (length all)) (-1)) as [_|]; [| lia].
  unfold index_list.
  replace (Z.to_nat (Z.of_nat (length all) + -1)) with (pred (length all))
    by lia.
  rewrite <- last_lookup, Hlast, IH. reflexivity.
Qed.

(** X15. A label -1, which the index gives in the place of a
    neighbour it does not have, passes the test [i < len(self.docs)] and is
    read as [self.docs[-1]]: when the index answers with valid labels
    followed by [m] labels -1, [search] returns the documents of the valid
    labels followed by [m] copies of the last stored document. *)
Theorem search_reads_padding_as_last_document (db : FaissVectorDB.t Index)
    (query : string) (k : nat) ix qvec hits m last_doc :
  FaissVectorDB.index db = Some ix ->
  embed [query] = Ok qvec ->
  index_search ix qvec k = Ok (hits ++ replicate m (-1)%Z)%list ->
  Forall (fun i => (0 <= i < Z.of_nat (length (FaissVectorDB.docs db)))%Z)
         hits ->
  last (FaissVectorDB.docs db) = Some last_doc ->
  exists found,
    Forall2 (fun i d => FaissVectorDB.docs db !! Z.to_nat i = Some d)
            hits found /\
    fv_search db query k = (found ++ replicate m last_doc)%list.
Proof.
  intros Hi He Hs Hhits Hlast.
  destruct (results_hits _ _ Hhits) as (found & Hr & Hf).
  exists found. split; [exact Hf |].
  unfold FaissVectorDB.search.
  destruct (FaissVectorDB.docs db) as [|d0 l] eqn:Ed; [discriminate |].
  rewrite <- Ed in *. rewrite He, Hi, Hs.
  now rewrite (results_app _ _ _ _ _ Hr (results_padding _ m _ Hlast)).
Qed.

(** X16. [add] appends the documents in order when it returns, and stores
    none when it raises or is given none: it raises, with the documents as
    they were, exactly when the embedder or the index raises on a list that
    is not empty.  And, without an index, a document added is found again by
    every query that is a piece of it (case ignored) as long as [k] is not
    below the number of stored documents. *)
Theorem add_then_search_finds (db : FaissVectorDB.t Index)
    (new_docs : list string) :
  let after := (fv_add db new_docs).1 in
  (FaissVectorDB.docs after = (FaissVectorDB.docs db ++ new_docs)%list \/
   FaissVectorDB.docs after = FaissVectorDB.docs db /\
   (new_docs = [] \/ exists e, (fv_add db new_docs).2 = Raise e)) /\
  ((fv_add db new_docs).2 = Ok tt ->
   FaissVectorDB.docs after = (FaissVectorDB.docs db ++ new_docs)%list) /\
  (forall d query k,
     (fv_add db new_docs).2 = Ok tt ->
     FaissVectorDB.index db = None ->
     In d new_docs ->
     str_in (lower query) (lower d) = true ->
     (length (FaissVectorDB.docs db ++ new_docs)%list <= k)%nat ->
     In d (fv_search after query k)) /\
  (forall e, (fv_add db new_docs).2 = Raise e ->
     FaissVectorDB.docs after = FaissVectorDB.docs db) /\
  (new_docs = [] -> fv_add db new_docs = (db, Ok tt)) /\
  (forall e, new_docs <> [] -> embed new_docs = Raise e ->
     fv_add db new_docs = (db, Raise e)) /\
  (forall ix vecs ix' e, new_docs <> [] ->
     embed new_docs = Ok vecs -> FaissVectorDB.index db = Some ix ->
     index_add ix vecs = (ix', Raise e) ->
     fv_add db new_docs
     = (FaissVectorDB.Make (Some ix') (FaissVectorDB.docs db), Raise e)) /\
  (forall vecs, new_docs <> [] -> embed new_docs = Ok vecs ->
     (FaissVectorDB.index db = None \/
      exists ix ix', FaissVectorDB.index db = Some ix /\
                     index_add ix vecs = (ix', Ok tt)) ->
     (fv_add db new_docs).2 = Ok tt).
Proof.
  cbv zeta.
  assert (Hraise : forall e, (fv_add db new_docs).2 = Raise e ->
            FaissVectorDB.docs (fv_add db new_docs).1 = FaissVectorDB.docs db).
  { intros e. unfold FaissVectorDB.add.
    destruct new_docs as [|d0 l]; [reflexivity |].
    destruct (embed (d0 :: l)); [| reflexivity].
    destruct (FaissVectorDB.index db) as [ix|]; [| discriminate].
    destruct (index_add ix a) as [ix' [u|e']]; [discriminate | reflexivity]. }
  assert (Hnil : new_docs = [] -> fv_add db new_docs = (db, Ok tt))
    by now intros ->.
  assert (Hembed : forall e, new_docs <> [] -> embed new_docs = Raise e ->
            fv_add db new_docs = (db, Raise e)).
  { intros e Hne He. unfold FaissVectorDB.add.
    destruct new_docs as [|d0 l]; [now elim Hne |]. now rewrite He. }
  assert (Hindex : forall ix vecs ix' e, new_docs <> [] ->
            embed new_docs = Ok vecs -> FaissVectorDB.index db = Some ix ->
            index_add ix vecs = (ix', Raise e) ->
            fv_add db new_docs
            = (FaissVectorDB.Make (Some ix') (FaissVectorDB.docs db), Raise e)).
  { intros ix vecs ix' e Hne He Hi Ha. unfold FaissVectorDB.add.
    destruct new_docs as [|d0 l]; [now elim Hne |]. now rewrite He, Hi, Ha. }
  assert (Hgood : forall vecs, new_docs <> [] -> embed new_docs = Ok vecs ->
            (FaissVectorDB.index db = None \/
             exists ix ix', FaissVectorDB.index db = Some ix /\
                            index_add ix vecs = (ix', Ok tt)) ->
            (fv_add db new_docs).2 = Ok tt).
  { intros vecs Hne He Hcase. unfold FaissVectorDB.add.
    destruct new_docs as [|d0 l]; [now elim Hne |]. rewrite He.
    destruct Hcase as [Hi | (ix & ix' & Hi & Ha)];
      [now rewrite Hi | now rewrite Hi, Ha]. }
  cut ((FaissVectorDB.docs (fv_add db new_docs).1
        = (FaissVectorDB.docs db ++ new_docs)%list \/
        FaissVectorDB.docs (fv_add db new_docs).1 = FaissVectorDB.docs db /\
        (new_docs = [] \/ exists e, (fv_add db new_docs).2 = Raise e)) /\
       ((fv_add db new_docs).2 = Ok tt ->
        FaissVectorDB.docs (fv_add db new_docs).1
        = (FaissVectorDB.docs db ++ new_docs)%list) /\
       (forall d query k,
          (fv_add db new_docs).2 = Ok tt ->
          FaissVectorDB.index db = None ->
          In d new_docs ->
          str_in (lower query) (lower d) = true ->
          (length (FaissVectorDB.docs db ++ new_docs)%list <= k)%nat ->
          In d (fv_search (fv_add db new_docs).1 query k))).
  { intros (H1 & H2 & H3).
    repeat match goal with |- _ /\ _ => split end; assumption. }
  clear Hraise Hnil Hembed Hindex Hgood.
  assert (Hok : (fv_add db new_docs).2 = Ok tt ->
            FaissVectorDB.docs (fv_add db new_docs).1
            = (FaissVectorDB.docs db ++ new_docs)%list).
  { unfold FaissVectorDB.add.
    destruct new_docs as [|d0 l]; [now rewrite app_nil_r |].
    destruct (embed (d0 :: l)); [| discriminate].
    destruct (FaissVectorDB.index db) as [ix|]; [| reflexivity].
    destruct (index_add ix a) as [ix' [u|e]]; [reflexivity | discriminate]. }
  split; [| split; [exact Hok |]].
  - unfold FaissVectorDB.add.
    destruct new_docs as [|d0 l]; [right; auto |].
    destruct (embed (d0 :: l)); [| right; split; eauto].
    destruct (FaissVectorDB.index db) as [ix|]; [| left; reflexivity].
    destruct (index_add ix a) as [ix' [u|e]];
      [left; reflexivity | right; split; eauto].
  - intros d query k Hadd Hnone Hd Hq Hk.
    specialize (Hok Hadd).
    assert (Hidx : FaissVectorDB.index (fv_add db new_docs).1 = None).
    { revert Hadd. unfold FaissVectorDB.add.
      destruct new_docs as [|d0 l]; [intros _; exact Hnone |].
      destruct (embed (d0 :: l)); [| discriminate].
      now rewrite Hnone. }
    assert (Hm : fv_search (fv_add db new_docs).1 query k
                 = FaissVectorDB.matches (fv_add db new_docs).1 query k).
    { unfold FaissVectorDB.search. rewrite Hidx, Hok.
      destruct (FaissVectorDB.docs db ++ new_docs)%list eqn:E.
      - destruct new_docs; [destruct Hd |].
        now destruct (FaissVectorDB.docs db).
      - now destruct (embed [query]). }
    rewrite Hm. unfold FaissVectorDB.matches. rewrite Hok.
    rewrite take_ge.
    + apply filter_In. split; [| exact Hq]. apply in_app_iff. now right.
    + etransitivity; [| exact Hk].
      clear. induction (FaissVectorDB.docs db ++ new_docs)%list as [|x l IH];
        simpl; [lia |].
      destruct (str_in (lower query) (lower x)); simpl; lia.
Qed.

End FaissProperties.

Lemma search_reads_padding_as_last_document_witness :
  exists found,
    Forall2 (fun i d => ["Baggage policy"; "Refund policy"] !! Z.to_nat i
                        = Some d) [0%Z] found /\
    FaissVectorDB.search (fun _ => Ok [tt]) (fun _ _ _ => Ok [0; -1; -1]%Z)
      (FaissVectorDB.Make (Some tt) ["Baggage policy"; "Refund policy"])
      "bag" 3
    = (found ++ replicate 2 "Refund policy")%list.
Proof.
  apply (search_reads_padding_as_last_document (fun _ => Ok [tt])
           (fun _ _ _ => Ok [0; -1; -1]%Z)
           (FaissVectorDB.Make (Some tt) ["Baggage policy"; "Refund policy"])
           "bag" 3 tt [tt] [0%Z] 2 "Refund policy");
    try reflexivity.
  repeat constructor; simpl; lia.
Defined.

(** ** Dates as written *)

Lemma digit_lower c : is_digit c = true -> lower_char c = c.
Proof.
  unfold lower_char, is_upper_letter, is_digit, between. intros H.
  apply andb_true_iff in H as [H1 H2].
  apply Nat.leb_le in H1, H2.
  destruct (65 <=? code c)%nat eqn:E; [| reflexivity].
  apply Nat.leb_le in E. lia.
Qed.

Lemma lower_char_not_digit c : not_digit c = true -> not_digit (lower_char c) = true.
Proof.
  unfold lower_char. destruct (is_upper_letter c) eqn:Eu; [| auto].
  intros _. unfold is_upper_letter, between in Eu.
  apply andb_true_iff in Eu as [H1 H2]. apply Nat.leb_le in H1, H2.
  unfold not_digit, is_digit, between, code.
  rewrite nat_ascii_embedding by (unfold code in *; lia).
  apply negb_true_iff, andb_false_iff. right. apply Nat.leb_gt.
  unfold code in *. lia.
Qed.

Lemma lower_not_digit s :
  all_chars not_digit s = true -> all_chars not_digit (lower s) = true.
Proof.
  induction s as [|c s IH]; [reflexivity |]. unfold lower in *. simpl.
  intros H. apply andb_true_iff in H as [Hc Hs].
  now rewrite lower_char_not_digit, IH.
Qed.

Lemma length_lower s : String.length (lower s) = String.length s.
Proof.
  induction s as [|c s IH]; [reflexivity |]. unfold lower in *. simpl.
  now rewrite IH.
Qed.

Lemma iso_search_skips text prev pos pre rest :
  all_chars not_digit pre = true ->
  exists prev',
    search_from re_iso_date text prev pos (pre +:+ rest)
    = search_from re_iso_date text prev' (String.length pre + pos) rest.
Proof.
  revert prev pos. induction pre as [|c pre IH]; intros prev pos H.
  - exists prev. reflexivity.
  - simpl in H. apply andb_true_iff in H as [Hc Hs].
    apply negb_true_iff in Hc.
    destruct (IH (Some c) (S pos) Hs) as [prev' IH'].
    exists prev'. rewrite app_cons, search_from_unfold.
    unfold re_iso_date at 1. simpl. rewrite Hc. simpl.
    rewrite IH'. f_equal. lia.
Qed.

Lemma iso_search_here text prev pos c1 c2 c3 c4 c5 c6 c7 c8 post :
  forallb is_digit [c1; c2; c3; c4; c5; c6; c7; c8] = true ->
  search_from re_iso_date text prev pos
    (iso_literal c1 c2 c3 c4 c5 c6 c7 c8 +:+ post)
  = Some (MatchObj text pos (10 + pos) [(1%nat, (pos, (10 + pos)%nat))]).
Proof.
  intros H. simpl in H.
  repeat match type of H with
         | _ && _ = true => let H' := fresh "Hd" in
                            apply andb_true_iff in H as [H' H]
         end.
  rewrite search_from_unfold. unfold iso_literal, re_iso_date.
  rewrite !app_cons. simpl.
  rewrite Hd. simpl. rewrite Hd0. simpl. rewrite Hd1. simpl.
  rewrite Hd2. simpl. rewrite Hd3. simpl. rewrite Hd4. simpl.
  rewrite Hd5. simpl. rewrite Hd6. simpl. rewrite app_nil.
  destruct post as [|c post]; simpl; rewrite ?andb_false_r; reflexivity.
Qed.

(** X17. The first text of the shape dddd-dd-dd is the
    date of the utterance as it is written, with no look at the calendar:
    when no digit comes before it, [_extract_date_tokens] returns these ten
    characters whatever the eight digits are, whatever follows them and
    whatever the clock says. *)
Theorem iso_date_is_taken_as_written (now : date) (pre post : string)
    (c1 c2 c3 c4 c5 c6 c7 c8 : ascii) :
  all_chars not_digit pre = true ->
  forallb is_digit [c1; c2; c3; c4; c5; c6; c7; c8] = true ->
  _extract_date_tokens now (pre +:+ iso_literal c1 c2 c3 c4 c5 c6 c7 c8 +:+ post)
  = Some (iso_literal c1 c2 c3 c4 c5 c6 c7 c8).
Proof.
  intros Hpre Hd. unfold _extract_date_tokens.
  assert (Hl : lower (iso_literal c1 c2 c3 c4 c5 c6 c7 c8)
               = iso_literal c1 c2 c3 c4 c5 c6 c7 c8).
  { pose proof Hd as H. simpl in H.
    repeat match type of H with
           | _ && _ = true => let H' := fresh "Hd" in
                              apply andb_true_iff in H as [H' H]
           end.
    unfold iso_literal, lower. simpl.
    rewrite (digit_lower c1), (digit_lower c2), (digit_lower c3),
      (digit_lower c4), (digit_lower c5), (digit_lower c6), (digit_lower c7),
      (digit_lower c8) by assumption.
    reflexivity. }
  rewrite !lower_app, Hl. unfold search.
  destruct (iso_search_skips
              (lower pre +:+ iso_literal c1 c2 c3 c4 c5 c6 c7 c8 +:+ lower post)
              None 0 (lower pre)
              (iso_literal c1 c2 c3 c4 c5 c6 c7 c8 +:+ lower post)
              (lower_not_digit _ Hpre)) as [prev' ->].
  rewrite iso_search_here by exact Hd.
  unfold group. simpl span_of. cbv iota beta. cbn [m_text].
  rewrite Nat.add_0_r.
  match goal with
  | |- context [String.substring _ ?k _] => replace k with 10%nat by lia
  end.
  rewrite substring_skip.
  unfold iso_literal. rewrite !app_cons. simpl.
  now destruct (lower post).
Qed.

Lemma iso_date_is_taken_as_written_witness :
  _extract_date_tokens today0 "Book from Delhi to Mumbai on 2025-13-45 please"
  = Some "2025-13-45".
Proof.
  apply (iso_date_is_taken_as_written today0 "Book from Delhi to Mumbai on "
           " please" "2" "0" "2" "5" "1" "3" "4" "5"); reflexivity.
Defined.

(** ** The booking status *)



(** ** The dispatch and the chat endpoint *)

Section ChatProperties.

Context {Price : Type} (fmt_price : Price -> string) (py_hash : string -> Z).

Local Abbreviation run_tool := (execute_tool fmt_price py_hash).
Local Abbreviation chat := (chat_endpoint fmt_price py_hash).

Lemma execute_tool_replies w tool user_input session_id customer_id
    (st : stores Price) :
  exists reply, (run_tool w tool user_input session_id customer_id st).1
                = Ok reply.
Proof.
  unfold execute_tool.
  repeat match goal with
         | |- context [if String.eqb ?a ?b then _ else _] =>
             destruct (String.eqb a b)
         end; try (eexists; reflexivity).
  apply book_replies.
Qed.

Lemma execute_tool_histories w tool user_input session_id customer_id
    (st : stores Price) :
  chat_histories (run_tool w tool user_input session_id customer_id st).2
  = chat_histories st.
Proof.
  unfold execute_tool.
  repeat match goal with
         | |- context [if String.eqb ?a ?b then _ else _] =>
             destruct (String.eqb a b)
         end; reflexivity.
Qed.

Lemma execute_tool_elsewhere w tool user_input session_id customer_id
    (st : stores Price) :
  let st' := (run_tool w tool user_input session_id customer_id st).2 in
  same_elsewhere (session_key session_id) (search_contexts st)
    (search_contexts st') /\
  same_elsewhere (session_key session_id) (booking_contexts st)
    (booking_contexts st') /\
  (customer_id = None -> booking_contexts st' = booking_contexts st).
Proof.
  unfold execute_tool.
  repeat match goal with
         | |- context [if String.eqb ?a ?b then _ else _] =>
             destruct (String.eqb a b)
         end; cbv zeta; simpl;
    repeat match goal with |- _ /\ _ => split end;
    try apply same_elsewhere_refl; try reflexivity.
  - apply find_flights_elsewhere.
  - apply book_elsewhere.
  - now intros ->.
Qed.

(** X20. Without a client, [chat_endpoint] answers every
    request (it never ends in the error 500), under the session id of the
    request or, when that is missing or empty, under the fresh uuid; and it
    appends to the history of that session the user's message and then the
    reply it returns, leaving the history of every other session as it
    was. *)
Theorem chat_turn_records_both_messages (w : world Price) (req : chat_request)
    (st : stores Price) :
  let sid := request_session w req in
  exists reply,
    (chat w req st).1 = Ok (ChatResponse (req_message req) reply sid) /\
    chat_histories (chat w req st).2 !! sid
    = Some (default [] (chat_histories st !! sid)
            ++ [ Message "user" (req_message req);
                 Message "assistant" reply ])%list /\
    (forall k, k <> sid ->
       chat_histories (chat w req st).2 !! k = chat_histories st !! k).
Proof.
  cbv zeta. unfold chat_endpoint, tool_picker. cbv zeta.
  set (sid := request_session w req).
  set (st1 := Stores _ _ _).
  destruct (execute_tool_replies w (picked_tool (req_message req))
              (req_message req) (Some sid) (request_customer w req) st1)
    as [reply Hr].
  pose proof (execute_tool_histories w (picked_tool (req_message req))
                (req_message req) (Some sid) (request_customer w req) st1)
    as Hh.
  destruct (run_tool w _ _ _ _ st1) as [r st2]. simpl in Hr, Hh. subst r.
  rewrite Hh, lookup_insert_eq. simpl.
  exists reply. split; [reflexivity |]. split.
  - rewrite lookup_insert_eq, <- app_assoc. reflexivity.
  - intros k Hk. now rewrite !lookup_insert_ne by congruence.
Qed.

(** X21. Without a client, a request touches the contexts of
    its own session only: the search context and the booking context of
    every other key are after the request what they were before; and a
    request without a token, or with one that does not verify, changes no
    booking context at all. *)
Theorem chat_turn_keeps_other_sessions (w : world Price) (req : chat_request)
    (st : stores Price) (k : string) :
  k <> session_key (Some (request_session w req)) ->
  search_contexts (chat w req st).2 !! k = search_contexts st !! k /\
  booking_contexts (chat w req st).2 !! k = booking_contexts st !! k /\
  (request_customer w req = None ->
   booking_contexts (chat w req st).2 = booking_contexts st).
Proof.
  intros Hk. unfold chat_endpoint, tool_picker. cbv zeta.
  set (sid := request_session w req) in *.
  set (st1 := Stores _ _ _).
  destruct (execute_tool_replies w (picked_tool (req_message req))
              (req_message req) (Some sid) (request_customer w req) st1)
    as [reply Hr].
  pose proof (execute_tool_histories w (picked_tool (req_message req))
                (req_message req) (Some sid) (request_customer w req) st1)
    as Hh.
  pose proof (execute_tool_elsewhere w (picked_tool (req_message req))
                (req_message req) (Some sid) (request_customer w req) st1)
    as (Hs & Hb & Hnone).
  destruct (run_tool w _ _ _ _ st1) as [r st2]. simpl in *. subst r.
  rewrite Hh, lookup_insert_eq. simpl.
  split; [now apply Hs | split; [now apply Hb | exact Hnone]].
Qed.

End ChatProperties.

Lemma chat_turn_keeps_other_sessions_witness :
  search_contexts
    (chat_endpoint rupees length_hash world0
       (ChatRequest "from Delhi to Mumbai" (Some "s1") None) stores0).2 !! "s2"
  = search_contexts stores0 !! "s2" /\
  booking_contexts
    (chat_endpoint rupees length_hash world0
       (ChatRequest "from Delhi to Mumbai" (Some "s1") None) stores0).2 !! "s2"
  = booking_contexts stores0 !! "s2" /\
  (request_customer world0 (ChatRequest "from Delhi to Mumbai" (Some "s1") None)
   = None ->
   booking_contexts
     (chat_endpoint rupees length_hash world0
        (ChatRequest "from Delhi to Mumbai" (Some "s1") None) stores0).2
   = booking_contexts stores0).
Proof.
  apply (chat_turn_keeps_other_sessions rupees length_hash world0
           (ChatRequest "from Delhi to Mumbai" (Some "s1") None) stores0 "s2").
  discriminate.
Defined.

(** ** The fallback embedder *)

Lemma lcg_step_mod h :
  lcg_step h = ((h * 6364136223846793005 + 1442695040888963407) mod 2 ^ 64)%Z.
Proof.
  unfold lcg_step. change (Z.shiftl 1 64 - 1)%Z with (Z.ones 64).
  now rewrite Z.land_ones.
Qed.

Lemma lcg_step_parity h : (lcg_step h mod 2 = (h + 1) mod 2)%Z.
Proof.
  rewrite lcg_step_mod.
  rewrite Z.mod_mod_divide by (exists (2 ^ 63)%Z; reflexivity).
  replace (h * 6364136223846793005 + 1442695040888963407)%Z
    with (h + 1 + (h * 3182068111923396502 + 721347520444481703) * 2)%Z
    by lia.
  apply Z.mod_add. lia.
Qed.

Lemma numerator_parity h : ((h mod 10000) mod 2 = h mod 2)%Z.
Proof. apply Z.mod_mod_divide. exists 5000%Z. reflexivity. Qed.

(** X22. The vector [_text_to_vector] builds has [dim]
    components, each one a whole number of ten-thousandths in [0, 1); and
    two components in a row never have numerators of the same parity, as
    the generator steps by an odd multiplier and an odd increment modulo
    2^64, so the pseudo-random numbers alternate between even and odd. *)
Theorem text_to_vector_shape (py_hash : string -> Z) (dim : nat)
    (text : string) :
  let vec := _text_to_vector py_hash dim text in
  length vec = dim /\
  Forall (fun n => (0 <= n < 10000)%Z) vec /\
  (forall i a b,
     vec !! i = Some a -> vec !! S i = Some b -> ((a + b) mod 2 = 1)%Z).
Proof.
  unfold _text_to_vector. cbv zeta. generalize (Z.abs (py_hash text)).
  intros h.
  revert h. induction dim as [|n IH]; intros h; simpl.
  - repeat split; [constructor | intros i a b H; discriminate].
  - destruct (IH (lcg_step h)) as (Hlen & Hall & Hpar).
    split; [now rewrite Hlen |]. split.
    + constructor; [apply Z.mod_pos_bound; lia | exact Hall].
    + intros [|i] a b Ha Hb; simpl in Ha, Hb; [| eapply Hpar; eassumption].
      injection Ha as <-. destruct n as [|n]; [discriminate |].
      simpl in Hb. injection Hb as <-.
      set (x := lcg_step h).
      rewrite Z.add_mod by lia.
      rewrite !numerator_parity, (lcg_step_parity x).
      rewrite <- Z.add_mod by lia.
      replace (x + (x + 1))%Z with (1 + x * 2)%Z by lia.
      now rewrite Z.mod_add by lia.
Qed.

(** ** Cities of the vocabulary *)

Lemma first_such_in {A} (p : A -> bool) l :
  forall x, first_such p l = Some x -> In x l.
Proof. intros x H. now apply find_some in H. Qed.

Lemma first_such_vocabulary p : in_vocabulary (first_such p cities).
Proof. intros c H. eapply first_such_in, H. Qed.

Lemma insert_by_idx_in x l y :
  In y (insert_by_idx x l) -> y = x \/ In y l.
Proof.
  induction l as [|z l IH]; simpl.
  - intros [<-|[]]. now left.
  - destruct (fst z <=? fst x)%Z; simpl.
    + intros [<-|H]; [right; now left |].
      destruct (IH H) as [->|H']; [now left | right; now right].
    + intros [<-|[<-|H]]; [now left | right; now left | right; now right].
Qed.

Lemma sort_by_idx_in l y : In y (sort_by_idx l) -> In y l.
Proof.
  unfold sort_by_idx.
  assert (H : forall acc,
            In y (fold_left (fun acc x => insert_by_idx x acc) l acc) ->
            In y acc \/ In y l).
  { induction l as [|x l IH]; intros acc; simpl; [now left |].
    intros Hy. destruct (IH _ Hy) as [Hacc|Hl]; [| right; now right].
    destruct (insert_by_idx_in _ _ _ Hacc) as [->|Ha];
      [right; now left | now left]. }
  intros Hy. destruct (H [] Hy) as [[]|Hl]. exact Hl.
Qed.

Lemma city_occurrences_in txt x :
  In x (city_occurrences txt) -> In (snd x) cities.
Proof.
  unfold city_occurrences. intros H. apply sort_by_idx_in in H.
  apply in_map_iff in H as (c & <- & Hc). simpl.
  now apply filter_In in Hc.
Qed.

Lemma index_list_in {A} (l : list A) i x : index_list l i = Ok x -> In x l.
Proof.
  unfold index_list. destruct (l !! i) eqn:E; [| discriminate].
  intros [= <-]. apply list_elem_of_In. eapply list_elem_of_lookup_2, E.
Qed.

Lemma city_fallback_vocabulary txt o d cp :
  in_vocabulary o -> in_vocabulary d -> city_fallback txt o d = Ok cp ->
  in_vocabulary (cp_origin cp) /\ in_vocabulary (cp_destination cp).
Proof.
  intros Ho Hd. unfold city_fallback.
  assert (Hi : forall i x, index_list (city_occurrences txt) i = Ok x ->
                           in_vocabulary (Some (snd x))).
  { intros i x H c [= <-]. eapply city_occurrences_in, index_list_in, H. }
  repeat match goal with
         | |- context [if ?b then _ else _] => destruct b
         end;
    repeat match goal with
           | |- context [index_list ?l ?i] =>
               let E := fresh "E" in
               destruct (index_list l i) eqn:E; [apply Hi in E |]
           end;
    intros [= <-]; simpl; auto.
Qed.

Lemma extract_city_tokens_vocabulary text cp :
  _extract_city_tokens text = Ok cp ->
  in_vocabulary (cp_origin cp) /\ in_vocabulary (cp_destination cp).
Proof.
  unfold _extract_city_tokens.
  destruct (search re_from_to _);
    [intros [= <-]; split; apply first_such_vocabulary |].
  destruct (search re_x_to_y _);
    [intros [= <-]; split; apply first_such_vocabulary |].
  destruct (search re_going _).
  { intros [= <-]; split; [discriminate | apply first_such_vocabulary]. }
  apply city_fallback_vocabulary.
  - destruct (search re_from _); [apply first_such_vocabulary | discriminate].
  - destruct (search re_to _); [apply first_such_vocabulary | discriminate].
Qed.

(** X18. A city [_extract_city_tokens] returns is an entry of
    its vocabulary, whatever the text; and so the slot merges keep the
    origin and the destination of a context inside the vocabulary: the
    collaborator is never asked for a city the module does not know. *)
Theorem extracted_cities_are_vocabulary :
  (forall text cp,
     _extract_city_tokens text = Ok cp ->
     in_vocabulary (cp_origin cp) /\ in_vocabulary (cp_destination cp)) /\
  (forall now query ctx ctx',
     in_vocabulary (sc_origin ctx) -> in_vocabulary (sc_destination ctx) ->
     search_merge now query ctx = Ok ctx' ->
     in_vocabulary (sc_origin ctx') /\ in_vocabulary (sc_destination ctx')) /\
  (forall (Price : Type) now txt (ctx ctx' : booking_ctx Price),
     in_vocabulary (bc_origin ctx) -> in_vocabulary (bc_destination ctx) ->
     book_merge now txt ctx = Ok ctx' ->
     in_vocabulary (bc_origin ctx') /\ in_vocabulary (bc_destination ctx')).
Proof.
  split; [exact extract_city_tokens_vocabulary |]. split.
  - intros now query ctx ctx' Ho Hd. unfold search_merge.
    destruct (_extract_city_tokens query) as [cp|] eqn:E; [| discriminate].
    apply extract_city_tokens_vocabulary in E as [Eo Ed].
    intros [= <-].
    repeat match goal with
           | |- context [if ?b then _ else _] => destruct b
           end; simpl; auto.
  - intros Price now txt ctx ctx' Ho Hd. unfold book_merge.
    destruct (_extract_city_tokens txt) as [cp|] eqn:E; [| discriminate].
    apply extract_city_tokens_vocabulary in E as [Eo Ed].
    intros [= <-].
    repeat match goal with
           | |- context [if ?b then _ else _] => destruct b
           end; simpl; auto.
Qed.
